(** * dcgm-exporter: metric builders and MIG power attribution

    A shallow embedding of [pkg/dcgmexporter/gpu_collector.go] (the revision
    with the clamped idle power and the weighted active-power formula):
    [ToString], [FindCounterField], the three metric builders,
    [generateMigCache], [processMigCacheForPower] and [migDeviceResource].

    - Go's [float64] is an interface [Float64] with two instances: IEEE
      binary64 (Rocq's primitive floats, bit for bit what the Go code
      computes) and exact rational arithmetic with one undefined value (for
      the algebraic laws of the attribution formula).
    - A Go run-time panic (index out of range) and [logrus.Fatal] are the two
      faults of the [outcome] monad.
    - The [labels] map of a builder pass is a Go reference: every metric of
      the pass holds the same map.  Metrics therefore hold a location into a
      store of label maps, and the builders update the store in place. *)

From Stdlib Require Import ZArith NArith QArith Qcanon Lia Floats String Ascii DecimalString.
From Stdlib Require Import DecimalPos DecimalZ.
From stdpp Require Import base option list gmap strings.

Local Open Scope string_scope.
Local Open Scope Z_scope.

(** ** Faults *)

Inductive fault : Type :=
  | IndexOutOfRange   (* run-time panic: index out of range *)
  | FatalExit.        (* logrus.Fatal: the process exits *)

Inductive outcome (A : Type) : Type :=
  | Ok (a : A)
  | Fault (e : fault).
Arguments Ok {A} a.
Arguments Fault {A} e.

#[global] Instance outcome_ret : MRet outcome := fun A a => Ok a.
#[global] Instance outcome_bind : MBind outcome := fun A B f m =>
  match m with
  | Ok a => f a
  | Fault e => Fault e
  end.

(** ** Strings: [string(b)], [strconv.Atoi], [%d] *)

(** [s[0]]: the first byte of a Go string, a panic on the empty string. *)
Definition first_byte (s : string) : outcome ascii :=
  match s with
  | EmptyString => Fault IndexOutOfRange
  | String b _ => Ok b
  end.

(** [string(b)] for a byte [b]: the UTF-8 encoding of the code point [b]. *)
Definition string_of_byte (b : ascii) : string :=
  let n := N_of_ascii b in
  if (n <? 128)%N then String b EmptyString
  else String (ascii_of_N (192 + n / 64)) (String (ascii_of_N (128 + n mod 64)) EmptyString).

Definition digit_of (c : ascii) : option Z :=
  let n := Z.of_N (N_of_ascii c) in
  if (48 <=? n) && (n <=? 57) then Some (n - 48) else None.

Fixpoint parse_digits (s : string) (acc : Z) : option Z :=
  match s with
  | EmptyString => Some acc
  | String c s' =>
      match digit_of c with
      | Some d => parse_digits s' (acc * 10 + d)
      | None => None
      end
  end.

(** [strconv.Atoi] on a 64-bit platform: an optional sign, one or more
    decimal digits, a value in the range of [int]; [None] is [err != nil]. *)
Definition Atoi (s : string) : option Z :=
  match s with
  | EmptyString => None
  | String c rest =>
      let neg := Ascii.eqb c "-" in
      let body := if neg || Ascii.eqb c "+" then rest else s in
      match body with
      | EmptyString => None
      | _ =>
          match parse_digits body 0 with
          | Some n =>
              let v := if neg then - n else n in
              if (- 2 ^ 63 <=? v) && (v <? 2 ^ 63) then Some v else None
          | None => None
          end
      end
  end.

(** [fmt.Sprintf("%d", n)] *)
Definition Sprintf_d (n : Z) : string := NilZero.string_of_int (Z.to_int n).

(** ** The float64 interface *)

Class Float64 (F : Type) : Type := {
  fzero : F;                                  (* the zero value 0.0 *)
  fadd : F -> F -> F;
  fsub : F -> F -> F;
  fmul : F -> F -> F;
  fdiv : F -> F -> F;
  fgt : F -> F -> bool;                       (* a > b *)
  feq : F -> F -> bool;                       (* a == b *)
  of_int : Z -> F;                            (* float64(n) *)
  lit : Z -> Z -> F;                          (* the constant n/d, d a power of ten *)
  ParseFloat : string -> option F;            (* strconv.ParseFloat(s, 64), None is err != nil *)
  Sprintf_f : F -> string                     (* fmt.Sprintf("%f", x) *)
}.

Declare Scope f64_scope.
Delimit Scope f64_scope with f64.
Infix "+" := fadd : f64_scope.
Infix "-" := fsub : f64_scope.
Infix "*" := fmul : f64_scope.
Infix "/" := fdiv : f64_scope.

(** *** IEEE binary64

    Every operation is rounded on its own, to nearest even, as the Go
    compiler emits them where it does not fuse a multiplication with an
    addition (amd64). *)

Module Binary64.

Definition float_of_Z (n : Z) : float := SF2Prim (binary_normalize prec emax n 0 false).

Definition float_lit (n d : Z) : float := PrimFloat.div (float_of_Z n) (float_of_Z d).

Definition sign_string (s : bool) : string := if s then "-" else "".

(** [digits] left-padded with zeros to length [n]. *)
Fixpoint zeros (n : nat) : string :=
  match n with
  | O => EmptyString
  | S n' => String "0" (zeros n')
  end.

Definition pad_left (n : nat) (digits : string) : string :=
  zeros (n - String.length digits) ++ digits.

(** The nearest integer to [m * 2^e * 10^6], ties to even. *)
Definition scaled6 (m e : Z) : Z :=
  if 0 <=? e then m * 2 ^ e * 1000000
  else
    let num := m * 1000000 in
    let den := 2 ^ (- e) in
    let q := num / den in
    let r := num mod den in
    if 2 * r <? den then q
    else if den <? 2 * r then q + 1
    else if Z.even q then q else q + 1.

Definition fixed6 (m e : Z) : string :=
  let r := scaled6 m e in
  Sprintf_d (r / 1000000) ++ "." ++ pad_left 6 (Sprintf_d (r mod 1000000)).

(** [fmt.Sprintf("%f", x)]: six decimals, correctly rounded. *)
Definition format_f (x : float) : string :=
  match Prim2SF x with
  | S754_nan => "NaN"
  | S754_infinity s => (if s then "-" else "+") ++ "Inf"
  | S754_zero s => sign_string s ++ "0.000000"
  | S754_finite s m e => sign_string s ++ fixed6 (Zpos m) e
  end.

(** The digits of [s] as one number, and how many of them follow the point;
    [None] if [s] is not of the form [digits] or [digits.digits]. *)
Fixpoint scan_decimal (s : string) (acc : Z) (seen : bool) (frac : option Z) : option (Z * Z) :=
  match s with
  | EmptyString => if seen then Some (acc, default 0 frac) else None
  | String c s' =>
      if Ascii.eqb c "." then
        match frac with
        | None => scan_decimal s' acc seen (Some 0)
        | Some _ => None
        end
      else
        match digit_of c with
        | Some d => scan_decimal s' (acc * 10 + d) true (Z.succ <$> frac)
        | None => None
        end
  end.

(** [strconv.ParseFloat(s, 64)] on plain decimal numerals whose digits fit
    the 53-bit mantissa (the exact path of [strconv]: one correctly rounded
    division); every other string is left unparsed by this sample parser. *)
Definition parse_decimal (s : string) : option float :=
  match s with
  | EmptyString => None
  | String c rest =>
      let neg := Ascii.eqb c "-" in
      let body := if neg || Ascii.eqb c "+" then rest else s in
      match scan_decimal body 0 false None with
      | Some (m, k) =>
          if (m <? 2 ^ 53) && (k <=? 22) then
            let x := PrimFloat.div (float_of_Z m) (float_of_Z (10 ^ k)) in
            Some (if neg then PrimFloat.opp x else x)
          else None
      | None => None
      end
  end.

Definition float64 (parse : string -> option float) : Float64 float := {|
  fzero := PrimFloat.zero;
  fadd := PrimFloat.add;
  fsub := PrimFloat.sub;
  fmul := PrimFloat.mul;
  fdiv := PrimFloat.div;
  fgt := fun a b => PrimFloat.ltb b a;
  feq := PrimFloat.eqb;
  of_int := float_of_Z;
  lit := float_lit;
  ParseFloat := parse;
  Sprintf_f := format_f
|}.

End Binary64.

(** *** Exact rational arithmetic

    The same operations on rationals, without rounding.  [None] is the one
    undefined value: the result of a division by zero, absorbing, and unequal
    to everything including itself (as NaN is).  There are no infinities:
    IEEE's [x/0 = Inf] for a non-zero [x] is out of this instance's range. *)

Module Exact.

Definition num : Type := option Qc.

Definition lift2 (f : Qc -> Qc -> Qc) (a b : num) : num :=
  match a, b with
  | Some x, Some y => Some (f x y)
  | _, _ => None
  end.

Definition div (a b : num) : num :=
  match a, b with
  | Some x, Some y => if Qc_eq_dec y 0%Qc then None else Some (x / y)%Qc
  | _, _ => None
  end.

Definition gt (a b : num) : bool :=
  match a, b with
  | Some x, Some y => match (x ?= y)%Qc with Gt => true | _ => false end
  | _, _ => false
  end.

Definition eq (a b : num) : bool :=
  match a, b with
  | Some x, Some y => if Qc_eq_dec x y then true else false
  | _, _ => false
  end.

Definition exact64 (parse : string -> option num) (format : num -> string) : Float64 num := {|
  fzero := Some 0%Qc;
  fadd := lift2 Qcplus;
  fsub := lift2 Qcminus;
  fmul := lift2 Qcmult;
  fdiv := div;
  fgt := gt;
  feq := eq;
  of_int := fun n => Some (Q2Qc (inject_Z n));
  lit := fun n d => Some (Q2Qc (n # Z.to_pos d));
  ParseFloat := parse;
  Sprintf_f := format
|}.

End Exact.

(** ** Package dcgm (go-dcgm): the types and constants the collector uses *)

Module dcgm.

(** A sample.  [Int64], [Float64] and [String] are the three readings of the
    payload that the accessor methods of the same names return. *)
Record FieldValue_v1 {F : Type} : Type := {
  FieldId : N;
  FieldType : N;
  Int64 : Z;
  Float64 : F;
  String : string
}.
Arguments FieldValue_v1 F : clear implicits.

Record Device : Type := {
  GPU : N;
  UUID : string;
  Identifiers_Model : string
}.

Record GroupEntityPair : Type := {
  EntityGroupId : N;
  EntityId : N
}.

(** An [error] value: a [DcgmError] with its code, or any other error. *)
Inductive error : Type :=
  | DcgmError (Code : Z)
  | OtherError (msg : string).

End dcgm.

(** The constants of package dcgm, by their Go names. *)
Class DcgmConstants (F : Type) : Type := {
  DCGM_FT_DOUBLE : N;
  DCGM_FT_INT64 : N;
  DCGM_FT_STRING : N;
  DCGM_FT_INT32_BLANK : Z;
  DCGM_FT_INT32_NOT_FOUND : Z;
  DCGM_FT_INT32_NOT_SUPPORTED : Z;
  DCGM_FT_INT32_NOT_PERMISSIONED : Z;
  DCGM_FT_INT64_BLANK : Z;
  DCGM_FT_INT64_NOT_FOUND : Z;
  DCGM_FT_INT64_NOT_SUPPORTED : Z;
  DCGM_FT_INT64_NOT_PERMISSIONED : Z;
  DCGM_FT_FP64_BLANK : F;
  DCGM_FT_FP64_NOT_FOUND : F;
  DCGM_FT_FP64_NOT_SUPPORTED : F;
  DCGM_FT_FP64_NOT_PERMISSIONED : F;
  DCGM_FT_STR_BLANK : string;
  DCGM_FT_STR_NOT_FOUND : string;
  DCGM_FT_STR_NOT_SUPPORTED : string;
  DCGM_FT_STR_NOT_PERMISSIONED : string;
  DCGM_ST_CONNECTION_NOT_VALID : Z;
  DCGM_FI_PROF_PIPE_TENSOR_ACTIVE : N;
  DCGM_FI_PROF_DRAM_ACTIVE : N;
  DCGM_FI_PROF_PIPE_FP64_ACTIVE : N;
  DCGM_FI_PROF_PIPE_FP32_ACTIVE : N;
  DCGM_FI_PROF_PIPE_FP16_ACTIVE : N
}.

(** The values go-dcgm gives them (dcgm_structs.h). *)
Definition dcgm_constants {F : Type} `{Float64 F} : DcgmConstants F := {|
  DCGM_FT_DOUBLE := 100;               (* 'd' *)
  DCGM_FT_INT64 := 105;                (* 'i' *)
  DCGM_FT_STRING := 115;               (* 's' *)
  DCGM_FT_INT32_BLANK := 2147483632;
  DCGM_FT_INT32_NOT_FOUND := 2147483633;
  DCGM_FT_INT32_NOT_SUPPORTED := 2147483634;
  DCGM_FT_INT32_NOT_PERMISSIONED := 2147483635;
  DCGM_FT_INT64_BLANK := 9223372036854775792;
  DCGM_FT_INT64_NOT_FOUND := 9223372036854775793;
  DCGM_FT_INT64_NOT_SUPPORTED := 9223372036854775794;
  DCGM_FT_INT64_NOT_PERMISSIONED := 9223372036854775795;
  DCGM_FT_FP64_BLANK := of_int 140737488355328;
  DCGM_FT_FP64_NOT_FOUND := of_int 140737488355329;
  DCGM_FT_FP64_NOT_SUPPORTED := of_int 140737488355330;
  DCGM_FT_FP64_NOT_PERMISSIONED := of_int 140737488355331;
  DCGM_FT_STR_BLANK := "<<<NULL>>>";
  DCGM_FT_STR_NOT_FOUND := "<<<NOT_FOUND>>>";
  DCGM_FT_STR_NOT_SUPPORTED := "<<<NOT_SUPPORTED>>>";
  DCGM_FT_STR_NOT_PERMISSIONED := "<<<NOT_PERM>>>";
  DCGM_ST_CONNECTION_NOT_VALID := -21;
  DCGM_FI_PROF_PIPE_TENSOR_ACTIVE := 1004;
  DCGM_FI_PROF_DRAM_ACTIVE := 1005;
  DCGM_FI_PROF_PIPE_FP64_ACTIVE := 1006;
  DCGM_FI_PROF_PIPE_FP32_ACTIVE := 1007;
  DCGM_FI_PROF_PIPE_FP16_ACTIVE := 1008
|}.

(** ** Package dcgmexporter: types *)

(** Locations of label maps: a Go [map[string]string] is a reference. *)
Definition loc : Type := nat.
Abbreviation label_store := (list (gmap string string)).

(** Modelled from the spec: the struct declarations of the package (Counter,
    Metric, GPUInstanceInfo, MonitoringInfo, MigResourceCache, MigResources)
    are not in gpu_collector.go.  Each record has the fields the collector
    reads or writes, under their Go names, with the types that the uses and
    the data model of the spec give them. *)
Record Counter : Type := {
  FieldID : N;                (* dcgm.Short *)
  FieldName : string;
  PromType : string;
  Help : string
}.

#[global] Instance Counter_eq_dec : EqDecision Counter.
Proof. solve_decision. Defined.

#[global] Instance Counter_countable : Countable Counter :=
  inj_countable'
    (fun c => (FieldID c, FieldName c, PromType c, Help c))
    (fun t => match t with (i, n, p, h) => Build_Counter i n p h end)
    (fun c => match c with Build_Counter _ _ _ _ => eq_refl end).

Module Metric.
Record t : Type := {
  Counter : Counter;
  Value : string;
  GPU : string;
  GPUUUID : string;
  GPUDevice : string;
  GPUModelName : string;
  UUID : string;
  MigProfile : string;
  GPUInstanceID : string;
  Hostname : string;
  Labels : loc;                                (* the shared label map *)
  Attributes : option (gmap string string)     (* None is nil *)
}.
End Metric.

Abbreviation MetricsByCounter := (gmap Counter (list Metric.t)).

(** The state of a builder pass: [metrics] and the store holding [labels]. *)
Abbreviation builder_state := (gmap Counter (list Metric.t) * list (gmap string string))%type.

Record GPUInstanceInfo : Type := {
  ProfileName : string;
  Info_NvmlInstanceId : N
}.

Record MonitoringInfo : Type := {
  Entity : dcgm.GroupEntityPair;
  DeviceInfo : dcgm.Device;
  InstanceInfo : option GPUInstanceInfo;     (* None is nil *)
  ParentId : N
}.

Record MigResourceCache {F : Type} : Type := {
  Tensor : F;
  Dram : F;
  FP64 : F;
  FP32 : F;
  FP16 : F
}.
Arguments MigResourceCache F : clear implicits.
Arguments Build_MigResourceCache {F} _ _ _ _ _.

Record MigResources {F : Type} : Type := {
  ResourceCache : MigResourceCache F;
  Profile : string;
  ID : string
}.
Arguments MigResources F : clear implicits.
Arguments Build_MigResources {F} _ _ _.

(** Modelled from the spec: the two markers of the value normalizer, which
    gpu_collector.go uses and another file of the package declares.  The spec
    names them the skip marker and the conversion failed marker and requires
    them to differ; the strings are the exporter's. *)
Definition SkipDCGMValue : string := "SKIPPING DCGM VALUE".
Definition FailedToConvert : string := "ERROR - FAILED TO CONVERT TO STRING".

(** ** Package dcgmexporter: gpu_collector.go *)

(** [for _, x := range l { body }] over a state, stopping at the first fault. *)
Fixpoint for_range {A S : Type} (body : S -> A -> outcome S) (l : list A) (s : S) : outcome S :=
  match l with
  | [] => Ok s
  | x :: l' => s' ← body s x; for_range body l' s'
  end.

(** [strings.Join(parts, sep)] *)
Fixpoint Join (parts : list string) (sep : string) : string :=
  match parts with
  | [] => ""
  | [p] => p
  | p :: rest => p ++ sep ++ Join rest sep
  end.

(** [strings.ReplaceAll(s, " ", "-")] *)
Fixpoint ReplaceAll_space_hyphen (s : string) : string :=
  match s with
  | EmptyString => EmptyString
  | String c s' => String (if Ascii.eqb c " " then "-"%char else c) (ReplaceAll_space_hyphen s')
  end.

Section Collector.

Context {F : Type} `{Float64 F} `{DcgmConstants F}.

(** The external collaborators: [strings.Fields], and the sampling call of
    go-dcgm, which reads the state of the monitoring service. *)
Variable Fields : string -> list string.
Variable World : Type.
Variable EntityGetLatestValues :
  World -> N -> N -> list N -> list (dcgm.FieldValue_v1 F) * option dcgm.error * World.

Definition ToString (value : dcgm.FieldValue_v1 F) : string :=
  if decide (dcgm.FieldType value = DCGM_FT_INT64) then
    let v := dcgm.Int64 value in
    if decide (v = DCGM_FT_INT32_BLANK) then SkipDCGMValue
    else if decide (v = DCGM_FT_INT32_NOT_FOUND) then SkipDCGMValue
    else if decide (v = DCGM_FT_INT32_NOT_SUPPORTED) then SkipDCGMValue
    else if decide (v = DCGM_FT_INT32_NOT_PERMISSIONED) then SkipDCGMValue
    else if decide (v = DCGM_FT_INT64_BLANK) then SkipDCGMValue
    else if decide (v = DCGM_FT_INT64_NOT_FOUND) then SkipDCGMValue
    else if decide (v = DCGM_FT_INT64_NOT_SUPPORTED) then SkipDCGMValue
    else if decide (v = DCGM_FT_INT64_NOT_PERMISSIONED) then SkipDCGMValue
    else Sprintf_d (dcgm.Int64 value)
  else if decide (dcgm.FieldType value = DCGM_FT_DOUBLE) then
    let v := dcgm.Float64 value in
    if feq v DCGM_FT_FP64_BLANK then SkipDCGMValue
    else if feq v DCGM_FT_FP64_NOT_FOUND then SkipDCGMValue
    else if feq v DCGM_FT_FP64_NOT_SUPPORTED then SkipDCGMValue
    else if feq v DCGM_FT_FP64_NOT_PERMISSIONED then SkipDCGMValue
    else Sprintf_f (dcgm.Float64 value)
  else if decide (dcgm.FieldType value = DCGM_FT_STRING) then
    let v := dcgm.String value in
    if decide (v = DCGM_FT_STR_BLANK) then SkipDCGMValue
    else if decide (v = DCGM_FT_STR_NOT_FOUND) then SkipDCGMValue
    else if decide (v = DCGM_FT_STR_NOT_SUPPORTED) then SkipDCGMValue
    else if decide (v = DCGM_FT_STR_NOT_PERMISSIONED) then SkipDCGMValue
    else v
  else FailedToConvert.

(** The loop of [FindCounterField]: the first counter with the field ID. *)
Fixpoint find_counter (c : list Counter) (fieldId : N) : option Counter :=
  match c with
  | [] => None
  | ci :: rest => if decide (FieldID ci = fieldId) then Some ci else find_counter rest fieldId
  end.

Definition not_found_message (fieldId : N) : string :=
  "could not find counter corresponding to field ID '" ++ Sprintf_d (Z.of_N fieldId) ++ "'".

(** The pair [(Counter, error)]; [None] is the nil error.  The not-found
    return evaluates [c[0]]. *)
Definition FindCounterField (c : list Counter) (fieldId : N) : outcome (Counter * option string) :=
  match find_counter c fieldId with
  | Some ci => Ok (ci, None)
  | None =>
      match c with
      | [] => Fault IndexOutOfRange
      | c0 :: _ => Ok (c0, Some (not_found_message fieldId))
      end
  end.

Definition min (a b : F) : F := if fgt a b then b else a.

(** The weighting of one cached device inside the loop of
    [processMigCacheForPower]. *)
Definition feature_weights : MigResourceCache F :=
  Build_MigResourceCache (lit 338 1000) (lit 152 1000) (lit 17 100) (lit 17 100) (lit 17 100).

Definition scale_device (device : MigResources F) (scaling_factor : F) : MigResources F :=
  let r := ResourceCache device in
  Build_MigResources
    (Build_MigResourceCache
       (Tensor r * scaling_factor * Tensor feature_weights)%f64
       (Dram r * scaling_factor * Dram feature_weights)%f64
       (FP64 r * scaling_factor * FP64 feature_weights)%f64
       (FP32 r * scaling_factor * FP32 feature_weights)%f64
       (FP16 r * scaling_factor * FP16 feature_weights)%f64)
    (Profile device) (ID device).

Definition add_resources (total r : MigResourceCache F) : MigResourceCache F :=
  Build_MigResourceCache
    (Tensor total + Tensor r)%f64 (Dram total + Dram r)%f64 (FP64 total + FP64 r)%f64
    (FP32 total + FP32 r)%f64 (FP16 total + FP16 r)%f64.

Definition summed (r : MigResourceCache F) : F :=
  (Tensor r + Dram r + FP64 r + FP32 r + FP16 r)%f64.

Definition zero_cache : MigResourceCache F :=
  Build_MigResourceCache fzero fzero fzero fzero fzero.

(** The state of the loop: [totalResource] and [mig_instance]; [inr] is the
    early [return 0.0, err]. *)
Definition power_loop_state : Type := (MigResourceCache F * MigResources F) + (F * string).

Definition power_loop_body (id : string) (st : power_loop_state) (device : MigResources F)
  : outcome power_loop_state :=
  match st with
  | inr e => Ok (inr e)
  | inl (totalResource, mig_instance) =>
      b ← first_byte (Profile device);
      match Atoi (string_of_byte b) with
      | None => Ok (inr (fzero, "No profile scaling factor found"))
      | Some s_factor =>
          let device := scale_device device (of_int s_factor) in
          let totalResource := add_resources totalResource (ResourceCache device) in
          Ok (inl (totalResource, if decide (ID device = id) then device else mig_instance))
      end
  end.

Definition processMigCacheForPower (m : list (MigResources F)) (id : string) (active_power : F)
  : outcome (F * option string) :=
  st ← for_range (power_loop_body id) m
         (inl (zero_cache, Build_MigResources zero_cache "" ""));
  match st with
  | inr (x, e) => Ok (x, Some e)
  | inl (totalResource, mig_instance) =>
      let summed_total_metrics := summed totalResource in
      let summed_instance_metrics := summed (ResourceCache mig_instance) in
      let active_power_scaled := (active_power * summed_instance_metrics / summed_total_metrics)%f64 in
      if negb (feq active_power_scaled active_power_scaled)
      then Ok (fzero, Some "Error computing active power")
      else Ok (active_power_scaled, None)
  end.

Definition migDeviceResource (v profile id : string) (gpu : N) (counter : Counter)
    (migResourceCache : gmap N (list (MigResources F))) : outcome string :=
  if negb (bool_decide (FieldID counter = 155%N)) then Ok v
  else
    b ← first_byte profile;
    match Atoi (string_of_byte b) with
    | None => Ok v
    | Some scaling_factor =>
        match ParseFloat v with
        | None => Ok v
        | Some value =>
            let scaled_idle_power := (min (of_int 90) value * of_int scaling_factor / of_int 7)%f64 in
            let active_power := (value - min (of_int 90) value)%f64 in
            match migResourceCache !! gpu with
            | None => Ok v
            | Some cachedResource =>
                r ← processMigCacheForPower cachedResource id active_power;
                let scaled_active_power :=
                  match r with
                  | (_, Some _) => (active_power * of_int scaling_factor / of_int 7)%f64
                  | (x, None) => x
                  end in
                let total_power := (scaled_active_power + scaled_idle_power)%f64 in
                Ok (Sprintf_f total_power)
            end
        end
    end.

Definition getGPUModel (d : dcgm.Device) (replaceBlanksInModelName : bool) : string :=
  let gpuModel := dcgm.Identifiers_Model d in
  if replaceBlanksInModelName
  then ReplaceAll_space_hyphen (Join (Fields gpuModel) " ")
  else gpuModel.

(** *** The metric builders

    One iteration of a builder's loop does one of three things to the state
    of the pass: nothing ([continue]), [labels[name] = v], or
    [metrics[m.Counter] = append(metrics[m.Counter], m)]. *)

Inductive pass_step : Type :=
  | Continue
  | SetLabel (name v : string)
  | Append (m : Metric.t).

(** [metrics[m.Counter] = append(metrics[m.Counter], m)] *)
Definition append_metric (metrics : MetricsByCounter) (m : Metric.t) : MetricsByCounter :=
  <[Metric.Counter m := (metrics !!! Metric.Counter m ++ [m])%list]> metrics.

(** [labels[name] = v] on the map at location [labels]. *)
Definition set_label (store : label_store) (labels : loc) (name v : string) : label_store :=
  alter (insert name v) labels store.

Definition apply_step (labels : loc) (st : builder_state) (k : pass_step) : builder_state :=
  match k with
  | Continue => st
  | SetLabel name v => (st.1, set_label st.2 labels name v)
  | Append m => (append_metric st.1 m, st.2)
  end.

(** [labels := map[string]string{}; for _, val := range values { step }]:
    [labels] is a fresh map, at the next free location of the store. *)
Definition builder_pass (step : loc -> dcgm.FieldValue_v1 F -> outcome pass_step)
    (metrics : MetricsByCounter) (store : label_store) (values : list (dcgm.FieldValue_v1 F))
  : outcome builder_state :=
  let labels := length store in
  for_range (fun st val => k ← step labels val; Ok (apply_step labels st k))
    values (metrics, (store ++ [∅])%list).

Definition ToMetric_step (c : list Counter) (d : dcgm.Device)
    (instanceInfo : option GPUInstanceInfo) (useOld : bool) (hostname : string)
    (replaceBlanksInModelName : bool) (migResourceCache : gmap N (list (MigResources F)))
    (labels : loc) (val : dcgm.FieldValue_v1 F) : outcome pass_step :=
  let v := ToString val in
  if decide (v = SkipDCGMValue) then Ok Continue
  else
    r ← FindCounterField c (dcgm.FieldId val);
    match r with
    | (_, Some _) => Ok Continue
    | (counter, None) =>
        if decide (PromType counter = "label")
        then Ok (SetLabel (FieldName counter) v)
        else
          let uuid := if useOld then "uuid" else "UUID" in
          let gpuModel := getGPUModel d replaceBlanksInModelName in
          mig ← match instanceInfo with
                | Some instanceInfo =>
                    let GPUInstanceID := Sprintf_d (Z.of_N (Info_NvmlInstanceId instanceInfo)) in
                    value ← migDeviceResource v (ProfileName instanceInfo) GPUInstanceID
                              (dcgm.GPU d) counter migResourceCache;
                    Ok (ProfileName instanceInfo, GPUInstanceID, value)
                | None => Ok ("", "", v)
                end;
          Ok (Append {|
            Metric.Counter := counter;
            Metric.Value := mig.2;
            Metric.UUID := uuid;
            Metric.GPU := Sprintf_d (Z.of_N (dcgm.GPU d));
            Metric.GPUUUID := dcgm.UUID d;
            Metric.GPUDevice := "nvidia" ++ Sprintf_d (Z.of_N (dcgm.GPU d));
            Metric.GPUModelName := gpuModel;
            Metric.Hostname := hostname;
            Metric.Labels := labels;
            Metric.Attributes := Some ∅;
            Metric.MigProfile := mig.1.1;
            Metric.GPUInstanceID := mig.1.2
          |})
    end.

Definition ToMetric (metrics : MetricsByCounter) (store : label_store)
    (values : list (dcgm.FieldValue_v1 F)) (c : list Counter) (d : dcgm.Device)
    (instanceInfo : option GPUInstanceInfo) (useOld : bool) (hostname : string)
    (replaceBlanksInModelName : bool) (migResourceCache : gmap N (list (MigResources F)))
  : outcome builder_state :=
  builder_pass
    (ToMetric_step c d instanceInfo useOld hostname replaceBlanksInModelName migResourceCache)
    metrics store values.

(** The iteration that [ToSwitchMetric] and [ToCPUMetric] share word for
    word, up to the device name [GPUDevice]. *)
Definition entity_step (GPUDevice : string) (c : list Counter) (mi : MonitoringInfo)
    (useOld : bool) (hostname : string)
    (labels : loc) (val : dcgm.FieldValue_v1 F) : outcome pass_step :=
  let v := ToString val in
  r ← FindCounterField c (dcgm.FieldId val);
  match r with
  | (_, Some _) => Ok Continue
  | (counter, None) =>
      if decide (PromType counter = "label")
      then Ok (SetLabel (FieldName counter) v)
      else
        let uuid := if useOld then "uuid" else "UUID" in
        if decide (v = SkipDCGMValue) then Ok Continue
        else
          Ok (Append {|
            Metric.Counter := counter;
            Metric.Value := v;
            Metric.UUID := uuid;
            Metric.GPU := Sprintf_d (Z.of_N (dcgm.EntityId (Entity mi)));
            Metric.GPUUUID := "";
            Metric.GPUDevice := GPUDevice;
            Metric.GPUModelName := "";
            Metric.Hostname := hostname;
            Metric.Labels := labels;
            Metric.Attributes := None;
            Metric.MigProfile := "";
            Metric.GPUInstanceID := ""
          |})
  end.

Definition ToSwitchMetric (metrics : MetricsByCounter) (store : label_store)
    (values : list (dcgm.FieldValue_v1 F)) (c : list Counter) (mi : MonitoringInfo)
    (useOld : bool) (hostname : string) : outcome builder_state :=
  builder_pass
    (entity_step ("nvswitch" ++ Sprintf_d (Z.of_N (ParentId mi))) c mi useOld hostname)
    metrics store values.

Definition ToCPUMetric (metrics : MetricsByCounter) (store : label_store)
    (values : list (dcgm.FieldValue_v1 F)) (c : list Counter) (mi : MonitoringInfo)
    (useOld : bool) (hostname : string) : outcome builder_state :=
  builder_pass
    (entity_step (Sprintf_d (Z.of_N (ParentId mi))) c mi useOld hostname)
    metrics store values.

(** *** The MIG resource cache *)

Definition fileds : list N :=
  [DCGM_FI_PROF_PIPE_TENSOR_ACTIVE; DCGM_FI_PROF_DRAM_ACTIVE; DCGM_FI_PROF_PIPE_FP64_ACTIVE;
   DCGM_FI_PROF_PIPE_FP32_ACTIVE; DCGM_FI_PROF_PIPE_FP16_ACTIVE].

(** [err] is a DcgmError whose [Code] is [DCGM_ST_CONNECTION_NOT_VALID]. *)
Definition connection_not_valid (err : option dcgm.error) : bool :=
  match err with
  | Some (dcgm.DcgmError code) => bool_decide (code = DCGM_ST_CONNECTION_NOT_VALID)
  | _ => false
  end.

(** The inner loop of [generateMigCache]: one sample into [migCache]. *)
Definition mig_sample_body (migCache : MigResources F) (val : dcgm.FieldValue_v1 F) : MigResources F :=
  let v := ToString val in
  if decide (v = SkipDCGMValue) then migCache
  else
    match ParseFloat v with
    | None => migCache
    | Some float_value =>
        let r := ResourceCache migCache in
        let with_cache r' := Build_MigResources r' (Profile migCache) (ID migCache) in
        if decide (dcgm.FieldId val = 1004%N)
        then with_cache (Build_MigResourceCache float_value (Dram r) (FP64 r) (FP32 r) (FP16 r))
        else if decide (dcgm.FieldId val = 1005%N)
        then with_cache (Build_MigResourceCache (Tensor r) float_value (FP64 r) (FP32 r) (FP16 r))
        else if decide (dcgm.FieldId val = 1006%N)
        then with_cache (Build_MigResourceCache (Tensor r) (Dram r) float_value (FP32 r) (FP16 r))
        else if decide (dcgm.FieldId val = 1007%N)
        then with_cache (Build_MigResourceCache (Tensor r) (Dram r) (FP64 r) float_value (FP16 r))
        else if decide (dcgm.FieldId val = 1008%N)
        then with_cache (Build_MigResourceCache (Tensor r) (Dram r) (FP64 r) (FP32 r) float_value)
        else migCache
    end.

(** The cache entry of one partition from its samples [vals]. *)
Definition mig_entry (vals : list (dcgm.FieldValue_v1 F)) (instanceInfo : GPUInstanceInfo)
  : MigResources F :=
  let migCache := foldl mig_sample_body (Build_MigResources zero_cache "" "") vals in
  Build_MigResources (ResourceCache migCache) (ProfileName instanceInfo)
    (Sprintf_d (Z.of_N (Info_NvmlInstanceId instanceInfo))).

(** The nil map that the early [return nil] yields has no entries, as the
    empty map: both are [∅] (the callers only read the cache). *)
Fixpoint generateMigCache_loop (monitoringInfo : list MonitoringInfo)
    (migResourceCache : gmap N (list (MigResources F))) (w : World)
  : outcome (gmap N (list (MigResources F)) * World) :=
  match monitoringInfo with
  | [] => Ok (migResourceCache, w)
  | mi :: rest =>
      match InstanceInfo mi with
      | None => Ok (∅, w)
      | Some instanceInfo =>
          let '(vals, err, w) :=
            EntityGetLatestValues w (dcgm.EntityGroupId (Entity mi)) (dcgm.EntityId (Entity mi)) fileds in
          if connection_not_valid err then Fault FatalExit
          else
            let migCache := mig_entry vals instanceInfo in
            let gpu := dcgm.GPU (DeviceInfo mi) in
            generateMigCache_loop rest
              match migResourceCache !! gpu with
              | Some v => <[gpu := (v ++ [migCache])%list]> migResourceCache
              | None => <[gpu := [migCache]]> migResourceCache
              end
              w
      end
  end.

Definition generateMigCache (monitoringInfo : list MonitoringInfo) (w : World)
  : outcome (gmap N (list (MigResources F)) * World) :=
  generateMigCache_loop monitoringInfo ∅ w.

End Collector.

(** *** The collector *)

(** The entity groups of package dcgm that [GetMetrics] tells apart. *)
Class EntityGroups : Type := {
  FE_SWITCH : N;
  FE_LINK : N;
  FE_CPU : N;
  FE_CPU_CORE : N
}.

(** The values go-dcgm gives them (dcgm_fields.h). *)
Definition entity_groups : EntityGroups :=
  {| FE_SWITCH := 3; FE_LINK := 6; FE_CPU := 7; FE_CPU_CORE := 8 |}.

(** [DCGMCollector], declared in another file of the package: the fields
    that [NewDCGMCollector] sets and [GetMetrics] reads, under their Go
    names, [SysInfo] being whatever [GetMonitoredEntities] takes. *)
Record DCGMCollector {SystemInfo : Type} : Type := {
  Counters : list Counter;
  DeviceFields : list N;
  SysInfo : SystemInfo;
  Hostname : string;
  UseOldNamespace : bool;
  ReplaceBlanksInModelName : bool
}.
Arguments DCGMCollector SystemInfo : clear implicits.

Section GetMetrics.

Context {F : Type} `{Float64 F} `{DcgmConstants F} `{EntityGroups}.

(** The external collaborators: [strings.Fields], the two sampling calls of
    go-dcgm, which read the state of the monitoring service, and
    [GetMonitoredEntities] with the [InfoType] of its argument. *)
Variable Fields : string -> list string.
Variable World : Type.
Variable EntityGetLatestValues :
  World -> N -> N -> list N -> list (dcgm.FieldValue_v1 F) * option dcgm.error * World.
Variable LinkGetLatestValues :
  World -> N -> N -> list N -> list (dcgm.FieldValue_v1 F) * option dcgm.error * World.
Variable SystemInfo : Type.
Variable InfoType : SystemInfo -> N.
Variable GetMonitoredEntities : SystemInfo -> list MonitoringInfo.

(** The sampling of one entity in the loop of [GetMetrics]. *)
Definition sample_entity (c : DCGMCollector SystemInfo) (mi : MonitoringInfo) (w : World)
  : list (dcgm.FieldValue_v1 F) * option dcgm.error * World :=
  if decide (dcgm.EntityGroupId (Entity mi) = FE_LINK)
  then LinkGetLatestValues w (dcgm.EntityId (Entity mi)) (ParentId mi) (DeviceFields c)
  else EntityGetLatestValues w (dcgm.EntityGroupId (Entity mi)) (dcgm.EntityId (Entity mi))
         (DeviceFields c).

(** The builder that the [InfoType] of the collector selects. *)
Definition build_entity (c : DCGMCollector SystemInfo)
    (migResourceCache : gmap N (list (MigResources F))) (mi : MonitoringInfo)
    (vals : list (dcgm.FieldValue_v1 F)) (st : builder_state) : outcome builder_state :=
  let t := InfoType (SysInfo c) in
  if decide (t = FE_SWITCH ∨ t = FE_LINK)
  then ToSwitchMetric st.1 st.2 vals (Counters c) mi (UseOldNamespace c) (Hostname c)
  else if decide (t = FE_CPU ∨ t = FE_CPU_CORE)
  then ToCPUMetric st.1 st.2 vals (Counters c) mi (UseOldNamespace c) (Hostname c)
  else ToMetric Fields st.1 st.2 vals (Counters c) (DeviceInfo mi) (InstanceInfo mi)
         (UseOldNamespace c) (Hostname c) (ReplaceBlanksInModelName c) migResourceCache.

(** The state of the loop: [metrics] with the store of the label maps and
    the state of the service; [inr] is the early [return nil, err]. *)
Definition collect_state : Type := (builder_state * World) + (dcgm.error * World).

Definition collect_body (c : DCGMCollector SystemInfo)
    (migResourceCache : gmap N (list (MigResources F))) (st : collect_state)
    (mi : MonitoringInfo) : outcome collect_state :=
  match st with
  | inr r => Ok (inr r)
  | inl (bs, w) =>
      let '(vals, err, w) := sample_entity c mi w in
      match err with
      | Some e =>
          if connection_not_valid err then Fault FatalExit else Ok (inr (e, w))
      | None =>
          bs' ← build_entity c migResourceCache mi vals bs;
          Ok (inl (bs', w))
      end
  end.

(** The pair [(MetricsByCounter, error)], [None] being nil, with the store
    of the label maps that the metrics refer to and the state of the
    service. *)
Definition GetMetrics (c : DCGMCollector SystemInfo) (w : World)
  : outcome (option MetricsByCounter * option dcgm.error * label_store * World) :=
  let monitoringInfo := GetMonitoredEntities (SysInfo c) in
  r ← generateMigCache World EntityGetLatestValues monitoringInfo w;
  st ← for_range (collect_body c r.1) monitoringInfo (inl ((∅, []), r.2));
  match st with
  | inl ((metrics, store), w) => Ok (Some metrics, None, store, w)
  | inr (e, w) => Ok (None, Some e, [], w)
  end.

End GetMetrics.

(** ** Sample data: one MIG-partitioned GPU on the binary64 instance *)

Module Sample.

Definition f64 : Float64 float := Binary64.float64 Binary64.parse_decimal.
Definition consts : DcgmConstants float := @dcgm_constants float f64.

Definition power : Counter :=
  Build_Counter 155 "DCGM_FI_DEV_POWER_USAGE" "gauge" "Power draw (in W).".
Definition temperature : Counter :=
  Build_Counter 150 "DCGM_FI_DEV_GPU_TEMP" "gauge" "GPU temperature (in C).".
Definition driver : Counter :=
  Build_Counter 1 "DCGM_FI_DRIVER_VERSION" "label" "Driver Version".

Definition counters : list Counter := [power; temperature; driver].

Definition int_sample (fieldId : N) (n : Z) : dcgm.FieldValue_v1 float :=
  {| dcgm.FieldId := fieldId; dcgm.FieldType := 105; dcgm.Int64 := n;
     dcgm.Float64 := PrimFloat.zero; dcgm.String := "" |}.

Definition string_sample (fieldId : N) (s : string) : dcgm.FieldValue_v1 float :=
  {| dcgm.FieldId := fieldId; dcgm.FieldType := 115; dcgm.Int64 := 0;
     dcgm.Float64 := PrimFloat.zero; dcgm.String := s |}.

Definition double_sample (fieldId : N) (x : float) : dcgm.FieldValue_v1 float :=
  {| dcgm.FieldId := fieldId; dcgm.FieldType := 100; dcgm.Int64 := 0;
     dcgm.Float64 := x; dcgm.String := "" |}.

Definition binary_sample (fieldId : N) : dcgm.FieldValue_v1 float :=
  {| dcgm.FieldId := fieldId; dcgm.FieldType := 98; dcgm.Int64 := 0;
     dcgm.Float64 := PrimFloat.zero; dcgm.String := "" |}.

(** Utilization with only the tensor pipe active, as [num/den]. *)
Definition tensor_only (num den : Z) : MigResourceCache float :=
  Build_MigResourceCache (Binary64.float_lit num den)
    PrimFloat.zero PrimFloat.zero PrimFloat.zero PrimFloat.zero.

Definition partition_A : MigResources float := Build_MigResources (tensor_only 5 10) "3g.20gb" "1".
Definition partition_B : MigResources float := Build_MigResources (tensor_only 1 10) "4g.20gb" "2".
Definition idle_A : MigResources float := Build_MigResources (tensor_only 0 1) "3g.20gb" "1".

Definition gpu0 : dcgm.Device :=
  {| dcgm.GPU := 0; dcgm.UUID := "GPU-5a2c"; dcgm.Identifiers_Model := "NVIDIA A100-SXM4-40GB" |}.
Definition gpu1 : dcgm.Device :=
  {| dcgm.GPU := 1; dcgm.UUID := "GPU-77e1"; dcgm.Identifiers_Model := "NVIDIA A100-SXM4-40GB" |}.

Definition instance_A : GPUInstanceInfo := {| ProfileName := "3g.20gb"; Info_NvmlInstanceId := 1 |}.
Definition instance_B : GPUInstanceInfo := {| ProfileName := "4g.20gb"; Info_NvmlInstanceId := 2 |}.

(** Two MIG partitions of GPU 0, and GPU 1 without MIG. *)
Definition mig_A : MonitoringInfo :=
  {| Entity := {| dcgm.EntityGroupId := 2; dcgm.EntityId := 0 |};
     DeviceInfo := gpu0; InstanceInfo := Some instance_A; ParentId := 0 |}.
Definition mig_B : MonitoringInfo :=
  {| Entity := {| dcgm.EntityGroupId := 2; dcgm.EntityId := 1 |};
     DeviceInfo := gpu0; InstanceInfo := Some instance_B; ParentId := 0 |}.
Definition plain_gpu1 : MonitoringInfo :=
  {| Entity := {| dcgm.EntityGroupId := 1; dcgm.EntityId := 1 |};
     DeviceInfo := gpu1; InstanceInfo := None; ParentId := 0 |}.

Definition switch0 : MonitoringInfo :=
  {| Entity := {| dcgm.EntityGroupId := 3; dcgm.EntityId := 4 |};
     DeviceInfo := gpu0; InstanceInfo := None; ParentId := 0 |}.

(** A monitoring service without state: every partition reports a tensor
    activity of 0.5 and a blank memory activity. *)
Definition service (w : unit) (group id : N) (fields : list N)
  : list (dcgm.FieldValue_v1 float) * option dcgm.error * unit :=
  ([double_sample 1004 (Binary64.float_lit 5 10);
    double_sample 1005 (Binary64.float_of_Z 140737488355328)], None, w).



End Sample.

(** ** Facts *)

Section CollectorFacts.

Context {F : Type} {Fl : Float64 F} {K : DcgmConstants F}.
Variable Fields : string -> list string.

Lemma find_counter_first (pre post : list Counter) (ci : Counter) (fieldId : N) :
  Forall (fun x => FieldID x ≠ fieldId) pre -> FieldID ci = fieldId ->
  find_counter (pre ++ ci :: post) fieldId = Some ci.
Proof.
  induction 1 as [|x pre Hx _ IH]; intros Hci; simpl.
  - rewrite decide_True; auto.
  - rewrite decide_False; auto.
Qed.

Lemma find_counter_absent (c : list Counter) (fieldId : N) :
  Forall (fun x => FieldID x ≠ fieldId) c -> find_counter c fieldId = None.
Proof.
  induction 1 as [|x c Hx _ IH]; simpl; [reflexivity|].
  rewrite decide_False; auto.
Qed.

Lemma find_counter_Some (c : list Counter) (fieldId : N) (ci : Counter) :
  find_counter c fieldId = Some ci -> ci ∈ c ∧ FieldID ci = fieldId.
Proof.
  induction c as [|x c IH]; simpl; [discriminate|].
  case_decide as Hx.
  - intros [= <-]. split; [left | exact Hx].
  - intros Hf. destruct (IH Hf) as [Hin Hid]. split; [right; exact Hin | exact Hid].
Qed.

(** C10: FindCounterField returns the first counter with the queried field
    ID; on a non-empty list without it, the first element and an error that
    names the field ID; on the empty list it panics with an index out of
    range instead of returning a failure. *)
Theorem FindCounterField_first_or_error_or_panic (fieldId : N) :
  (∀ (pre post : list Counter) (ci : Counter),
      Forall (fun x => FieldID x ≠ fieldId) pre -> FieldID ci = fieldId ->
      FindCounterField (pre ++ ci :: post) fieldId = Ok (ci, None))
  ∧ (∀ (c0 : Counter) (rest : list Counter),
      Forall (fun x => FieldID x ≠ fieldId) (c0 :: rest) ->
      FindCounterField (c0 :: rest) fieldId
      = Ok (c0, Some ("could not find counter corresponding to field ID '"
                        ++ Sprintf_d (Z.of_N fieldId) ++ "'")))
  ∧ FindCounterField [] fieldId = Fault IndexOutOfRange.
Proof.
  split; [|split].
  - intros pre post ci Hpre Hci. unfold FindCounterField.
    rewrite (find_counter_first pre post ci fieldId Hpre Hci). reflexivity.
  - intros c0 rest Hall. unfold FindCounterField.
    rewrite (find_counter_absent _ _ Hall). reflexivity.
  - reflexivity.
Qed.

(** The result of [FindCounterField] when it does not panic. *)
Lemma FindCounterField_Ok (c : list Counter) (fieldId : N) (counter : Counter) :
  FindCounterField c fieldId = Ok (counter, None) ->
  counter ∈ c ∧ FieldID counter = fieldId.
Proof.
  unfold FindCounterField. destruct (find_counter c fieldId) as [ci|] eqn:E.
  - intros [= <-]. exact (find_counter_Some _ _ _ E).
  - destruct c; discriminate.
Qed.

(** C9: ToString sends the eight integer, four float and four string
    sentinels to the skip marker, any other int64, double or string sample to
    its decimal, fixed-precision or unchanged string, and a sample of any
    other field type to the conversion failed marker, which differs from the
    skip marker. *)
Theorem ToString_sentinels_and_markers (value : dcgm.FieldValue_v1 F) :
  DCGM_FT_INT64 ≠ DCGM_FT_DOUBLE -> DCGM_FT_INT64 ≠ DCGM_FT_STRING ->
  DCGM_FT_DOUBLE ≠ DCGM_FT_STRING ->
  (dcgm.FieldType value = DCGM_FT_INT64 ->
     (dcgm.Int64 value ∈
        [DCGM_FT_INT32_BLANK; DCGM_FT_INT32_NOT_FOUND; DCGM_FT_INT32_NOT_SUPPORTED;
         DCGM_FT_INT32_NOT_PERMISSIONED; DCGM_FT_INT64_BLANK; DCGM_FT_INT64_NOT_FOUND;
         DCGM_FT_INT64_NOT_SUPPORTED; DCGM_FT_INT64_NOT_PERMISSIONED] ->
      ToString value = SkipDCGMValue)
     ∧ (dcgm.Int64 value ∉
        [DCGM_FT_INT32_BLANK; DCGM_FT_INT32_NOT_FOUND; DCGM_FT_INT32_NOT_SUPPORTED;
         DCGM_FT_INT32_NOT_PERMISSIONED; DCGM_FT_INT64_BLANK; DCGM_FT_INT64_NOT_FOUND;
         DCGM_FT_INT64_NOT_SUPPORTED; DCGM_FT_INT64_NOT_PERMISSIONED] ->
      ToString value = Sprintf_d (dcgm.Int64 value)))
  ∧ (dcgm.FieldType value = DCGM_FT_DOUBLE ->
     (Exists (fun s => feq (dcgm.Float64 value) s = true)
        [DCGM_FT_FP64_BLANK; DCGM_FT_FP64_NOT_FOUND; DCGM_FT_FP64_NOT_SUPPORTED;
         DCGM_FT_FP64_NOT_PERMISSIONED] ->
      ToString value = SkipDCGMValue)
     ∧ (Forall (fun s => feq (dcgm.Float64 value) s = false)
        [DCGM_FT_FP64_BLANK; DCGM_FT_FP64_NOT_FOUND; DCGM_FT_FP64_NOT_SUPPORTED;
         DCGM_FT_FP64_NOT_PERMISSIONED] ->
      ToString value = Sprintf_f (dcgm.Float64 value)))
  ∧ (dcgm.FieldType value = DCGM_FT_STRING ->
     (dcgm.String value ∈
        [DCGM_FT_STR_BLANK; DCGM_FT_STR_NOT_FOUND; DCGM_FT_STR_NOT_SUPPORTED;
         DCGM_FT_STR_NOT_PERMISSIONED] ->
      ToString value = SkipDCGMValue)
     ∧ (dcgm.String value ∉
        [DCGM_FT_STR_BLANK; DCGM_FT_STR_NOT_FOUND; DCGM_FT_STR_NOT_SUPPORTED;
         DCGM_FT_STR_NOT_PERMISSIONED] ->
      ToString value = dcgm.String value))
  ∧ (dcgm.FieldType value ∉ [DCGM_FT_INT64; DCGM_FT_DOUBLE; DCGM_FT_STRING] ->
     ToString value = FailedToConvert)
  ∧ FailedToConvert ≠ SkipDCGMValue.
Proof.
  intros Hid His Hds. unfold ToString.
  split; [|split; [|split; [|split]]].
  - intros Ht. rewrite (decide_True _ _ Ht). split.
    + intros Hin. repeat (case_decide; [reflexivity|]).
      exfalso. rewrite !elem_of_cons, elem_of_nil in Hin. intuition congruence.
    + intros Hnot. rewrite !not_elem_of_cons in Hnot.
      repeat (case_decide; [exfalso; intuition congruence|]). reflexivity.
  - intros Ht.
    rewrite (decide_False (P := dcgm.FieldType value = DCGM_FT_INT64)) by congruence.
    rewrite (decide_True _ _ Ht). split.
    + intros Hex.
      repeat match goal with
             | |- context [if feq ?a ?b then _ else _] => destruct (feq a b) eqn:?; [reflexivity|]
             end.
      exfalso. rewrite !Exists_cons, Exists_nil in Hex.
      destruct Hex as [?|[?|[?|[?|[]]]]]; congruence.
    + intros Hall. rewrite !Forall_cons in Hall.
      destruct Hall as (-> & -> & -> & -> & _). reflexivity.
  - intros Ht.
    rewrite (decide_False (P := dcgm.FieldType value = DCGM_FT_INT64)) by congruence.
    rewrite (decide_False (P := dcgm.FieldType value = DCGM_FT_DOUBLE)) by congruence.
    rewrite (decide_True _ _ Ht). split.
    + intros Hin. repeat (case_decide; [reflexivity|]).
      exfalso. rewrite !elem_of_cons, elem_of_nil in Hin. intuition congruence.
    + intros Hnot. rewrite !not_elem_of_cons in Hnot.
      repeat (case_decide; [exfalso; intuition congruence|]). reflexivity.
  - intros Hnot. rewrite !not_elem_of_cons in Hnot. destruct Hnot as (H1 & H2 & H3 & _).
    rewrite (decide_False _ _ H1), (decide_False _ _ H2), (decide_False _ _ H3). reflexivity.
  - discriminate.
Qed.

(** *** The attribution engine *)


(** C6: on a power sample with a non-empty profile, a profile whose first
    character is no integer, or a raw value that is no float, makes
    migDeviceResource return the input string itself; with an empty profile
    there is no first character and the call panics. *)
Theorem migDeviceResource_parse_failure_returns_input (v profile id : string) (gpu : N)
    (counter : Counter) (migResourceCache : gmap N (list (MigResources F))) :
  FieldID counter = 155%N ->
  (∀ (b : ascii) (rest : string),
      profile = String b rest ->
      Atoi (string_of_byte b) = None ∨ ParseFloat v = None ->
      migDeviceResource v profile id gpu counter migResourceCache = Ok v)
  ∧ (profile = "" ->
      migDeviceResource v profile id gpu counter migResourceCache = Fault IndexOutOfRange).
Proof.
  intros Hid. unfold migDeviceResource. rewrite bool_decide_true by exact Hid. simpl.
  split.
  - intros b rest -> Hfail. simpl.
    destruct (Atoi (string_of_byte b)) as [scaling_factor|]; [|reflexivity].
    destruct Hfail as [Hfail | Hfail]; [discriminate|].
    rewrite Hfail. reflexivity.
  - intros ->. reflexivity.
Qed.

(** The loop on a cache with one entry. *)
Lemma processMigCacheForPower_single (e : MigResources F) (b : ascii) (rest : string)
    (s : Z) (active_power : F) :
  Profile e = String b rest -> Atoi (string_of_byte b) = Some s ->
  processMigCacheForPower [e] (ID e) active_power
  = let inst := ResourceCache (scale_device e (of_int s)) in
    let quotient := (active_power * summed inst / summed (add_resources zero_cache inst))%f64 in
    if feq quotient quotient then Ok (quotient, None)
    else Ok (fzero, Some "Error computing active power").
Proof.
  intros Hp Ha. unfold processMigCacheForPower. simpl.
  rewrite Hp. simpl. rewrite Ha. simpl.
  rewrite decide_True by reflexivity. simpl.
  destruct (feq _ _); reflexivity.
Qed.

Lemma migDeviceResource_single (v id : string) (gpu : N) (counter : Counter)
    (e : MigResources F) (b : ascii) (rest : string) (S : Z) (P : F) :
  FieldID counter = 155%N ->
  Profile e = String b rest -> ID e = id ->
  Atoi (string_of_byte b) = Some S -> ParseFloat v = Some P ->
  migDeviceResource v (Profile e) id gpu counter {[ gpu := [e] ]}
  = let idle := min (of_int 90) P in
    let idle_share := (idle * of_int S / of_int 7)%f64 in
    let active := (P - idle)%f64 in
    let inst := ResourceCache (scale_device e (of_int S)) in
    let quotient := (active * summed inst / summed (add_resources zero_cache inst))%f64 in
    let active_share :=
      if feq quotient quotient then quotient else (active * of_int S / of_int 7)%f64 in
    Ok (Sprintf_f (active_share + idle_share)%f64).
Proof.
  intros Hid Hp <- Ha Hv. unfold migDeviceResource.
  rewrite bool_decide_true by exact Hid. rewrite Hp. simpl. rewrite Ha, Hv.
  rewrite lookup_singleton_eq.
  rewrite (processMigCacheForPower_single e b rest S _ Hp Ha). simpl.
  destruct (feq _ _); reflexivity.
Qed.

(** *** One pass of a builder *)

(** The label assignments and the appended metrics of a run of steps. *)
Definition labels_of (ks : list pass_step) : list (string * string) :=
  omap (fun k => match k with SetLabel name v => Some (name, v) | _ => None end) ks.

Definition appended (ks : list pass_step) : list Metric.t :=
  omap (fun k => match k with Append m => Some m | _ => None end) ks.

(** [labels[name] = v] for each pair in turn: a later pair overwrites. *)
Definition merge_labels (labels : gmap string string) (pairs : list (string * string))
  : gmap string string :=
  foldl (fun L p => <[p.1 := p.2]> L) labels pairs.

Lemma for_range_steps (labels : loc) (step : loc -> dcgm.FieldValue_v1 F -> outcome pass_step)
    (values : list (dcgm.FieldValue_v1 F)) :
  ∀ st st',
    for_range (fun st val => k ← step labels val; Ok (apply_step labels st k)) values st = Ok st' ->
    ∃ ks, Forall2 (fun val k => step labels val = Ok k) values ks
          ∧ st' = foldl (apply_step labels) st ks.
Proof.
  induction values as [|val values IH]; intros st st' Hrun.
  - injection Hrun as <-. exists []. split; [constructor | reflexivity].
  - cbn [for_range] in Hrun. destruct (step labels val) as [k|e] eqn:Hk; [|discriminate].
    cbn [mbind outcome_bind] in Hrun. destruct (IH _ _ Hrun) as (ks & Hks & ->).
    exists (k :: ks). split; [constructor; assumption | reflexivity].
Qed.

Lemma steps_for_range (labels : loc) (step : loc -> dcgm.FieldValue_v1 F -> outcome pass_step)
    (values : list (dcgm.FieldValue_v1 F)) (ks : list pass_step) :
  Forall2 (fun val k => step labels val = Ok k) values ks ->
  ∀ st, for_range (fun st val => k ← step labels val; Ok (apply_step labels st k)) values st
        = Ok (foldl (apply_step labels) st ks).
Proof.
  induction 1 as [|val k values ks Hk _ IH]; intros st; [reflexivity|].
  cbn [for_range]. rewrite Hk. cbn [mbind outcome_bind]. apply IH.
Qed.

Lemma append_metric_lookup (metrics : MetricsByCounter) (m : Metric.t) (c : Counter) :
  append_metric metrics m !!! c
  = (metrics !!! c ++ (if decide (Metric.Counter m = c) then [m] else []))%list.
Proof.
  unfold append_metric. destruct (decide (Metric.Counter m = c)) as [<-|Hne].
  - rewrite lookup_total_insert_eq. reflexivity.
  - rewrite lookup_total_insert_ne by exact Hne. rewrite app_nil_r. reflexivity.
Qed.

Lemma foldl_apply_metrics (labels : loc) (ks : list pass_step) (c : Counter) :
  ∀ st : builder_state,
    (foldl (apply_step labels) st ks).1 !!! c
    = (st.1 !!! c ++ filter (fun m => Metric.Counter m = c) (appended ks))%list.
Proof.
  induction ks as [|k ks IH]; intros st.
  - cbn. rewrite app_nil_r. reflexivity.
  - cbn [foldl]. rewrite IH. destruct k as [|name v|m]; cbn [apply_step fst snd].
    + reflexivity.
    + reflexivity.
    + rewrite append_metric_lookup.
      change (appended (Append m :: ks)) with (m :: appended ks).
      rewrite filter_cons. destruct (decide (Metric.Counter m = c)).
      * rewrite <- app_assoc. reflexivity.
      * rewrite app_nil_r. reflexivity.
Qed.

Lemma set_label_fresh (store : label_store) (L : gmap string string) (name v : string) :
  set_label (store ++ [L]) (length store) name v = (store ++ [<[name := v]> L])%list.
Proof.
  unfold set_label. rewrite <- (Nat.add_0_r (length store)).
  rewrite alter_app_r. reflexivity.
Qed.

Lemma foldl_apply_store (store : label_store) (ks : list pass_step) :
  ∀ (metrics : MetricsByCounter) (L : gmap string string),
    (foldl (apply_step (length store)) (metrics, (store ++ [L])%list) ks).2
    = (store ++ [merge_labels L (labels_of ks)])%list.
Proof.
  induction ks as [|k ks IH]; intros metrics L; [reflexivity|].
  cbn [foldl]. destruct k as [|name v|m]; cbn [apply_step fst snd].
  - apply IH.
  - rewrite set_label_fresh, IH. reflexivity.
  - apply IH.
Qed.

Lemma merge_labels_other (pairs : list (string * string)) (name : string) :
  name ∉ pairs.*1 ->
  ∀ L : gmap string string, merge_labels L pairs !! name = L !! name.
Proof.
  induction pairs as [|[n v] pairs IH]; intros Hnot L; [reflexivity|].
  rewrite fmap_cons, not_elem_of_cons in Hnot. destruct Hnot as [Hne Hnot].
  unfold merge_labels. cbn [foldl fst snd]. fold (merge_labels (<[n := v]> L) pairs).
  rewrite (IH Hnot). apply lookup_insert_ne. cbn in Hne. congruence.
Qed.

(** The last assignment to a name is the one that stays. *)
Lemma merge_labels_last (L : gmap string string) (pre post : list (string * string))
    (name v : string) :
  name ∉ post.*1 ->
  merge_labels L (pre ++ (name, v) :: post) !! name = Some v.
Proof.
  intros Hnot. unfold merge_labels. rewrite foldl_app. cbn [foldl fst snd].
  fold (merge_labels L pre). fold (merge_labels (<[name := v]> (merge_labels L pre)) post).
  rewrite (merge_labels_other post name Hnot). apply lookup_insert_eq.
Qed.

(** What a pass that returns has done: its steps, one per sample. *)
Lemma builder_pass_steps (step : loc -> dcgm.FieldValue_v1 F -> outcome pass_step)
    (metrics metrics' : MetricsByCounter) (store store' : label_store)
    (values : list (dcgm.FieldValue_v1 F)) :
  builder_pass step metrics store values = Ok (metrics', store') ->
  ∃ ks, Forall2 (fun val k => step (length store) val = Ok k) values ks
        ∧ store' = (store ++ [merge_labels ∅ (labels_of ks)])%list
        ∧ ∀ c, metrics' !!! c
               = (metrics !!! c ++ filter (fun m => Metric.Counter m = c) (appended ks))%list.
Proof.
  unfold builder_pass. intros Hrun.
  destruct (for_range_steps _ _ _ _ _ Hrun) as (ks & Hks & Hst).
  exists ks. split; [exact Hks|]. split.
  - rewrite <- (foldl_apply_store store ks metrics ∅), <- Hst. reflexivity.
  - intros c. rewrite <- (foldl_apply_metrics (length store) ks c (metrics, (store ++ [∅])%list)).
    rewrite <- Hst. reflexivity.
Qed.

(** A pass returns when none of its steps faults. *)
Lemma builder_pass_returns (step : loc -> dcgm.FieldValue_v1 F -> outcome pass_step)
    (metrics : MetricsByCounter) (store : label_store) (values : list (dcgm.FieldValue_v1 F)) :
  Forall (fun val => ∃ k, step (length store) val = Ok k) values ->
  ∃ st', builder_pass step metrics store values = Ok st'.
Proof.
  intros Hall. apply Forall_exists_Forall2_l in Hall as [ks Hks].
  eexists. unfold builder_pass. apply (steps_for_range _ _ _ ks Hks).
Qed.

Lemma Forall2_elem_of_r {A B : Type} (R : A -> B -> Prop) (l : list A) (k : list B) (y : B) :
  Forall2 R l k -> y ∈ k -> ∃ x, x ∈ l ∧ R x y.
Proof.
  intros HF Hy. apply list_elem_of_lookup in Hy as [i Hi].
  destruct (Forall2_lookup_r _ _ _ _ _ HF Hi) as (x & Hx & HR).
  exists x. split; [|exact HR]. apply list_elem_of_lookup. exists i. exact Hx.
Qed.

Lemma appended_elem_of (ks : list pass_step) (m : Metric.t) : m ∈ appended ks -> Append m ∈ ks.
Proof.
  unfold appended. rewrite list_elem_of_omap. intros (k & Hk & Hm).
  destruct k; try discriminate. injection Hm as ->. exact Hk.
Qed.

Lemma labels_of_elem_of (ks : list pass_step) (name : string) :
  name ∈ (labels_of ks).*1 -> ∃ v, SetLabel name v ∈ ks.
Proof.
  rewrite list_elem_of_fmap. intros ([n v] & -> & Hin). unfold labels_of in Hin.
  rewrite list_elem_of_omap in Hin. destruct Hin as (k & Hk & Hm).
  destruct k; try discriminate. injection Hm as -> ->. exists v. exact Hk.
Qed.

(** *** The steps of the three builders *)

Lemma ToMetric_step_SetLabel (c : list Counter) (d : dcgm.Device)
    (instanceInfo : option GPUInstanceInfo) (useOld : bool) (hostname : string)
    (replaceBlanksInModelName : bool) (migResourceCache : gmap N (list (MigResources F)))
    (labels : loc) (val : dcgm.FieldValue_v1 F) (name v : string) :
  ToMetric_step Fields c d instanceInfo useOld hostname replaceBlanksInModelName
    migResourceCache labels val = Ok (SetLabel name v)
  <-> ∃ counter, (ToString val ≠ SkipDCGMValue
                  ∧ FindCounterField c (dcgm.FieldId val) = Ok (counter, None)
                  ∧ PromType counter = "label")
                 ∧ name = FieldName counter ∧ v = ToString val.
Proof.
  unfold ToMetric_step. split.
  - case_decide as Hskip; [discriminate|].
    destruct (FindCounterField c (dcgm.FieldId val)) as [[counter [err|]]|e];
      cbn [mbind outcome_bind]; try discriminate.
    case_decide as Hlabel.
    + intros [= <- <-]. exists counter. auto.
    + destruct instanceInfo as [instanceInfo|]; cbn [mbind outcome_bind]; [|discriminate].
      destruct (migDeviceResource _ _ _ _ _ _); cbn [mbind outcome_bind]; discriminate.
  - intros (counter & (Hskip & Hfind & Hlabel) & -> & ->).
    rewrite decide_False by exact Hskip. rewrite Hfind. cbn [mbind outcome_bind].
    rewrite decide_True by exact Hlabel. reflexivity.
Qed.

Lemma ToMetric_step_Append (c : list Counter) (d : dcgm.Device)
    (instanceInfo : option GPUInstanceInfo) (useOld : bool) (hostname : string)
    (replaceBlanksInModelName : bool) (migResourceCache : gmap N (list (MigResources F)))
    (labels : loc) (val : dcgm.FieldValue_v1 F) (m : Metric.t) :
  ToMetric_step Fields c d instanceInfo useOld hostname replaceBlanksInModelName
    migResourceCache labels val = Ok (Append m) ->
  ToString val ≠ SkipDCGMValue
  ∧ FindCounterField c (dcgm.FieldId val) = Ok (Metric.Counter m, None)
  ∧ PromType (Metric.Counter m) ≠ "label"
  ∧ Metric.Labels m = labels
  ∧ match instanceInfo with
    | None =>
        Metric.Value m = ToString val ∧ Metric.MigProfile m = "" ∧ Metric.GPUInstanceID m = ""
    | Some instanceInfo =>
        migDeviceResource (ToString val) (ProfileName instanceInfo)
          (Sprintf_d (Z.of_N (Info_NvmlInstanceId instanceInfo))) (dcgm.GPU d)
          (Metric.Counter m) migResourceCache = Ok (Metric.Value m)
        ∧ Metric.MigProfile m = ProfileName instanceInfo
        ∧ Metric.GPUInstanceID m = Sprintf_d (Z.of_N (Info_NvmlInstanceId instanceInfo))
    end.
Proof.
  unfold ToMetric_step.
  case_decide as Hskip; [discriminate|].
  destruct (FindCounterField c (dcgm.FieldId val)) as [[counter [err|]]|e];
    cbn [mbind outcome_bind]; try discriminate.
  case_decide as Hlabel; [discriminate|].
  destruct instanceInfo as [instanceInfo|]; cbn [mbind outcome_bind].
  - destruct (migDeviceResource _ _ _ _ _ _) as [value|e] eqn:Hmig;
      cbn [mbind outcome_bind]; [|discriminate].
    intros [= <-]. cbn. auto 10.
  - intros [= <-]. cbn. auto 10.
Qed.

Lemma entity_step_SetLabel (GPUDevice : string) (c : list Counter) (mi : MonitoringInfo)
    (useOld : bool) (hostname : string) (labels : loc) (val : dcgm.FieldValue_v1 F)
    (name v : string) :
  entity_step GPUDevice c mi useOld hostname labels val = Ok (SetLabel name v)
  <-> ∃ counter, (FindCounterField c (dcgm.FieldId val) = Ok (counter, None)
                  ∧ PromType counter = "label")
                 ∧ name = FieldName counter ∧ v = ToString val.
Proof.
  unfold entity_step. split.
  - destruct (FindCounterField c (dcgm.FieldId val)) as [[counter [err|]]|e];
      cbn [mbind outcome_bind]; try discriminate.
    case_decide as Hlabel.
    + intros [= <- <-]. exists counter. auto.
    + case_decide; discriminate.
  - intros (counter & (Hfind & Hlabel) & -> & ->).
    rewrite Hfind. cbn [mbind outcome_bind].
    rewrite decide_True by exact Hlabel. reflexivity.
Qed.

Lemma entity_step_Append (GPUDevice : string) (c : list Counter) (mi : MonitoringInfo)
    (useOld : bool) (hostname : string) (labels : loc) (val : dcgm.FieldValue_v1 F)
    (m : Metric.t) :
  entity_step GPUDevice c mi useOld hostname labels val = Ok (Append m) ->
  ToString val ≠ SkipDCGMValue
  ∧ FindCounterField c (dcgm.FieldId val) = Ok (Metric.Counter m, None)
  ∧ PromType (Metric.Counter m) ≠ "label"
  ∧ Metric.Labels m = labels
  ∧ Metric.Value m = ToString val.
Proof.
  unfold entity_step.
  destruct (FindCounterField c (dcgm.FieldId val)) as [[counter [err|]]|e];
    cbn [mbind outcome_bind]; try discriminate.
  case_decide as Hlabel; [discriminate|].
  case_decide as Hskip; [discriminate|].
  intros [= <-]. cbn. auto.
Qed.

(** *** Label aggregation *)

(** What a pass from [(metrics, store)] to [(metrics', store')] over [values]
    has done with the label samples, [resolves_to_label val counter] saying
    that the builder resolves the sample [val] to the label-typed [counter]:
    the pass has one label map, every metric it appended stems from a sample
    resolved to a counter that is not label-typed and holds that map, and the
    map has the value of every label sample that no later label sample of
    the same name overwrites. *)
Definition label_aggregated (c : list Counter)
    (resolves_to_label : dcgm.FieldValue_v1 F -> Counter -> Prop)
    (metrics : MetricsByCounter) (store : label_store) (values : list (dcgm.FieldValue_v1 F))
    (metrics' : MetricsByCounter) (store' : label_store) : Prop :=
  ∃ labels : gmap string string,
    store' = (store ++ [labels])%list
    ∧ (∀ k : Counter, ∃ new : list Metric.t,
          metrics' !!! k = (metrics !!! k ++ new)%list
          ∧ Forall (fun m =>
                      (∃ val, val ∈ values
                              ∧ FindCounterField c (dcgm.FieldId val) = Ok (Metric.Counter m, None))
                      ∧ PromType (Metric.Counter m) ≠ "label"
                      ∧ store' !! Metric.Labels m = Some labels) new)
    ∧ (∀ pre val post counter,
          values = (pre ++ val :: post)%list ->
          resolves_to_label val counter ->
          (∀ val' counter', val' ∈ post -> resolves_to_label val' counter' ->
                            FieldName counter' ≠ FieldName counter) ->
          labels !! FieldName counter = Some (ToString val)).

Lemma pass_label_aggregated (step : loc -> dcgm.FieldValue_v1 F -> outcome pass_step)
    (c : list Counter) (resolves_to_label : dcgm.FieldValue_v1 F -> Counter -> Prop)
    (metrics metrics' : MetricsByCounter) (store store' : label_store)
    (values : list (dcgm.FieldValue_v1 F)) :
  (∀ labels val name v,
      step labels val = Ok (SetLabel name v)
      <-> ∃ counter, resolves_to_label val counter ∧ name = FieldName counter ∧ v = ToString val) ->
  (∀ labels val m,
      step labels val = Ok (Append m) ->
      FindCounterField c (dcgm.FieldId val) = Ok (Metric.Counter m, None)
      ∧ PromType (Metric.Counter m) ≠ "label" ∧ Metric.Labels m = labels) ->
  builder_pass step metrics store values = Ok (metrics', store') ->
  label_aggregated c resolves_to_label metrics store values metrics' store'.
Proof.
  intros Hset Happ Hrun.
  destruct (builder_pass_steps _ _ _ _ _ _ Hrun) as (ks & Hks & -> & Hmetrics).
  exists (merge_labels ∅ (labels_of ks)). split; [reflexivity|]. split.
  - intros k. eexists. split; [apply Hmetrics|].
    apply Forall_forall. intros m Hm. apply list_elem_of_filter in Hm as [_ Hm].
    apply appended_elem_of in Hm.
    destruct (Forall2_elem_of_r _ _ _ _ Hks Hm) as (val & Hval & Hstep).
    destruct (Happ _ _ _ Hstep) as (Hfind & Hlabel & Hloc).
    split; [exists val; auto|]. split; [exact Hlabel|].
    rewrite Hloc. apply list_lookup_middle. reflexivity.
  - intros pre val post counter -> Hres Hlast.
    apply Forall2_app_inv_l in Hks as (kpre & ks2 & Hpre & Hrest & ->).
    apply Forall2_cons_inv_l in Hrest as (k & kpost & Hk & Hpost & ->).
    assert (Hk' : step (length store) val = Ok (SetLabel (FieldName counter) (ToString val))).
    { apply Hset. exists counter. auto. }
    rewrite Hk in Hk'. injection Hk' as ->.
    unfold labels_of. rewrite omap_app. cbn [omap]. fold (labels_of kpre) (labels_of kpost).
    apply merge_labels_last. intros Hin.
    apply labels_of_elem_of in Hin as [v' Hin].
    destruct (Forall2_elem_of_r _ _ _ _ Hpost Hin) as (val' & Hval' & Hstep').
    apply Hset in Hstep' as (counter' & Hres' & Hname & _).
    exact (Hlast val' counter' Hval' Hres' (eq_sym Hname)).
Qed.

(** C7: in one pass of a builder no sample resolved to a label-typed counter
    is appended as a value metric, and every metric the pass appends holds
    the label map of the pass, in which every label sample of the pass has
    its (name, value) pair, whether it came before or after the value sample
    (of two label samples with one name the later stays). *)
Theorem labels_aggregated_in_every_builder (metrics metrics' : MetricsByCounter)
    (store store' : label_store) (values : list (dcgm.FieldValue_v1 F)) (c : list Counter)
    (d : dcgm.Device) (instanceInfo : option GPUInstanceInfo) (mi : MonitoringInfo)
    (useOld : bool) (hostname : string) (replaceBlanksInModelName : bool)
    (migResourceCache : gmap N (list (MigResources F))) :
  (ToMetric Fields metrics store values c d instanceInfo useOld hostname
     replaceBlanksInModelName migResourceCache = Ok (metrics', store') ->
   label_aggregated c
     (fun val counter =>
        ToString val ≠ SkipDCGMValue
        ∧ FindCounterField c (dcgm.FieldId val) = Ok (counter, None)
        ∧ PromType counter = "label")
     metrics store values metrics' store')
  ∧ (ToSwitchMetric metrics store values c mi useOld hostname = Ok (metrics', store') ->
     label_aggregated c
       (fun val counter =>
          FindCounterField c (dcgm.FieldId val) = Ok (counter, None)
          ∧ PromType counter = "label")
       metrics store values metrics' store')
  ∧ (ToCPUMetric metrics store values c mi useOld hostname = Ok (metrics', store') ->
     label_aggregated c
       (fun val counter =>
          FindCounterField c (dcgm.FieldId val) = Ok (counter, None)
          ∧ PromType counter = "label")
       metrics store values metrics' store').
Proof.
  split; [|split].
  - apply pass_label_aggregated.
    + intros labels val name v. apply ToMetric_step_SetLabel.
    + intros labels val m Hstep.
      destruct (ToMetric_step_Append _ _ _ _ _ _ _ _ _ _ Hstep) as (_ & Hfind & Hlabel & Hloc & _).
      auto.
  - apply pass_label_aggregated.
    + intros labels val name v. apply entity_step_SetLabel.
    + intros labels val m Hstep.
      destruct (entity_step_Append _ _ _ _ _ _ _ _ Hstep) as (_ & Hfind & Hlabel & Hloc & _).
      auto.
  - apply pass_label_aggregated.
    + intros labels val name v. apply entity_step_SetLabel.
    + intros labels val m Hstep.
      destruct (entity_step_Append _ _ _ _ _ _ _ _ Hstep) as (_ & Hfind & Hlabel & Hloc & _).
      auto.
Qed.

(** *** Entities without instance metadata *)


(** *** Samples that carry the skip marker *)

Lemma ToMetric_step_skip (c : list Counter) (d : dcgm.Device)
    (instanceInfo : option GPUInstanceInfo) (useOld : bool) (hostname : string)
    (replaceBlanksInModelName : bool) (migResourceCache : gmap N (list (MigResources F)))
    (labels : loc) (val : dcgm.FieldValue_v1 F) :
  ToString val = SkipDCGMValue ->
  ToMetric_step Fields c d instanceInfo useOld hostname replaceBlanksInModelName
    migResourceCache labels val = Ok Continue.
Proof. intros Hskip. unfold ToMetric_step. rewrite decide_True by exact Hskip. reflexivity. Qed.

(** The switch and CPU builders resolve the counter first: a label-typed
    counter gets the skip marker as its label value. *)
Lemma entity_step_skip_label (GPUDevice : string) (c : list Counter) (mi : MonitoringInfo)
    (useOld : bool) (hostname : string) (labels : loc) (val : dcgm.FieldValue_v1 F)
    (counter : Counter) :
  ToString val = SkipDCGMValue ->
  FindCounterField c (dcgm.FieldId val) = Ok (counter, None) ->
  PromType counter = "label" ->
  entity_step GPUDevice c mi useOld hostname labels val
  = Ok (SetLabel (FieldName counter) SkipDCGMValue).
Proof.
  intros Hskip Hfind Hlabel. unfold entity_step. rewrite Hfind. cbn [mbind outcome_bind].
  rewrite decide_True by exact Hlabel. rewrite Hskip. reflexivity.
Qed.

End CollectorFacts.

(** ** The MIG resource cache *)

Section MigCacheFacts.

Context {F : Type} {Fl : Float64 F} {K : DcgmConstants F}.
Variable World : Type.
Variable EntityGetLatestValues :
  World -> N -> N -> list N -> list (dcgm.FieldValue_v1 F) * option dcgm.error * World.

(** The samples the loop of [generateMigCache] obtains, partition by
    partition, up to the first entity without instance metadata. *)
Fixpoint sampled (monitoringInfo : list MonitoringInfo) (w : World)
  : list (MonitoringInfo * GPUInstanceInfo * list (dcgm.FieldValue_v1 F)) :=
  match monitoringInfo with
  | [] => []
  | mi :: rest =>
      match InstanceInfo mi with
      | None => []
      | Some instanceInfo =>
          let '(vals, _, w') :=
            EntityGetLatestValues w (dcgm.EntityGroupId (Entity mi)) (dcgm.EntityId (Entity mi))
              fileds in
          (mi, instanceInfo, vals) :: sampled rest w'
      end
  end.

(** The entries of the partitions of [gpu], in the order of the list. *)
Definition entries_of (gpu : N)
    (samples : list (MonitoringInfo * GPUInstanceInfo * list (dcgm.FieldValue_v1 F)))
  : list (MigResources F) :=
  (fun t => mig_entry t.2 t.1.2) <$> filter (fun t => dcgm.GPU (DeviceInfo t.1.1) = gpu) samples.

(** The MIG partitions of [gpu] in a monitored-entity list. *)
Definition partitions_on (gpu : N) (monitoringInfo : list MonitoringInfo) : list MonitoringInfo :=
  filter (fun mi => is_Some (InstanceInfo mi) ∧ dcgm.GPU (DeviceInfo mi) = gpu) monitoringInfo.

Lemma cache_append_lookup (migResourceCache : gmap N (list (MigResources F))) (gpu g : N)
    (migCache : MigResources F) :
  match migResourceCache !! gpu with
  | Some v => <[gpu := (v ++ [migCache])%list]> migResourceCache
  | None => <[gpu := [migCache]]> migResourceCache
  end !!! g
  = (migResourceCache !!! g ++ (if decide (gpu = g) then [migCache] else []))%list.
Proof.
  destruct (decide (gpu = g)) as [<-|Hne].
  - rewrite (lookup_total_alt migResourceCache gpu).
    destruct (migResourceCache !! gpu) as [v|]; rewrite lookup_total_insert_eq; reflexivity.
  - rewrite app_nil_r.
    destruct (migResourceCache !! gpu) as [v|]; rewrite lookup_total_insert_ne by exact Hne;
      reflexivity.
Qed.

Lemma entries_of_cons (gpu : N) (mi : MonitoringInfo) (instanceInfo : GPUInstanceInfo)
    (vals : list (dcgm.FieldValue_v1 F))
    (samples : list (MonitoringInfo * GPUInstanceInfo * list (dcgm.FieldValue_v1 F))) :
  entries_of gpu ((mi, instanceInfo, vals) :: samples)
  = ((if decide (dcgm.GPU (DeviceInfo mi) = gpu) then [mig_entry vals instanceInfo] else [])
     ++ entries_of gpu samples)%list.
Proof.
  unfold entries_of. rewrite filter_cons. cbn [fst snd].
  destruct (decide (dcgm.GPU (DeviceInfo mi) = gpu)); reflexivity.
Qed.

Hypothesis connection_stays_valid :
  ∀ w group id fields, connection_not_valid (EntityGetLatestValues w group id fields).1.2 = false.

Lemma generateMigCache_loop_partitions (monitoringInfo : list MonitoringInfo) :
  Forall (fun mi => is_Some (InstanceInfo mi)) monitoringInfo ->
  ∀ (migResourceCache : gmap N (list (MigResources F))) (w : World),
    ∃ cache w',
      generateMigCache_loop World EntityGetLatestValues monitoringInfo migResourceCache w
      = Ok (cache, w')
      ∧ ∀ gpu, cache !!! gpu
               = (migResourceCache !!! gpu ++ entries_of gpu (sampled monitoringInfo w))%list.
Proof.
  induction 1 as [|mi rest [instanceInfo Hii] _ IH]; intros migResourceCache w.
  - exists migResourceCache, w. split; [reflexivity|]. intros gpu.
    cbn. rewrite app_nil_r. reflexivity.
  - cbn [generateMigCache_loop sampled]. rewrite Hii.
    pose proof (connection_stays_valid w (dcgm.EntityGroupId (Entity mi))
                  (dcgm.EntityId (Entity mi)) fileds) as Hvalid.
    destruct (EntityGetLatestValues w _ _ fileds) as [[vals err] w1]. cbn [fst snd] in Hvalid.
    rewrite Hvalid.
    destruct (IH match migResourceCache !! dcgm.GPU (DeviceInfo mi) with
                 | Some v => <[dcgm.GPU (DeviceInfo mi) := (v ++ [mig_entry vals instanceInfo])%list]>
                               migResourceCache
                 | None => <[dcgm.GPU (DeviceInfo mi) := [mig_entry vals instanceInfo]]>
                             migResourceCache
                 end w1) as (cache & w' & -> & Hcache).
    exists cache, w'. split; [reflexivity|]. intros gpu.
    rewrite Hcache, cache_append_lookup, entries_of_cons, <- app_assoc. reflexivity.
Qed.

(** The early return: an entity without instance metadata anywhere in the
    list empties the cache. *)
Lemma generateMigCache_loop_nil_map (monitoringInfo : list MonitoringInfo) :
  Exists (fun mi => InstanceInfo mi = None) monitoringInfo ->
  ∀ (migResourceCache : gmap N (list (MigResources F))) (w : World),
    ∃ w', generateMigCache_loop World EntityGetLatestValues monitoringInfo migResourceCache w
          = Ok (∅, w').
Proof.
  induction monitoringInfo as [|mi rest IH]; intros Hex migResourceCache w.
  - apply Exists_nil in Hex. destruct Hex.
  - cbn [generateMigCache_loop]. destruct (InstanceInfo mi) as [instanceInfo|] eqn:Hii.
    + apply Exists_cons in Hex as [Hex|Hex]; [congruence|].
      pose proof (connection_stays_valid w (dcgm.EntityGroupId (Entity mi))
                    (dcgm.EntityId (Entity mi)) fileds) as Hvalid.
      destruct (EntityGetLatestValues w _ _ fileds) as [[vals err] w1]. cbn [fst snd] in Hvalid.
      rewrite Hvalid. apply IH, Hex.
    + exists w. reflexivity.
Qed.

Lemma sampled_partitions (gpu : N) (monitoringInfo : list MonitoringInfo) :
  Forall (fun mi => is_Some (InstanceInfo mi)) monitoringInfo ->
  ∀ w, (fun e => (Profile e, ID e)) <$> entries_of gpu (sampled monitoringInfo w)
       = omap (fun mi =>
                 (fun instanceInfo =>
                    (ProfileName instanceInfo,
                     Sprintf_d (Z.of_N (Info_NvmlInstanceId instanceInfo)))) <$> InstanceInfo mi)
           (partitions_on gpu monitoringInfo).
Proof.
  induction 1 as [|mi rest [instanceInfo Hii] _ IH]; intros w; [reflexivity|].
  cbn [sampled]. rewrite Hii.
  destruct (EntityGetLatestValues w _ _ fileds) as [[vals err] w1].
  rewrite entries_of_cons, fmap_app, IH. unfold partitions_on. rewrite filter_cons.
  destruct (decide (dcgm.GPU (DeviceInfo mi) = gpu)) as [Hg|Hg].
  - rewrite decide_True by (split; [rewrite Hii; eexists; reflexivity | exact Hg]).
    cbn [omap list_omap]. rewrite Hii. reflexivity.
  - rewrite decide_False by (intros [_ ?]; contradiction). reflexivity.
Qed.

(** The inner loop leaves a dimension at zero when every sample of its field
    is the skip marker or does not parse. *)
Definition unusable (fieldId : N) (val : dcgm.FieldValue_v1 F) : Prop :=
  dcgm.FieldId val = fieldId ->
  ToString val = SkipDCGMValue ∨ ParseFloat (ToString val) = None.

Lemma mig_sample_body_unusable (fieldId : N) (dimension : MigResourceCache F -> F)
    (migCache : MigResources F) (val : dcgm.FieldValue_v1 F) :
  (fieldId, dimension) ∈
     [(1004%N, Tensor); (1005%N, Dram); (1006%N, FP64); (1007%N, FP32); (1008%N, FP16)] ->
  unusable fieldId val ->
  dimension (ResourceCache (mig_sample_body migCache val)) = dimension (ResourceCache migCache).
Proof.
  intros Hdim Hun. unfold mig_sample_body.
  case_decide as Hskip; [reflexivity|].
  destruct (ParseFloat (ToString val)) as [float_value|] eqn:Hparse; [|reflexivity].
  assert (Hid : dcgm.FieldId val ≠ fieldId).
  { intros Hid. destruct (Hun Hid) as [?|?]; congruence. }
  rewrite !elem_of_cons, elem_of_nil in Hdim.
  destruct Hdim as [[= -> ->]|[[= -> ->]|[[= -> ->]|[[= -> ->]|[[= -> ->]|[]]]]]];
    repeat (case_decide; [first [contradiction | reflexivity]|]); reflexivity.
Qed.

Lemma mig_entry_unusable (fieldId : N) (dimension : MigResourceCache F -> F)
    (vals : list (dcgm.FieldValue_v1 F)) (instanceInfo : GPUInstanceInfo) :
  (fieldId, dimension) ∈
     [(1004%N, Tensor); (1005%N, Dram); (1006%N, FP64); (1007%N, FP32); (1008%N, FP16)] ->
  Forall (unusable fieldId) vals ->
  dimension (ResourceCache (mig_entry vals instanceInfo)) = fzero.
Proof.
  intros Hdim Hall. unfold mig_entry. cbn [ResourceCache].
  assert (Hgen : ∀ migCache,
             dimension (ResourceCache (foldl mig_sample_body migCache vals))
             = dimension (ResourceCache migCache)).
  { induction Hall as [|val vals Hval _ IH]; intros migCache; [reflexivity|].
    cbn [foldl]. rewrite IH. apply (mig_sample_body_unusable fieldId); assumption. }
  rewrite Hgen. cbn [ResourceCache].
  rewrite !elem_of_cons, elem_of_nil in Hdim.
  destruct Hdim as [[= -> ->]|[[= -> ->]|[[= -> ->]|[[= -> ->]|[[= -> ->]|[]]]]]]; reflexivity.
Qed.

(** When the sampling never reports an invalid connection, generateMigCache
    on a list made of MIG partitions only maps each GPU index to one entry
    per partition of that GPU in the list, in list order and without
    overwriting, each entry with its partition's profile and instance ID and
    with the dimensions whose samples are the skip marker or do not parse at
    zero; on a list without MIG partitions the cache has no entries. *)
Theorem generateMigCache_one_entry_per_partition (monitoringInfo : list MonitoringInfo)
    (w : World) :
  (Forall (fun mi => is_Some (InstanceInfo mi)) monitoringInfo ->
   ∃ cache w',
     generateMigCache World EntityGetLatestValues monitoringInfo w = Ok (cache, w')
     ∧ ∀ gpu,
         cache !!! gpu = entries_of gpu (sampled monitoringInfo w)
         ∧ (fun e => (Profile e, ID e)) <$> (cache !!! gpu)
           = omap (fun mi =>
                     (fun instanceInfo =>
                        (ProfileName instanceInfo,
                         Sprintf_d (Z.of_N (Info_NvmlInstanceId instanceInfo))))
                     <$> InstanceInfo mi)
               (partitions_on gpu monitoringInfo)
         ∧ length (cache !!! gpu) = length (partitions_on gpu monitoringInfo))
  ∧ (∀ fieldId dimension vals instanceInfo,
        (fieldId, dimension) ∈
          [(1004%N, Tensor); (1005%N, Dram); (1006%N, FP64); (1007%N, FP32); (1008%N, FP16)] ->
        Forall (unusable fieldId) vals ->
        dimension (ResourceCache (mig_entry vals instanceInfo)) = fzero)
  ∧ (Forall (fun mi => InstanceInfo mi = None) monitoringInfo ->
     generateMigCache World EntityGetLatestValues monitoringInfo w = Ok (∅, w)).
Proof.
  split; [|split].
  - intros Hall.
    destruct (generateMigCache_loop_partitions monitoringInfo Hall ∅ w)
      as (cache & w' & Hrun & Hcache).
    exists cache, w'. split; [exact Hrun|]. intros gpu.
    assert (Hentries : cache !!! gpu = entries_of gpu (sampled monitoringInfo w)).
    { rewrite Hcache. rewrite lookup_total_empty. reflexivity. }
    pose proof (sampled_partitions gpu monitoringInfo Hall w) as Hnames.
    split; [exact Hentries|]. rewrite Hentries. split; [exact Hnames|].
    rewrite <- (length_fmap (fun e => (Profile e, ID e))), Hnames.
    unfold partitions_on. clear. induction monitoringInfo as [|mi rest IH]; [reflexivity|].
    rewrite filter_cons. case_decide as Hmi; [|exact IH].
    destruct Hmi as [[instanceInfo Hii] _]. cbn [omap list_omap]. rewrite Hii.
    cbn [fmap option_fmap option_map length]. f_equal. exact IH.
  - intros fieldId dimension vals instanceInfo. apply mig_entry_unusable.
  - intros Hnone. destruct Hnone as [|mi rest Hmi _]; [reflexivity|].
    unfold generateMigCache. cbn [generateMigCache_loop]. rewrite Hmi. reflexivity.
Qed.

End MigCacheFacts.

(** ** The attribution formula in exact arithmetic *)

Module ExactFacts.

(** A cache entry whose five utilization values are rationals, as an entry
    of the exact instance. *)
Definition embed_cache (r : MigResourceCache Qc) : MigResourceCache Exact.num :=
  Build_MigResourceCache (Some (Tensor r)) (Some (Dram r)) (Some (FP64 r)) (Some (FP32 r))
    (Some (FP16 r)).

Definition embed (e : MigResources Qc) : MigResources Exact.num :=
  Build_MigResources (embed_cache (ResourceCache e)) (Profile e) (ID e).

(** The slice count read off a profile name, as the code reads it. *)
Definition slice_of (profile : string) : option Z :=
  match profile with
  | EmptyString => None
  | String b _ => Atoi (string_of_byte b)
  end.


Definition qsummed (r : MigResourceCache Qc) : Qc :=
  (Tensor r + Dram r + FP64 r + FP32 r + FP16 r)%Qc.

Definition qadd (a b : MigResourceCache Qc) : MigResourceCache Qc :=
  Build_MigResourceCache (Tensor a + Tensor b)%Qc (Dram a + Dram b)%Qc (FP64 a + FP64 b)%Qc
    (FP32 a + FP32 b)%Qc (FP16 a + FP16 b)%Qc.

(** The five weighted dimensions of an entry with slice count [s]. *)
Definition qscale (r : MigResourceCache Qc) (s : Z) : MigResourceCache Qc :=
  let k := Q2Qc (inject_Z s) in
  Build_MigResourceCache
    (Tensor r * k * Q2Qc (338 # 1000))%Qc (Dram r * k * Q2Qc (152 # 1000))%Qc
    (FP64 r * k * Q2Qc (17 # 100))%Qc (FP32 r * k * Q2Qc (17 # 100))%Qc
    (FP16 r * k * Q2Qc (17 # 100))%Qc.

Definition weighted (e : MigResources Qc) : MigResources Qc :=
  Build_MigResources (qscale (ResourceCache e) (default 0 (slice_of (Profile e))))
    (Profile e) (ID e).

Definition weight (e : MigResources Qc) : Qc := qsummed (ResourceCache (weighted e)).


Definition qzero : MigResourceCache Qc := Build_MigResourceCache 0%Qc 0%Qc 0%Qc 0%Qc 0%Qc.

(** *** Signs *)







(** The slice count of a profile is one decimal digit. *)
Lemma Atoi_string_of_byte_digit (b : ascii) (s : Z) :
  Atoi (string_of_byte b) = Some s -> (0 <= s <= 9)%Z.
Proof.
  destruct b as [[] [] [] [] [] [] [] []]; vm_compute; intros [= <-]; split; discriminate.
Qed.








Section Arithmetic.

Variable parse : string -> option Exact.num.
Variable format : Exact.num -> string.

#[local] Instance exact : Float64 Exact.num := Exact.exact64 parse format.

Lemma summed_embed (r : MigResourceCache Qc) : summed (embed_cache r) = Some (qsummed r).
Proof. reflexivity. Qed.

Lemma add_resources_embed (a b : MigResourceCache Qc) :
  add_resources (embed_cache a) (embed_cache b) = embed_cache (qadd a b).
Proof. reflexivity. Qed.

Lemma scale_device_embed (e : MigResources Qc) (s : Z) :
  slice_of (Profile e) = Some s ->
  scale_device (embed e) (of_int s) = embed (weighted e).
Proof. intros Hs. unfold weighted. rewrite Hs. reflexivity. Qed.

Lemma qsummed_qadd (a b : MigResourceCache Qc) :
  qsummed (qadd a b) = (qsummed a + qsummed b)%Qc.
Proof. unfold qsummed, qadd. simpl. ring. Qed.







Lemma qsummed_qzero : qsummed qzero = 0%Qc.
Proof. unfold qsummed, qzero. cbn [Tensor Dram FP64 FP32 FP16]. ring. Qed.




(** On a cache with one entry the quotient of the weighted formula is the
    whole active power, unless the entry weighs nothing. *)
Lemma single_entry_quotient (e : MigResources Qc) (s : Z) (active : Qc) :
  slice_of (Profile e) = Some s ->
  let inst := ResourceCache (scale_device (embed e) (of_int s)) in
  (Some active * summed inst / summed (add_resources zero_cache inst))%f64
  = if decide (weight e = 0%Qc) then None else Some active.
Proof.
  intros Hs. cbv zeta. rewrite (scale_device_embed e s Hs).
  change (ResourceCache (embed (weighted e))) with (embed_cache (ResourceCache (weighted e))).
  change zero_cache with (embed_cache qzero).
  rewrite add_resources_embed, !summed_embed, qsummed_qadd, qsummed_qzero, Qcplus_0_l.
  fold (weight e).
  change (Some active * Some (weight e) / Some (weight e))%f64
    with (Exact.div (Some (active * weight e)%Qc) (Some (weight e))).
  unfold Exact.div.
  destruct (Qc_eq_dec (weight e) 0%Qc) as [Hz|Hnz].
  - rewrite decide_True by exact Hz. reflexivity.
  - rewrite decide_False by exact Hnz. f_equal. field. exact Hnz.
Qed.

End Arithmetic.

End ExactFacts.

(** ** The attribution formula in IEEE binary64 *)

Module Binary64Facts.

(** [x] is one of the two zeros. *)
Definition is_zero (x : float) : Prop := ∃ s : bool, Prim2SF x = S754_zero s.

(** [x] is a zero or a finite number: neither NaN nor an infinity. *)
Definition is_finite (x : float) : Prop :=
  match Prim2SF x with
  | S754_zero _ | S754_finite _ _ _ => True
  | _ => False
  end.

Definition all_zero (r : MigResourceCache float) : Prop :=
  is_zero (Tensor r) ∧ is_zero (Dram r) ∧ is_zero (FP64 r) ∧ is_zero (FP32 r) ∧ is_zero (FP16 r).

(** [x == 0.0] for every utilization dimension of [r]. *)
Definition zero_utilization (r : MigResourceCache float) : Prop :=
  PrimFloat.eqb (Tensor r) PrimFloat.zero = true
  ∧ PrimFloat.eqb (Dram r) PrimFloat.zero = true
  ∧ PrimFloat.eqb (FP64 r) PrimFloat.zero = true
  ∧ PrimFloat.eqb (FP32 r) PrimFloat.zero = true
  ∧ PrimFloat.eqb (FP16 r) PrimFloat.zero = true.

Lemma eqb_zero_is_zero (x : float) : PrimFloat.eqb x PrimFloat.zero = true -> is_zero x.
Proof.
  rewrite FloatAxioms.eqb_spec.
  replace (Prim2SF PrimFloat.zero) with (S754_zero false) by reflexivity.
  unfold is_zero. destruct (Prim2SF x) as [s| | |s m e]; try discriminate.
  - intros _. exists s. reflexivity.
  - destruct s; discriminate.
  - destruct s; discriminate.
Qed.

Lemma zero_utilization_all_zero (r : MigResourceCache float) : zero_utilization r -> all_zero r.
Proof.
  intros (Ht & Hd & H64 & H32 & H16).
  repeat split; apply eqb_zero_is_zero; assumption.
Qed.

Lemma is_zero_zero : is_zero PrimFloat.zero.
Proof. exists false. reflexivity. Qed.

Lemma add_is_zero (x y : float) : is_zero x -> is_zero y -> is_zero (PrimFloat.add x y).
Proof.
  intros [s1 H1] [s2 H2]. unfold is_zero. rewrite add_spec, H1, H2.
  destruct s1, s2; eexists; reflexivity.
Qed.

Lemma mul_is_zero (x y : float) : is_zero x -> is_finite y -> is_zero (PrimFloat.mul x y).
Proof.
  intros [s1 H1] Hy. unfold is_zero, is_finite in *. rewrite mul_spec, H1.
  destruct (Prim2SF y) as [s| | |s m e]; try contradiction; eexists; reflexivity.
Qed.

(** [0/0]: whatever the active power, the quotient of the weighted formula
    is NaN when both sums are zero. *)
Lemma zero_quotient_is_nan (a z1 z2 : float) :
  is_zero z1 -> is_zero z2 ->
  PrimFloat.eqb (PrimFloat.div (PrimFloat.mul a z1) z2) (PrimFloat.div (PrimFloat.mul a z1) z2)
  = false.
Proof.
  intros [s1 H1] [s2 H2]. rewrite FloatAxioms.eqb_spec, div_spec, mul_spec, H1, H2.
  destruct (Prim2SF a) as [s| | |s m e]; reflexivity.
Qed.

Lemma slice_is_finite (s : Z) : (0 <= s <= 9)%Z -> is_finite (Binary64.float_of_Z s).
Proof.
  intros Hs.
  assert (Hc : s = 0 ∨ s = 1 ∨ s = 2 ∨ s = 3 ∨ s = 4 ∨ s = 5 ∨ s = 6 ∨ s = 7 ∨ s = 8 ∨ s = 9)
    by lia.
  repeat destruct Hc as [->|Hc]; try subst s; vm_compute; exact I.
Qed.

Section Fallback.

Variable parse : string -> option float.

#[local] Instance binary64 : Float64 float := Binary64.float64 parse.

Lemma summed_is_zero (r : MigResourceCache float) : all_zero r -> is_zero (summed r).
Proof.
  intros (Ht & Hd & H64 & H32 & H16). unfold summed.
  repeat apply add_is_zero; assumption.
Qed.

Lemma scale_device_all_zero (device : MigResources float) (s : Z) :
  (0 <= s <= 9)%Z -> all_zero (ResourceCache device) ->
  all_zero (ResourceCache (scale_device device (of_int s))).
Proof.
  intros Hs (Ht & Hd & H64 & H32 & H16).
  pose proof (slice_is_finite s Hs) as Hf.
  unfold all_zero, scale_device. cbn [ResourceCache Tensor Dram FP64 FP32 FP16].
  repeat split; (apply mul_is_zero; [apply mul_is_zero; [assumption | exact Hf] |]);
    vm_compute; exact I.
Qed.

Lemma add_resources_all_zero (total r : MigResourceCache float) :
  all_zero total -> all_zero r -> all_zero (add_resources total r).
Proof.
  intros (Ht & Hd & H64 & H32 & H16) (Ht' & Hd' & H64' & H32' & H16').
  unfold all_zero, add_resources. cbn [Tensor Dram FP64 FP32 FP16].
  repeat split; apply add_is_zero; assumption.
Qed.

(** The invariant of the loop on a cache without utilization: every total
    and every dimension of [mig_instance] is a zero, unless a profile failed
    to parse. *)
Definition zero_state (st : power_loop_state) : Prop :=
  match st with
  | inl (totalResource, mig_instance) =>
      all_zero totalResource ∧ all_zero (ResourceCache mig_instance)
  | inr _ => True
  end.

Lemma power_loop_body_zero (id : string) (st : power_loop_state) (device : MigResources float) :
  Profile device ≠ "" -> zero_utilization (ResourceCache device) -> zero_state st ->
  ∃ st', power_loop_body id st device = Ok st' ∧ zero_state st'.
Proof.
  intros Hp Hz Hst. apply zero_utilization_all_zero in Hz.
  destruct st as [[totalResource mig_instance]|err]; [|exists (inr err); split; [reflexivity|exact I]].
  destruct Hst as [Htot Hinst]. unfold power_loop_body.
  destruct (Profile device) as [|b rest] eqn:Hprofile; [contradiction|].
  cbn [first_byte mbind outcome_bind].
  destruct (Atoi (string_of_byte b)) as [s|] eqn:Hs.
  - eexists. split; [reflexivity|].
    pose proof (ExactFacts.Atoi_string_of_byte_digit b s Hs) as Hdigit.
    pose proof (scale_device_all_zero device s Hdigit Hz) as Hscaled.
    split; [apply add_resources_all_zero; assumption|].
    destruct (decide _); assumption.
  - eexists. split; [reflexivity|exact I].
Qed.

Lemma power_loop_zero (id : string) (m : list (MigResources float)) :
  Forall (fun device => Profile device ≠ "" ∧ zero_utilization (ResourceCache device)) m ->
  ∀ st, zero_state st ->
    ∃ st', for_range (power_loop_body id) m st = Ok st' ∧ zero_state st'.
Proof.
  induction 1 as [|device m [Hp Hz] _ IH]; intros st Hst.
  - exists st. split; [reflexivity | exact Hst].
  - destruct (power_loop_body_zero id st device Hp Hz Hst) as (st1 & Hbody & Hst1).
    destruct (IH st1 Hst1) as (st' & Hloop & Hst').
    exists st'. split; [|exact Hst'].
    cbn [for_range]. rewrite Hbody. exact Hloop.
Qed.

(** On a cache without utilization the weighted formula always reports an
    error: the 0/0 is caught as NaN, or a cached profile does not parse. *)
Lemma processMigCacheForPower_zero (m : list (MigResources float)) (id : string)
    (active_power : float) :
  Forall (fun device => Profile device ≠ "" ∧ zero_utilization (ResourceCache device)) m ->
  ∃ (x : float) (err : string),
    processMigCacheForPower m id active_power = Ok (x, Some err).
Proof.
  intros Hm. unfold processMigCacheForPower.
  destruct (power_loop_zero id m Hm (inl (zero_cache, Build_MigResources zero_cache "" "")))
    as (st' & -> & Hst').
  { split; repeat split; exact is_zero_zero. }
  cbn [mbind outcome_bind].
  destruct st' as [[totalResource mig_instance]|[x err]]; [|exists x, err; reflexivity].
  destruct Hst' as [Htot Hinst].
  pose proof (summed_is_zero _ Htot) as Hzt. pose proof (summed_is_zero _ Hinst) as Hzi.
  cbv zeta.
  change (feq ?a ?b) with (PrimFloat.eqb a b).
  change (active_power * summed (ResourceCache mig_instance) / summed totalResource)%f64
    with (PrimFloat.div (PrimFloat.mul active_power (summed (ResourceCache mig_instance)))
            (summed totalResource)).
  rewrite (zero_quotient_is_nan active_power _ _ Hzi Hzt). cbn [negb].
  eexists _, _. reflexivity.
Qed.

(** C3: a power sample of a MIG instance whose GPU's cached entries all have
    zero utilization in the five dimensions does not fail on the 0/0: the
    NaN of the weighted formula is detected and the value returned is the
    naive proportional share, idle share plus active share, both scaled by
    S/7. *)
Theorem zero_utilization_returns_naive_share (v profile id : string) (gpu : N)
    (counter : Counter) (migResourceCache : gmap N (list (MigResources float)))
    (cachedResource : list (MigResources float)) (b : ascii) (rest : string) (S : Z) (P : float) :
  FieldID counter = 155%N ->
  profile = String b rest -> Atoi (string_of_byte b) = Some S ->
  ParseFloat v = Some P ->
  migResourceCache !! gpu = Some cachedResource ->
  Forall (fun device => Profile device ≠ "" ∧ zero_utilization (ResourceCache device))
    cachedResource ->
  migDeviceResource v profile id gpu counter migResourceCache
  = Ok (Sprintf_f ((P - min (of_int 90) P) * of_int S / of_int 7
                   + min (of_int 90) P * of_int S / of_int 7)%f64).
Proof.
  intros Hid -> Hs Hv Hcache Hzero. unfold migDeviceResource.
  rewrite bool_decide_true by exact Hid. cbn [first_byte mbind outcome_bind].
  rewrite Hs, Hv, Hcache.
  destruct (processMigCacheForPower_zero cachedResource id
              (P - min (of_int 90) P)%f64 Hzero) as (x & err & ->).
  reflexivity.
Qed.

End Fallback.

End Binary64Facts.

(** ** A GPU with a single partition *)

(** C1: amended.  For a power sample on a MIG instance whose GPU's cache
    holds only that instance, migDeviceResource returns idle_share plus
    active_share with idle = min(90, P), idle_share = idle * S / 7 and
    active_share = (P - idle) * W / W, W the instance's weighted utilization
    sum; the naive (P - idle) * S / 7 is used only when that quotient is NaN.
    In exact arithmetic the quotient is the whole active power P - idle when
    W is not zero, and undefined when W is zero. *)
Theorem single_entry_attributes_whole_active_power :
  (∀ (F : Type) (Fl : Float64 F) (v id : string) (gpu : N) (counter : Counter)
     (e : MigResources F) (b : ascii) (rest : string) (S : Z) (P : F),
      FieldID counter = 155%N ->
      Profile e = String b rest -> ID e = id ->
      Atoi (string_of_byte b) = Some S -> ParseFloat v = Some P ->
      migDeviceResource v (Profile e) id gpu counter {[ gpu := [e] ]}
      = let idle := min (of_int 90) P in
        let idle_share := (idle * of_int S / of_int 7)%f64 in
        let active := (P - idle)%f64 in
        let W := summed (ResourceCache (scale_device e (of_int S))) in
        let W_total :=
          summed (add_resources zero_cache (ResourceCache (scale_device e (of_int S)))) in
        let quotient := (active * W / W_total)%f64 in
        let active_share :=
          if feq quotient quotient then quotient else (active * of_int S / of_int 7)%f64 in
        Ok (Sprintf_f (active_share + idle_share)%f64))
  ∧ (∀ (parse : string -> option Exact.num) (format : Exact.num -> string)
       (e : MigResources Qc) (S : Z) (active : Qc),
      ExactFacts.slice_of (Profile e) = Some S ->
      let Fl := Exact.exact64 parse format in
      let W := summed (ResourceCache (scale_device (ExactFacts.embed e) (of_int S))) in
      let W_total :=
        summed (add_resources zero_cache
                  (ResourceCache (scale_device (ExactFacts.embed e) (of_int S)))) in
      (Some active * W / W_total)%f64
      = if decide (ExactFacts.weight e = 0%Qc) then None else Some active).
Proof.
  split.
  - intros F Fl v id gpu counter e b rest S P Hid Hp He Hs Hv.
    exact (migDeviceResource_single v id gpu counter e b rest S P Hid Hp He Hs Hv).
  - intros parse format e S active Hs.
    exact (ExactFacts.single_entry_quotient parse format e S active Hs).
Qed.

(** C1 with the naive active share fails: with P = 200, S = 3 and a
    tensor utilization of 0.5 the code returns 148.571429 (all of the 110 W
    of active power), not the naive 85.714286. *)
Lemma single_entry_is_not_the_naive_share :
  let Fl := Sample.f64 in
  let P := of_int 200 in
  let S := of_int 3 in
  let idle := min (of_int 90) P in
  migDeviceResource "200" "3g.20gb" "1" 0%N Sample.power {[ 0%N := [Sample.partition_A] ]}
  = Ok "148.571429"
  ∧ Sprintf_f (idle * S / of_int 7 + (P - idle) * S / of_int 7)%f64 = "85.714286"
  ∧ migDeviceResource "200" "3g.20gb" "1" 0%N Sample.power {[ 0%N := [Sample.partition_A] ]}
    ≠ Ok (Sprintf_f (idle * S / of_int 7 + (P - idle) * S / of_int 7)%f64).
Proof.
  cbv zeta.
  assert (H1 : @migDeviceResource float Sample.f64 "200" "3g.20gb" "1" 0%N Sample.power
                 {[ 0%N := [Sample.partition_A] ]} = Ok "148.571429")
    by (vm_compute; reflexivity).
  split; [exact H1|]. split; [vm_compute; reflexivity|].
  rewrite H1. vm_compute. discriminate.
Qed.

(** ** The sample GPU, evaluated *)

Section Evaluated.

#[local] Instance sample_f64 : Float64 float := Sample.f64.
#[local] Instance sample_consts : DcgmConstants float := Sample.consts.

(** C8: in the switch and CPU builders a blank sample of the label-typed
    driver-version counter is not skipped before the counter is resolved; it
    puts the skip marker into the label set of the entity.  ToMetric, on the
    same samples, leaves the label set empty. *)
Theorem switch_and_cpu_builders_label_the_skip_marker :
  ToSwitchMetric ∅ [] [Sample.string_sample 1 "<<<NULL>>>"] Sample.counters Sample.switch0
    false "node"
  = Ok (∅, [<["DCGM_FI_DRIVER_VERSION" := SkipDCGMValue]> ∅])
  ∧ ToCPUMetric ∅ [] [Sample.string_sample 1 "<<<NULL>>>"] Sample.counters Sample.switch0
      false "node"
    = Ok (∅, [<["DCGM_FI_DRIVER_VERSION" := SkipDCGMValue]> ∅])
  ∧ ToMetric (fun model => [model]) ∅ [] [Sample.string_sample 1 "<<<NULL>>>"]
      Sample.counters Sample.gpu0 None false "node" false ∅
    = Ok (∅, [∅]).
Proof.
  assert (Hskip : ToString (Sample.string_sample 1 "<<<NULL>>>") = SkipDCGMValue)
    by (vm_compute; reflexivity).
  assert (Hfind : FindCounterField Sample.counters
                    (dcgm.FieldId (Sample.string_sample 1 "<<<NULL>>>"))
                  = Ok (Sample.driver, None))
    by (vm_compute; reflexivity).
  split; [|split].
  - unfold ToSwitchMetric, builder_pass. cbn [for_range].
    rewrite (entity_step_skip_label _ _ _ _ _ _ _ Sample.driver Hskip Hfind eq_refl).
    reflexivity.
  - unfold ToCPUMetric, builder_pass. cbn [for_range].
    rewrite (entity_step_skip_label _ _ _ _ _ _ _ Sample.driver Hskip Hfind eq_refl).
    reflexivity.
  - unfold ToMetric, builder_pass. cbn [for_range].
    rewrite (ToMetric_step_skip _ _ _ _ _ _ _ _ _ _ Hskip).
    reflexivity.
Qed.

(** C4: generateMigCache should map each GPU index to one entry per MIG
    partition of that GPU in the list.  On a host with a MIG GPU and a GPU
    without MIG it does not: the list holds one partition of GPU 0, the early
    return at the entity without instance metadata drops it, and the cache
    has no entry for GPU 0. *)
Lemma mixed_list_yields_no_entries :
  generateMigCache unit Sample.service [Sample.mig_A; Sample.plain_gpu1] tt = Ok (∅, tt)
  ∧ partitions_on 0%N [Sample.mig_A; Sample.plain_gpu1] = [Sample.mig_A]
  ∧ length ((∅ : gmap N (list (MigResources float))) !!! 0%N)
    ≠ length (partitions_on 0%N [Sample.mig_A; Sample.plain_gpu1]).
Proof.
  assert (Hp : partitions_on 0%N [Sample.mig_A; Sample.plain_gpu1] = [Sample.mig_A])
    by (vm_compute; reflexivity).
  split; [vm_compute; reflexivity|]. split; [exact Hp|].
  rewrite Hp, lookup_total_empty. cbn. discriminate.
Qed.

Lemma single_entry_witness :
  migDeviceResource "200" (Profile Sample.partition_A) "1" 0%N Sample.power
    {[ 0%N := [Sample.partition_A] ]} = Ok "148.571429".
Proof.
  rewrite (proj1 single_entry_attributes_whole_active_power float sample_f64 "200" "1" 0%N
             Sample.power Sample.partition_A "3"%char "g.20gb" 3 (Binary64.float_of_Z 200)).
  - vm_compute. reflexivity.
  - reflexivity.
  - reflexivity.
  - reflexivity.
  - vm_compute. reflexivity.
  - vm_compute. reflexivity.
Defined.


Lemma zero_utilization_witness :
  migDeviceResource "200" "3g.20gb" "1" 0%N Sample.power {[ 0%N := [Sample.idle_A] ]}
  = Ok "85.714286".
Proof.
  rewrite (Binary64Facts.zero_utilization_returns_naive_share Binary64.parse_decimal
             "200" "3g.20gb" "1" 0%N Sample.power {[ 0%N := [Sample.idle_A] ]}
             [Sample.idle_A] "3"%char "g.20gb" 3 (Binary64.float_of_Z 200)).
  - vm_compute. reflexivity.
  - reflexivity.
  - reflexivity.
  - vm_compute. reflexivity.
  - vm_compute. reflexivity.
  - apply lookup_singleton_eq.
  - constructor; [|constructor]. split; [discriminate|].
    repeat split; vm_compute; reflexivity.
Defined.

Lemma generateMigCache_witness :
  ∃ cache w',
    generateMigCache unit Sample.service [Sample.mig_A; Sample.mig_B] tt = Ok (cache, w')
    ∧ (fun e => (Profile e, ID e)) <$> (cache !!! 0%N) = [("3g.20gb", "1"); ("4g.20gb", "2")]
    ∧ length (cache !!! 0%N) = 2%nat.
Proof.
  destruct (proj1 (generateMigCache_one_entry_per_partition unit Sample.service
                     (fun w group id fields => eq_refl)
                     [Sample.mig_A; Sample.mig_B] tt))
    as (cache & w' & Hrun & Hcache).
  - repeat constructor; eexists; reflexivity.
  - exists cache, w'. split; [exact Hrun|].
    destruct (Hcache 0%N) as (_ & Hnames & Hlen).
    split; [rewrite Hnames | rewrite Hlen]; vm_compute; reflexivity.
Defined.

Lemma parse_failure_witness :
  migDeviceResource "n/a" "3g.20gb" "1" 0%N Sample.power {[ 0%N := [Sample.partition_A] ]}
  = Ok "n/a"
  ∧ migDeviceResource "200" "g3.20gb" "1" 0%N Sample.power {[ 0%N := [Sample.partition_A] ]}
    = Ok "200"
  ∧ migDeviceResource "200" "" "1" 0%N Sample.power {[ 0%N := [Sample.partition_A] ]}
    = Fault IndexOutOfRange.
Proof.
  split; [|split].
  - apply (proj1 (migDeviceResource_parse_failure_returns_input "n/a" "3g.20gb" "1" 0%N
                    Sample.power {[ 0%N := [Sample.partition_A] ]} eq_refl) "3"%char "g.20gb" eq_refl).
    right. vm_compute. reflexivity.
  - apply (proj1 (migDeviceResource_parse_failure_returns_input "200" "g3.20gb" "1" 0%N
                    Sample.power {[ 0%N := [Sample.partition_A] ]} eq_refl) "g"%char "3.20gb" eq_refl).
    left. vm_compute. reflexivity.
  - apply (proj2 (migDeviceResource_parse_failure_returns_input "200" "" "1" 0%N
                    Sample.power {[ 0%N := [Sample.partition_A] ]} eq_refl) eq_refl).
Defined.

Lemma ToString_witness :
  ToString (Sample.int_sample 150 2147483632) = SkipDCGMValue
  ∧ ToString (Sample.int_sample 150 41) = "41"
  ∧ ToString (Sample.double_sample 155 (Binary64.float_of_Z 140737488355329)) = SkipDCGMValue
  ∧ ToString (Sample.string_sample 1 "<<<NOT_PERM>>>") = SkipDCGMValue
  ∧ ToString (Sample.string_sample 1 "535.1") = "535.1"
  ∧ ToString (Sample.binary_sample 7) = FailedToConvert.
Proof.
  assert (Hid : @DCGM_FT_INT64 float sample_consts ≠ @DCGM_FT_DOUBLE float sample_consts)
    by discriminate.
  assert (His : @DCGM_FT_INT64 float sample_consts ≠ @DCGM_FT_STRING float sample_consts)
    by discriminate.
  assert (Hds : @DCGM_FT_DOUBLE float sample_consts ≠ @DCGM_FT_STRING float sample_consts)
    by discriminate.
  pose proof (fun value => ToString_sentinels_and_markers value Hid His Hds) as H.
  refine (conj _ (conj _ (conj _ (conj _ (conj _ _))))).
  - apply (proj1 (proj1 (H (Sample.int_sample 150 2147483632)) eq_refl)). left.
  - apply (proj2 (proj1 (H (Sample.int_sample 150 41)) eq_refl)).
    rewrite !not_elem_of_cons. repeat split; try (vm_compute; discriminate).
    apply not_elem_of_nil.
  - apply (proj1 (proj1 (proj2 (H (Sample.double_sample 155 _))) eq_refl)).
    apply Exists_cons_tl, Exists_cons_hd. vm_compute. reflexivity.
  - apply (proj1 (proj1 (proj2 (proj2 (H (Sample.string_sample 1 "<<<NOT_PERM>>>")))) eq_refl)).
    right. right. right. left.
  - apply (proj2 (proj1 (proj2 (proj2 (H (Sample.string_sample 1 "535.1")))) eq_refl)).
    rewrite !not_elem_of_cons. repeat split; try (vm_compute; discriminate).
    apply not_elem_of_nil.
  - apply (proj1 (proj2 (proj2 (proj2 (H (Sample.binary_sample 7)))))).
    rewrite !not_elem_of_cons. repeat split; try (vm_compute; discriminate).
    apply not_elem_of_nil.
Defined.

Lemma FindCounterField_witness :
  FindCounterField Sample.counters 150 = Ok (Sample.temperature, None)
  ∧ FindCounterField Sample.counters 1004
    = Ok (Sample.power, Some "could not find counter corresponding to field ID '1004'")
  ∧ FindCounterField [] 150 = Fault IndexOutOfRange.
Proof.
  split; [|split].
  - apply (proj1 (FindCounterField_first_or_error_or_panic 150) [Sample.power] [Sample.driver]
             Sample.temperature); [|reflexivity].
    repeat constructor. discriminate.
  - apply (proj1 (proj2 (FindCounterField_first_or_error_or_panic 1004)) Sample.power
             [Sample.temperature; Sample.driver]).
    repeat constructor; discriminate.
  - apply (proj2 (proj2 (FindCounterField_first_or_error_or_panic 150))).
Defined.

(** The driver version is sampled after the temperature and the power, and
    both metrics hold it. *)
Lemma labels_aggregated_witness :
  ∃ metrics' store',
    ToMetric (fun model => [model]) ∅ []
      [Sample.int_sample 150 41; Sample.int_sample 155 200; Sample.string_sample 1 "535.1"]
      Sample.counters Sample.gpu0 (Some Sample.instance_A) false "node" false
      {[ 0%N := [Sample.partition_A; Sample.partition_B] ]} = Ok (metrics', store')
    ∧ label_aggregated Sample.counters
        (fun val counter =>
           ToString val ≠ SkipDCGMValue
           ∧ FindCounterField Sample.counters (dcgm.FieldId val) = Ok (counter, None)
           ∧ PromType counter = "label")
        ∅ []
        [Sample.int_sample 150 41; Sample.int_sample 155 200; Sample.string_sample 1 "535.1"]
        metrics' store'.
Proof.
  destruct (builder_pass_returns
              (ToMetric_step (fun model => [model]) Sample.counters Sample.gpu0
                 (Some Sample.instance_A) false "node" false
                 {[ 0%N := [Sample.partition_A; Sample.partition_B] ]})
              ∅ []
              [Sample.int_sample 150 41; Sample.int_sample 155 200;
               Sample.string_sample 1 "535.1"])
    as [[metrics' store'] Hrun].
  { repeat constructor; eexists; vm_compute; reflexivity. }
  exists metrics', store'. split; [exact Hrun|].
  exact (proj1 (labels_aggregated_in_every_builder (fun model => [model]) ∅ metrics' [] store'
                  _ Sample.counters Sample.gpu0 (Some Sample.instance_A) Sample.switch0 false
                  "node" false {[ 0%N := [Sample.partition_A; Sample.partition_B] ]}) Hrun).
Defined.


(** The scenario of the spec on binary64: profiles 3g.20gb and 4g.20gb,
    tensor utilization 0.5 and 0.1, 110 W of active power.  The two shares
    are 86.842105 and 23.157895; their sum is 110 up to rounding, not
    exactly. *)
Example scenario_shares_on_binary64 :
  ∃ share_A share_B : float,
    processMigCacheForPower [Sample.partition_A; Sample.partition_B] "1" (of_int 110)
    = Ok (share_A, None)
    ∧ processMigCacheForPower [Sample.partition_A; Sample.partition_B] "2" (of_int 110)
      = Ok (share_B, None)
    ∧ Sprintf_f share_A = "86.842105" ∧ Sprintf_f share_B = "23.157895"
    ∧ Sprintf_f (share_A + share_B)%f64 = "110.000000"
    ∧ feq (share_A + share_B)%f64 (of_int 110) = false.
Proof.
  eexists _, _.
  split; [vm_compute; reflexivity|]. split; [vm_compute; reflexivity|].
  split; [vm_compute; reflexivity|]. split; [vm_compute; reflexivity|].
  split; vm_compute; reflexivity.
Qed.

End Evaluated.

(** * More of the collector *)

(** ** Decimal strings *)

Lemma Sprintf_d_parses (n : Z) : NilZero.int_of_string (Sprintf_d n) = Some (Z.to_int n).
Proof.
  unfold Sprintf_d. apply NilZero.isi.
  - destruct n as [|p|p]; cbn; try discriminate.
    intros [= Hp]. exact (DecimalPos.Unsigned.to_uint_nonnil p Hp).
  - destruct n as [|p|p]; cbn; try discriminate.
    intros [= Hp]. exact (DecimalPos.Unsigned.to_uint_nonnil p Hp).
Qed.

(** Two numbers print alike with [%d] only if they are equal. *)
Lemma Sprintf_d_inj (n m : Z) : Sprintf_d n = Sprintf_d m -> n = m.
Proof.
  intros Heq. pose proof (Sprintf_d_parses n) as Hn. rewrite Heq, Sprintf_d_parses in Hn.
  injection Hn as Hn. rewrite <- (DecimalZ.of_to n), <- (DecimalZ.of_to m), Hn. reflexivity.
Qed.

(** A number printed with [%d] starts with a digit or a minus sign. *)
Lemma Sprintf_d_head (n : Z) :
  ∃ (c : ascii) (rest : string),
    Sprintf_d n = String c rest
    ∧ c ∈ ["-"; "0"; "1"; "2"; "3"; "4"; "5"; "6"; "7"; "8"; "9"]%char.
Proof.
  unfold Sprintf_d.
  assert (Hu : ∀ d, ∃ c rest, NilZero.string_of_uint d = String c rest
                              ∧ c ∈ ["0"; "1"; "2"; "3"; "4"; "5"; "6"; "7"; "8"; "9"]%char).
  { intros d. destruct d; cbn; eexists _, _; (split; [reflexivity|]);
      rewrite !elem_of_cons; auto 12. }
  destruct n as [|p|p]; cbn.
  - eexists _, _. split; [reflexivity|]. rewrite !elem_of_cons; auto 12.
  - destruct (Hu (Pos.to_uint p)) as (c & rest & -> & Hc).
    exists c, rest. split; [reflexivity|]. right. exact Hc.
  - eexists _, _. split; [reflexivity|]. left.
Qed.

Lemma Sprintf_d_not_marker (n : Z) : Sprintf_d n ≠ SkipDCGMValue ∧ Sprintf_d n ≠ FailedToConvert.
Proof.
  destruct (Sprintf_d_head n) as (c & rest & -> & Hc).
  rewrite !elem_of_cons, elem_of_nil in Hc.
  split; intros [= -> _]; intuition discriminate.
Qed.

(** ** The value normalizer and the counter resolver, both ways *)

Module NormalizerFacts.

Lemma format_f_head (x : float) :
  ∃ (c : ascii) (rest : string),
    Binary64.format_f x = String c rest
    ∧ c ∈ ["N"; "+"; "-"; "0"; "1"; "2"; "3"; "4"; "5"; "6"; "7"; "8"; "9"]%char.
Proof.
  unfold Binary64.format_f.
  destruct (Prim2SF x) as [s|s| |s m e].
  - destruct s; cbn; eexists _, _; (split; [reflexivity|]); repeat constructor.
  - destruct s; cbn; eexists _, _; (split; [reflexivity|]); repeat constructor.
  - eexists _, _. split; [reflexivity|]. left.
  - destruct s; cbn [Binary64.sign_string].
    + eexists _, _. split; [reflexivity|]. repeat constructor.
    + unfold Binary64.fixed6.
      destruct (Sprintf_d_head (Binary64.scaled6 (Z.pos m) e / 1000000)) as (c & rest & -> & Hc).
      eexists c, _. split; [reflexivity|]. right. right. exact Hc.
Qed.

Lemma format_f_not_marker (x : float) :
  Binary64.format_f x ≠ SkipDCGMValue ∧ Binary64.format_f x ≠ FailedToConvert.
Proof.
  destruct (format_f_head x) as (c & rest & -> & Hc).
  rewrite !elem_of_cons, elem_of_nil in Hc.
  split; intros [= -> _]; intuition discriminate.
Qed.

Section Binary64.

Variable parse : string -> option float.
Context {K : DcgmConstants float}.

#[local] Instance binary64 : Float64 float := Binary64.float64 parse.

Hypothesis int64_is_not_double : DCGM_FT_INT64 ≠ DCGM_FT_DOUBLE.
Hypothesis int64_is_not_string : DCGM_FT_INT64 ≠ DCGM_FT_STRING.
Hypothesis double_is_not_string : DCGM_FT_DOUBLE ≠ DCGM_FT_STRING.

Lemma ToString_int64 (value : dcgm.FieldValue_v1 float) :
  dcgm.FieldType value = DCGM_FT_INT64 ->
  (dcgm.Int64 value ∈
     [DCGM_FT_INT32_BLANK; DCGM_FT_INT32_NOT_FOUND; DCGM_FT_INT32_NOT_SUPPORTED;
      DCGM_FT_INT32_NOT_PERMISSIONED; DCGM_FT_INT64_BLANK; DCGM_FT_INT64_NOT_FOUND;
      DCGM_FT_INT64_NOT_SUPPORTED; DCGM_FT_INT64_NOT_PERMISSIONED]
   ∧ ToString value = SkipDCGMValue)
  ∨ ((dcgm.Int64 value ∉
        [DCGM_FT_INT32_BLANK; DCGM_FT_INT32_NOT_FOUND; DCGM_FT_INT32_NOT_SUPPORTED;
         DCGM_FT_INT32_NOT_PERMISSIONED; DCGM_FT_INT64_BLANK; DCGM_FT_INT64_NOT_FOUND;
         DCGM_FT_INT64_NOT_SUPPORTED; DCGM_FT_INT64_NOT_PERMISSIONED])
     ∧ ToString value = Sprintf_d (dcgm.Int64 value)).
Proof.
  intros Ht. unfold ToString. rewrite (decide_True _ _ Ht).
  cbv zeta.
  repeat match goal with
         | |- context [decide (?a = ?b)] =>
             let e := fresh "e" in
             destruct (decide (a = b)) as [e|?];
             [left; split; [rewrite e, !elem_of_cons; auto 10 | reflexivity]|]
         end.
  right. split; [|reflexivity].
  rewrite !not_elem_of_cons. repeat split; try assumption. apply not_elem_of_nil.
Qed.

Lemma ToString_double (value : dcgm.FieldValue_v1 float) :
  dcgm.FieldType value = DCGM_FT_DOUBLE ->
  (Exists (fun s => PrimFloat.eqb (dcgm.Float64 value) s = true)
     [DCGM_FT_FP64_BLANK; DCGM_FT_FP64_NOT_FOUND; DCGM_FT_FP64_NOT_SUPPORTED;
      DCGM_FT_FP64_NOT_PERMISSIONED]
   ∧ ToString value = SkipDCGMValue)
  ∨ (Forall (fun s => PrimFloat.eqb (dcgm.Float64 value) s = false)
       [DCGM_FT_FP64_BLANK; DCGM_FT_FP64_NOT_FOUND; DCGM_FT_FP64_NOT_SUPPORTED;
        DCGM_FT_FP64_NOT_PERMISSIONED]
     ∧ ToString value = Binary64.format_f (dcgm.Float64 value)).
Proof.
  intros Ht. unfold ToString.
  rewrite (decide_False (P := dcgm.FieldType value = DCGM_FT_INT64)) by congruence.
  rewrite (decide_True _ _ Ht).
  change (@feq float binary64) with PrimFloat.eqb.
  repeat match goal with
         | |- context [if PrimFloat.eqb ?a ?b then _ else _] =>
             destruct (PrimFloat.eqb a b) eqn:?;
             [left; split; [rewrite !Exists_cons; auto 10 | reflexivity]|]
         end.
  right. split; [|reflexivity]. repeat constructor; assumption.
Qed.

Lemma ToString_string (value : dcgm.FieldValue_v1 float) :
  dcgm.FieldType value = DCGM_FT_STRING ->
  (dcgm.String value ∈
     [DCGM_FT_STR_BLANK; DCGM_FT_STR_NOT_FOUND; DCGM_FT_STR_NOT_SUPPORTED;
      DCGM_FT_STR_NOT_PERMISSIONED]
   ∧ ToString value = SkipDCGMValue)
  ∨ ((dcgm.String value ∉
        [DCGM_FT_STR_BLANK; DCGM_FT_STR_NOT_FOUND; DCGM_FT_STR_NOT_SUPPORTED;
         DCGM_FT_STR_NOT_PERMISSIONED])
     ∧ ToString value = dcgm.String value).
Proof.
  intros Ht. unfold ToString.
  rewrite (decide_False (P := dcgm.FieldType value = DCGM_FT_INT64)) by congruence.
  rewrite (decide_False (P := dcgm.FieldType value = DCGM_FT_DOUBLE)) by congruence.
  rewrite (decide_True _ _ Ht).
  cbv zeta.
  repeat match goal with
         | |- context [decide (?a = ?b)] =>
             let e := fresh "e" in
             destruct (decide (a = b)) as [e|?];
             [left; split; [rewrite e, !elem_of_cons; auto 10 | reflexivity]|]
         end.
  right. split; [|reflexivity].
  rewrite !not_elem_of_cons. repeat split; try assumption. apply not_elem_of_nil.
Qed.

(** On binary64 the markers are exact for numbers and in-band for strings:
    an int64 or double sample yields the skip marker only for a sentinel and
    never the conversion-failed marker; a string sample yields a marker also
    when its payload is that marker's text. *)
Theorem ToString_marker_iff (value : dcgm.FieldValue_v1 float) :
  (dcgm.FieldType value = DCGM_FT_INT64 ->
   (ToString value = SkipDCGMValue
    <-> dcgm.Int64 value ∈
          [DCGM_FT_INT32_BLANK; DCGM_FT_INT32_NOT_FOUND; DCGM_FT_INT32_NOT_SUPPORTED;
           DCGM_FT_INT32_NOT_PERMISSIONED; DCGM_FT_INT64_BLANK; DCGM_FT_INT64_NOT_FOUND;
           DCGM_FT_INT64_NOT_SUPPORTED; DCGM_FT_INT64_NOT_PERMISSIONED])
   ∧ ToString value ≠ FailedToConvert)
  ∧ (dcgm.FieldType value = DCGM_FT_DOUBLE ->
     (ToString value = SkipDCGMValue
      <-> Exists (fun s => PrimFloat.eqb (dcgm.Float64 value) s = true)
            [DCGM_FT_FP64_BLANK; DCGM_FT_FP64_NOT_FOUND; DCGM_FT_FP64_NOT_SUPPORTED;
             DCGM_FT_FP64_NOT_PERMISSIONED])
     ∧ ToString value ≠ FailedToConvert)
  ∧ (dcgm.FieldType value = DCGM_FT_STRING ->
     (ToString value = SkipDCGMValue
      <-> dcgm.String value ∈
            [DCGM_FT_STR_BLANK; DCGM_FT_STR_NOT_FOUND; DCGM_FT_STR_NOT_SUPPORTED;
             DCGM_FT_STR_NOT_PERMISSIONED]
          ∨ dcgm.String value = SkipDCGMValue)
     ∧ (ToString value = FailedToConvert
        <-> (dcgm.String value ∉
               [DCGM_FT_STR_BLANK; DCGM_FT_STR_NOT_FOUND; DCGM_FT_STR_NOT_SUPPORTED;
                DCGM_FT_STR_NOT_PERMISSIONED])
            ∧ dcgm.String value = FailedToConvert)).
Proof.
  split; [|split].
  - intros Ht. destruct (ToString_int64 value Ht) as [[Hin ->]|[Hnot ->]].
    + split; [tauto | discriminate].
    + destruct (Sprintf_d_not_marker (dcgm.Int64 value)) as [Hs Hf]. tauto.
  - intros Ht. destruct (ToString_double value Ht) as [[Hex ->]|[Hall ->]].
    + split; [tauto | discriminate].
    + destruct (format_f_not_marker (dcgm.Float64 value)) as [Hs Hf].
      split; [|exact Hf]. split; [contradiction|].
      intros Hex. exfalso. apply Exists_exists in Hex as (s & Hs_in & Hs_eq).
      rewrite Forall_forall in Hall. rewrite (Hall s Hs_in) in Hs_eq. discriminate.
  - intros Ht. destruct (ToString_string value Ht) as [[Hin ->]|[Hnot ->]].
    + split; [tauto|]. split; [discriminate | tauto].
    + tauto.
Qed.

End Binary64.

End NormalizerFacts.

Lemma ToString_marker_witness :
  @ToString float Sample.f64 Sample.consts (Sample.string_sample 1 "SKIPPING DCGM VALUE")
  = SkipDCGMValue
  ∧ @ToString float Sample.f64 Sample.consts (Sample.int_sample 150 41) ≠ FailedToConvert.
Proof.
  assert (Hid : @DCGM_FT_INT64 float Sample.consts ≠ @DCGM_FT_DOUBLE float Sample.consts)
    by discriminate.
  assert (His : @DCGM_FT_INT64 float Sample.consts ≠ @DCGM_FT_STRING float Sample.consts)
    by discriminate.
  assert (Hds : @DCGM_FT_DOUBLE float Sample.consts ≠ @DCGM_FT_STRING float Sample.consts)
    by discriminate.
  pose proof (NormalizerFacts.ToString_marker_iff Binary64.parse_decimal (K := Sample.consts)
                Hid His Hds) as H.
  split.
  - apply (proj2 (proj1 (proj2 (proj2 (H (Sample.string_sample 1 "SKIPPING DCGM VALUE")))
                           eq_refl))).
    right. reflexivity.
  - exact (proj2 (proj1 (H (Sample.int_sample 150 41)) eq_refl)).
Defined.

(** ** Counter lookup on lists with unique field IDs *)

Section CounterFacts.

Lemma find_counter_None (c : list Counter) (fieldId : N) :
  find_counter c fieldId = None <-> Forall (fun x => FieldID x ≠ fieldId) c.
Proof.
  split; [|apply find_counter_absent].
  induction c as [|x c IH]; cbn [find_counter]; [constructor|].
  case_decide as Hx; [discriminate|]. intros Hc. constructor; [exact Hx | exact (IH Hc)].
Qed.

Lemma find_counter_NoDup (c : list Counter) (ci : Counter) :
  NoDup (FieldID <$> c) -> ci ∈ c -> find_counter c (FieldID ci) = Some ci.
Proof.
  induction c as [|x c IH]; intros Hnd Hin.
  - apply elem_of_nil in Hin. destruct Hin.
  - rewrite fmap_cons in Hnd. apply NoDup_cons in Hnd as [Hx Hnd].
    cbn [find_counter]. apply elem_of_cons in Hin as [->|Hin].
    + rewrite decide_True by reflexivity. reflexivity.
    + rewrite decide_False; [exact (IH Hnd Hin)|].
      intros Heq. apply Hx. rewrite Heq. apply list_elem_of_fmap_2. exact Hin.
Qed.

Lemma find_counter_Permutation (c c' : list Counter) (fieldId : N) :
  NoDup (FieldID <$> c) -> c ≡ₚ c' -> find_counter c fieldId = find_counter c' fieldId.
Proof.
  intros Hnd Hperm. destruct (find_counter c fieldId) as [ci|] eqn:Hfind.
  - apply find_counter_Some in Hfind as [Hin <-]. symmetry.
    apply find_counter_NoDup; [rewrite <- Hperm; exact Hnd | rewrite <- Hperm; exact Hin].
  - symmetry. apply find_counter_None. rewrite <- Hperm. apply find_counter_None, Hfind.
Qed.

Lemma FindCounterField_found (c : list Counter) (fieldId : N) (counter : Counter) :
  FindCounterField c fieldId = Ok (counter, None) <-> find_counter c fieldId = Some counter.
Proof.
  unfold FindCounterField. destruct (find_counter c fieldId) as [ci|].
  - split; intros [= ->]; reflexivity.
  - destruct c; split; discriminate.
Qed.

(** On a counter list whose field IDs are pairwise distinct, looking up the
    field ID of any counter of the list returns that very counter without an
    error, and the counter found for a field ID does not depend on the order
    of the list. *)
Theorem FindCounterField_unique_field_ids (c : list Counter) :
  NoDup (FieldID <$> c) ->
  (∀ ci, ci ∈ c -> FindCounterField c (FieldID ci) = Ok (ci, None))
  ∧ (∀ c' fieldId counter,
        c ≡ₚ c' ->
        FindCounterField c fieldId = Ok (counter, None)
        <-> FindCounterField c' fieldId = Ok (counter, None)).
Proof.
  intros Hnd. split.
  - intros ci Hin. apply FindCounterField_found, find_counter_NoDup; assumption.
  - intros c' fieldId counter Hperm.
    rewrite !FindCounterField_found, (find_counter_Permutation c c' fieldId Hnd Hperm).
    reflexivity.
Qed.

End CounterFacts.

Lemma FindCounterField_unique_witness :
  FindCounterField Sample.counters 150 = Ok (Sample.temperature, None)
  ∧ FindCounterField [Sample.driver; Sample.temperature; Sample.power] 150
    = Ok (Sample.temperature, None).
Proof.
  assert (Hnd : NoDup (FieldID <$> Sample.counters)).
  { cbn. repeat (apply NoDup_cons; split;
                 [rewrite ?not_elem_of_cons; repeat split; try discriminate;
                  apply not_elem_of_nil|]).
    apply NoDup_nil_2. }
  pose proof (FindCounterField_unique_field_ids Sample.counters Hnd) as [Hself Horder].
  assert (Hat : FindCounterField Sample.counters 150 = Ok (Sample.temperature, None)).
  { apply (Hself Sample.temperature). right. left. }
  split; [exact Hat|].
  apply (Horder [Sample.driver; Sample.temperature; Sample.power] 150%N Sample.temperature);
    [|exact Hat].
  unfold Sample.counters. rewrite (Permutation_swap Sample.temperature Sample.power [Sample.driver]).
  apply (Permutation_app_comm [Sample.temperature; Sample.power] [Sample.driver]).
Defined.

(** ** A cached profile without a slice count *)

Section BadProfileFacts.

Context {F : Type} {Fl : Float64 F}.

Lemma for_range_app {A S : Type} (body : S -> A -> outcome S) (l1 l2 : list A) (s : S) :
  for_range body (l1 ++ l2) s = (s' ← for_range body l1 s; for_range body l2 s').
Proof.
  revert s. induction l1 as [|x l1 IH]; intros s; [reflexivity|].
  cbn [app for_range]. destruct (body s x) as [s1|e]; cbn [mbind outcome_bind]; [apply IH | reflexivity].
Qed.

(** After the early [return] nothing of the rest of the cache is read. *)
Lemma power_loop_returned (id : string) (m : list (MigResources F)) (e : F * string) :
  for_range (power_loop_body id) m (inr e) = Ok (inr e).
Proof.
  induction m as [|device m IH]; [reflexivity|]. cbn [for_range power_loop_body mbind outcome_bind].
  exact IH.
Qed.

Lemma power_loop_parsable (id : string) (pre : list (MigResources F)) :
  Forall (fun device => is_Some (ExactFacts.slice_of (Profile device))) pre ->
  ∀ totalResource mig_instance,
    ∃ totalResource' mig_instance',
      for_range (power_loop_body id) pre (inl (totalResource, mig_instance))
      = Ok (inl (totalResource', mig_instance')).
Proof.
  induction 1 as [|device pre [s Hs] _ IH]; intros totalResource mig_instance.
  - eexists _, _. reflexivity.
  - cbn [for_range power_loop_body]. unfold ExactFacts.slice_of in Hs.
    destruct (Profile device) as [|b rest]; [discriminate|].
    cbn [first_byte mbind outcome_bind]. rewrite Hs. cbn [mbind outcome_bind]. apply IH.
Qed.

Lemma processMigCacheForPower_bad_profile (pre post : list (MigResources F))
    (bad : MigResources F) (id : string) (active_power : F) :
  Forall (fun device => is_Some (ExactFacts.slice_of (Profile device))) pre ->
  processMigCacheForPower (pre ++ bad :: post) id active_power
  = match Profile bad with
    | EmptyString => Fault IndexOutOfRange
    | String b _ =>
        match Atoi (string_of_byte b) with
        | None => Ok (fzero, Some "No profile scaling factor found")
        | Some _ => processMigCacheForPower (pre ++ bad :: post) id active_power
        end
    end.
Proof.
  intros Hpre. destruct (Profile bad) as [|b rest] eqn:Hp.
  - unfold processMigCacheForPower. rewrite for_range_app.
    destruct (power_loop_parsable id pre Hpre zero_cache (Build_MigResources zero_cache "" ""))
      as (tot & inst & ->).
    cbn [mbind outcome_bind for_range power_loop_body]. rewrite Hp. reflexivity.
  - destruct (Atoi (string_of_byte b)) eqn:Ha; [reflexivity|].
    unfold processMigCacheForPower. rewrite for_range_app.
    destruct (power_loop_parsable id pre Hpre zero_cache (Build_MigResources zero_cache "" ""))
      as (tot & inst & ->).
    cbn [mbind outcome_bind for_range power_loop_body]. rewrite Hp.
    cbn [first_byte mbind outcome_bind]. rewrite Ha. cbn [mbind outcome_bind].
    rewrite power_loop_returned. reflexivity.
Qed.

(** One cached profile without a leading integer disables the weighted
    formula for every instance of the GPU: on a power sample whose own profile
    and value parse, when the first cached entry whose profile has no slice
    count starts with a character that is no integer, migDeviceResource
    returns the naive share (active and idle power times S / 7) for any
    instance ID, whatever follows in the cache; when that entry's profile is
    empty the call panics with an index out of range. *)
Theorem migDeviceResource_bad_cached_profile (v profile id : string) (gpu : N)
    (counter : Counter) (migResourceCache : gmap N (list (MigResources F)))
    (pre post : list (MigResources F)) (bad : MigResources F)
    (b : ascii) (rest : string) (S : Z) (P : F) :
  FieldID counter = 155%N ->
  profile = String b rest -> Atoi (string_of_byte b) = Some S ->
  ParseFloat v = Some P ->
  migResourceCache !! gpu = Some (pre ++ bad :: post)%list ->
  Forall (fun device => is_Some (ExactFacts.slice_of (Profile device))) pre ->
  ExactFacts.slice_of (Profile bad) = None ->
  migDeviceResource v profile id gpu counter migResourceCache
  = if decide (Profile bad = "") then Fault IndexOutOfRange
    else Ok (Sprintf_f ((P - min (of_int 90) P) * of_int S / of_int 7
                        + min (of_int 90) P * of_int S / of_int 7)%f64).
Proof.
  intros Hid -> Hs Hv Hcache Hpre Hbad. unfold migDeviceResource.
  rewrite bool_decide_true by exact Hid. cbn [first_byte mbind outcome_bind].
  rewrite Hs, Hv, Hcache.
  rewrite (processMigCacheForPower_bad_profile pre post bad id _ Hpre).
  unfold ExactFacts.slice_of in Hbad. destruct (Profile bad) as [|b' rest'].
  - rewrite decide_True by reflexivity. reflexivity.
  - rewrite decide_False by discriminate. rewrite Hbad. reflexivity.
Qed.

End BadProfileFacts.

(** ** The attributed power in exact arithmetic *)

Module AttributionFacts.

Import ExactFacts.



(** [min(90.0, value)] *)
Definition idle_power (P : Qc) : Qc :=
  match (Q2Qc (inject_Z 90) ?= P)%Qc with
  | Gt => P
  | _ => Q2Qc (inject_Z 90)
  end.






Lemma idle_power_le (P : Qc) : (idle_power P <= P)%Qc.
Proof.
  unfold idle_power. destruct (Q2Qc (inject_Z 90) ?= P)%Qc eqn:Hc.
  - apply Qceq_alt in Hc. rewrite Hc. apply Qcle_refl.
  - apply Qclt_le_weak. exact Hc.
  - apply Qcle_refl.
Qed.









Section Formula.

Variable parse : string -> option Exact.num.
Variable format : Exact.num -> string.

#[local] Instance exact_num : Float64 Exact.num := Exact.exact64 parse format.













End Formula.

End AttributionFacts.

(** ** More on the MIG resource cache *)

Section MigCacheEntries.

Context {F : Type} {Fl : Float64 F} {K : DcgmConstants F}.
Variable World : Type.
Variable EntityGetLatestValues :
  World -> N -> N -> list N -> list (dcgm.FieldValue_v1 F) * option dcgm.error * World.

Lemma mig_sample_body_usable (fieldId : N) (dimension : MigResourceCache F -> F)
    (migCache : MigResources F) (val : dcgm.FieldValue_v1 F) (x : F) :
  (fieldId, dimension) ∈
     [(1004%N, Tensor); (1005%N, Dram); (1006%N, FP64); (1007%N, FP32); (1008%N, FP16)] ->
  dcgm.FieldId val = fieldId ->
  ToString val ≠ SkipDCGMValue -> ParseFloat (ToString val) = Some x ->
  dimension (ResourceCache (mig_sample_body migCache val)) = x.
Proof.
  intros Hdim Hid Hskip Hparse. unfold mig_sample_body.
  rewrite decide_False by exact Hskip. rewrite Hparse, Hid.
  rewrite !elem_of_cons, elem_of_nil in Hdim.
  destruct Hdim as [[= -> ->]|[[= -> ->]|[[= -> ->]|[[= -> ->]|[[= -> ->]|[]]]]]];
    repeat (case_decide; [first [discriminate | reflexivity]|]); contradiction.
Qed.

Lemma foldl_mig_sample_body_unusable (fieldId : N) (dimension : MigResourceCache F -> F)
    (vals : list (dcgm.FieldValue_v1 F)) :
  (fieldId, dimension) ∈
     [(1004%N, Tensor); (1005%N, Dram); (1006%N, FP64); (1007%N, FP32); (1008%N, FP16)] ->
  Forall (unusable fieldId) vals ->
  ∀ migCache,
    dimension (ResourceCache (foldl mig_sample_body migCache vals))
    = dimension (ResourceCache migCache).
Proof.
  intros Hdim. induction 1 as [|val vals Hval _ IH]; intros migCache; [reflexivity|].
  cbn [foldl]. rewrite IH. apply (mig_sample_body_unusable fieldId); assumption.
Qed.

(** Of the samples of one utilization field the last usable one is cached:
    when a sample of the field is neither the skip marker nor unparsable and
    every later sample of that field is, the entry holds the parsed value of
    that sample in the field's dimension, whatever came before it. *)
Theorem mig_entry_last_usable_sample (fieldId : N) (dimension : MigResourceCache F -> F)
    (pre post : list (dcgm.FieldValue_v1 F)) (val : dcgm.FieldValue_v1 F)
    (instanceInfo : GPUInstanceInfo) (x : F) :
  (fieldId, dimension) ∈
     [(1004%N, Tensor); (1005%N, Dram); (1006%N, FP64); (1007%N, FP32); (1008%N, FP16)] ->
  dcgm.FieldId val = fieldId ->
  ToString val ≠ SkipDCGMValue -> ParseFloat (ToString val) = Some x ->
  Forall (unusable fieldId) post ->
  dimension (ResourceCache (mig_entry (pre ++ val :: post) instanceInfo)) = x.
Proof.
  intros Hdim Hid Hskip Hparse Hpost. unfold mig_entry. cbn [ResourceCache].
  rewrite foldl_app. cbn [foldl].
  rewrite (foldl_mig_sample_body_unusable fieldId dimension post Hdim Hpost).
  apply (mig_sample_body_usable fieldId); assumption.
Qed.

Lemma instance_ids_of_partitions (l : list MonitoringInfo) :
  snd <$> omap (fun mi =>
                  (fun instanceInfo =>
                     (ProfileName instanceInfo,
                      Sprintf_d (Z.of_N (Info_NvmlInstanceId instanceInfo)))) <$> InstanceInfo mi) l
  = (fun n => Sprintf_d (Z.of_N n)) <$> omap (fun mi => Info_NvmlInstanceId <$> InstanceInfo mi) l.
Proof.
  induction l as [|mi l IH]; [reflexivity|].
  cbn [omap list_omap]. destruct (InstanceInfo mi) as [instanceInfo|];
    cbn [fmap option_fmap option_map]; [|exact IH].
  rewrite !fmap_cons. cbn [snd]. f_equal. exact IH.
Qed.

(** When the sampling never reports an invalid connection and the list is
    made of MIG partitions, the partitions of a GPU whose NVML instance IDs
    are pairwise distinct get cache entries with pairwise distinct IDs, and
    every partition of the GPU finds an entry with its profile under the very
    ID string that ToMetric passes to migDeviceResource. *)
Theorem generateMigCache_distinct_instance_ids (monitoringInfo : list MonitoringInfo)
    (w : World) (gpu : N) :
  (∀ w group id fields,
      connection_not_valid (EntityGetLatestValues w group id fields).1.2 = false) ->
  Forall (fun mi => is_Some (InstanceInfo mi)) monitoringInfo ->
  NoDup (omap (fun mi => Info_NvmlInstanceId <$> InstanceInfo mi)
           (partitions_on gpu monitoringInfo)) ->
  ∃ cache w',
    generateMigCache World EntityGetLatestValues monitoringInfo w = Ok (cache, w')
    ∧ NoDup (ID <$> cache !!! gpu)
    ∧ ∀ mi instanceInfo,
        mi ∈ monitoringInfo -> InstanceInfo mi = Some instanceInfo ->
        dcgm.GPU (DeviceInfo mi) = gpu ->
        ∃ e, e ∈ cache !!! gpu
             ∧ ID e = Sprintf_d (Z.of_N (Info_NvmlInstanceId instanceInfo))
             ∧ Profile e = ProfileName instanceInfo.
Proof.
  intros Hvalid Hall Hnd.
  destruct (generateMigCache_loop_partitions World EntityGetLatestValues Hvalid
              monitoringInfo Hall ∅ w) as (cache & w' & Hrun & Hcache).
  exists cache, w'. split; [exact Hrun|].
  assert (Hentries : cache !!! gpu = entries_of gpu (sampled World EntityGetLatestValues monitoringInfo w)).
  { rewrite Hcache, lookup_total_empty. reflexivity. }
  pose proof (sampled_partitions World EntityGetLatestValues gpu monitoringInfo Hall w) as Hnames.
  rewrite <- Hentries in Hnames.
  split.
  - assert (Hids : ID <$> cache !!! gpu
                   = snd <$> ((fun e => (Profile e, ID e)) <$> cache !!! gpu)).
    { rewrite <- list_fmap_compose. reflexivity. }
    rewrite Hids, Hnames, instance_ids_of_partitions.
    apply NoDup_fmap_2; [|exact Hnd].
    intros n n' Heq. apply Sprintf_d_inj in Heq. lia.
  - intros mi instanceInfo Hin Hii Hgpu.
    assert (Hpair : (ProfileName instanceInfo, Sprintf_d (Z.of_N (Info_NvmlInstanceId instanceInfo)))
                    ∈ (fun e => (Profile e, ID e)) <$> cache !!! gpu).
    { rewrite Hnames. apply list_elem_of_omap. exists mi. split.
      - unfold partitions_on. apply list_elem_of_filter. split; [|exact Hin].
        split; [rewrite Hii; eexists; reflexivity | exact Hgpu].
      - rewrite Hii. reflexivity. }
    apply list_elem_of_fmap in Hpair as (e & Heq & He). injection Heq as Hp Hi.
    exists e. split; [exact He|]. split; congruence.
Qed.

End MigCacheEntries.

(** ** The builders: when they return, and what they append *)

Section BuilderFacts.

Context {F : Type} {Fl : Float64 F} {K : DcgmConstants F}.
Variable Fields : string -> list string.

(** The counter under which a builder files a sample as a metric: the first
    counter with the sample's field ID, unless that counter is label-typed
    or the sample is skipped. *)
Definition value_counter (c : list Counter) (val : dcgm.FieldValue_v1 F) : option Counter :=
  match find_counter c (dcgm.FieldId val) with
  | Some counter =>
      if decide (PromType counter = "label") then None
      else if decide (ToString val = SkipDCGMValue) then None
      else Some counter
  | None => None
  end.

Lemma FindCounterField_returns (c : list Counter) (fieldId : N) :
  c ≠ [] -> ∃ r, FindCounterField c fieldId = Ok r.
Proof.
  intros Hc. unfold FindCounterField. destruct (find_counter c fieldId) as [ci|].
  - eexists. reflexivity.
  - destruct c as [|c0 rest]; [contradiction|]. eexists. reflexivity.
Qed.

Lemma entity_step_returns (GPUDevice : string) (c : list Counter) (mi : MonitoringInfo)
    (useOld : bool) (hostname : string) (labels : loc) (val : dcgm.FieldValue_v1 F) :
  c ≠ [] -> ∃ k, entity_step GPUDevice c mi useOld hostname labels val = Ok k.
Proof.
  intros Hc. unfold entity_step.
  destruct (FindCounterField_returns c (dcgm.FieldId val) Hc) as [[counter [err|]] ->];
    cbn [mbind outcome_bind]; [eexists; reflexivity|].
  repeat case_decide; eexists; reflexivity.
Qed.

Lemma power_loop_returns (id : string) (m : list (MigResources F)) :
  Forall (fun device => Profile device ≠ "") m ->
  ∀ st, ∃ st', for_range (power_loop_body id) m st = Ok st'.
Proof.
  induction 1 as [|device m Hp _ IH]; intros st; [eexists; reflexivity|].
  cbn [for_range]. destruct st as [[totalResource mig_instance]|e]; cbn [power_loop_body].
  - destruct (Profile device) as [|b rest]; [contradiction|].
    cbn [first_byte mbind outcome_bind].
    destruct (Atoi (string_of_byte b)); cbn [mbind outcome_bind]; apply IH.
  - cbn [mbind outcome_bind]. apply IH.
Qed.

Lemma processMigCacheForPower_returns (m : list (MigResources F)) (id : string)
    (active_power : F) :
  Forall (fun device => Profile device ≠ "") m ->
  ∃ r, processMigCacheForPower m id active_power = Ok r.
Proof.
  intros Hm. unfold processMigCacheForPower.
  destruct (power_loop_returns id m Hm (inl (zero_cache, Build_MigResources zero_cache "" "")))
    as [st' ->].
  cbn [mbind outcome_bind]. destruct st' as [[totalResource mig_instance]|[x e]].
  - cbv zeta. destruct (negb _); eexists; reflexivity.
  - eexists. reflexivity.
Qed.

Lemma migDeviceResource_returns (v profile id : string) (gpu : N) (counter : Counter)
    (migResourceCache : gmap N (list (MigResources F))) :
  profile ≠ "" -> Forall (fun device => Profile device ≠ "") (migResourceCache !!! gpu) ->
  ∃ s, migDeviceResource v profile id gpu counter migResourceCache = Ok s.
Proof.
  intros Hp Hm. unfold migDeviceResource.
  destruct (negb _); [eexists; reflexivity|].
  destruct profile as [|b rest]; [contradiction|]. cbn [first_byte mbind outcome_bind].
  destruct (Atoi (string_of_byte b)); [|eexists; reflexivity].
  destruct (ParseFloat v); [|eexists; reflexivity].
  rewrite lookup_total_alt in Hm.
  destruct (migResourceCache !! gpu) as [cachedResource|]; [|eexists; reflexivity].
  cbn [default] in Hm.
  match goal with
  | |- context [processMigCacheForPower ?m ?i ?a] =>
      destruct (processMigCacheForPower_returns m i a Hm) as [r ->]
  end.
  cbn [mbind outcome_bind]. eexists. reflexivity.
Qed.

Lemma ToMetric_step_returns (c : list Counter) (d : dcgm.Device)
    (instanceInfo : option GPUInstanceInfo) (useOld : bool) (hostname : string)
    (replaceBlanksInModelName : bool) (migResourceCache : gmap N (list (MigResources F)))
    (labels : loc) (val : dcgm.FieldValue_v1 F) :
  c ≠ [] ->
  (∀ ii, instanceInfo = Some ii ->
         ProfileName ii ≠ ""
         ∧ Forall (fun device => Profile device ≠ "") (migResourceCache !!! dcgm.GPU d)) ->
  ∃ k, ToMetric_step Fields c d instanceInfo useOld hostname replaceBlanksInModelName
         migResourceCache labels val = Ok k.
Proof.
  intros Hc Hmig. unfold ToMetric_step. case_decide; [eexists; reflexivity|].
  destruct (FindCounterField_returns c (dcgm.FieldId val) Hc) as [[counter [err|]] ->];
    cbn [mbind outcome_bind]; [eexists; reflexivity|].
  case_decide; [eexists; reflexivity|].
  destruct instanceInfo as [ii|]; cbn [mbind outcome_bind]; [|eexists; reflexivity].
  destruct (Hmig ii eq_refl) as [Hp Hm].
  destruct (migDeviceResource_returns (ToString val) (ProfileName ii)
              (Sprintf_d (Z.of_N (Info_NvmlInstanceId ii))) (dcgm.GPU d) counter
              migResourceCache Hp Hm) as [s ->].
  cbn [mbind outcome_bind]. eexists. reflexivity.
Qed.

Lemma builder_pass_panics (step : loc -> dcgm.FieldValue_v1 F -> outcome pass_step)
    (metrics : MetricsByCounter) (store : label_store) (val : dcgm.FieldValue_v1 F)
    (rest : list (dcgm.FieldValue_v1 F)) (e : fault) :
  step (length store) val = Fault e ->
  builder_pass step metrics store (val :: rest) = Fault e.
Proof. intros Hstep. unfold builder_pass. cbn [for_range]. rewrite Hstep. reflexivity. Qed.

Lemma ToMetric_step_no_counters (d : dcgm.Device) (instanceInfo : option GPUInstanceInfo)
    (useOld : bool) (hostname : string) (replaceBlanksInModelName : bool)
    (migResourceCache : gmap N (list (MigResources F))) (labels : loc)
    (val : dcgm.FieldValue_v1 F) :
  ToMetric_step Fields [] d instanceInfo useOld hostname replaceBlanksInModelName
    migResourceCache labels val
  = if decide (ToString val = SkipDCGMValue) then Ok Continue else Fault IndexOutOfRange.
Proof. unfold ToMetric_step. case_decide; reflexivity. Qed.

Lemma ToMetric_no_counters (d : dcgm.Device) (instanceInfo : option GPUInstanceInfo)
    (useOld : bool) (hostname : string) (replaceBlanksInModelName : bool)
    (migResourceCache : gmap N (list (MigResources F))) (labels : loc)
    (values : list (dcgm.FieldValue_v1 F)) :
  ∀ st : builder_state,
    for_range (fun st val =>
                 k ← ToMetric_step Fields [] d instanceInfo useOld hostname
                       replaceBlanksInModelName migResourceCache labels val;
                 Ok (apply_step labels st k)) values st
    = if decide (Forall (fun val => ToString val = SkipDCGMValue) values)
      then Ok st else Fault IndexOutOfRange.
Proof.
  set (body := fun (st : builder_state) val =>
                 k ← ToMetric_step Fields [] d instanceInfo useOld hostname
                       replaceBlanksInModelName migResourceCache labels val;
                 Ok (apply_step labels st k)).
  induction values as [|val values IH]; intros st.
  - rewrite decide_True by constructor. reflexivity.
  - cbn [for_range].
    assert (Hbody : body st val
                    = if decide (ToString val = SkipDCGMValue) then Ok st
                      else Fault IndexOutOfRange).
    { unfold body. rewrite ToMetric_step_no_counters.
      destruct (decide (ToString val = SkipDCGMValue)); reflexivity. }
    rewrite Hbody. destruct (decide (ToString val = SkipDCGMValue)) as [Hskip|Hskip].
    + cbn [mbind outcome_bind]. rewrite IH.
      destruct (decide (Forall _ values)) as [Hall|Hnot].
      * rewrite decide_True by (constructor; assumption). reflexivity.
      * rewrite decide_False; [reflexivity|].
        intros Hall. apply Hnot. apply Forall_cons in Hall. apply Hall.
    + cbn [mbind outcome_bind].
      rewrite decide_False; [reflexivity|].
      intros Hall. apply Forall_cons in Hall. destruct Hall as [Hval _]. contradiction.
Qed.

(** The builders return on every list of samples when the counter list is
    not empty (ToMetric on a MIG instance: when its profile and the cached
    profiles of its GPU are not empty).  With an empty counter list the switch
    and the CPU builder panic on the first sample, and ToMetric panics unless
    every sample is skipped. *)
Theorem builders_return_unless_counters_are_empty (metrics : MetricsByCounter)
    (store : label_store) (values : list (dcgm.FieldValue_v1 F)) (c : list Counter)
    (d : dcgm.Device) (instanceInfo : option GPUInstanceInfo) (mi : MonitoringInfo)
    (useOld : bool) (hostname : string) (replaceBlanksInModelName : bool)
    (migResourceCache : gmap N (list (MigResources F))) :
  (c ≠ [] ->
   (∃ st', ToSwitchMetric metrics store values c mi useOld hostname = Ok st')
   ∧ (∃ st', ToCPUMetric metrics store values c mi useOld hostname = Ok st')
   ∧ ((∀ ii, instanceInfo = Some ii ->
             ProfileName ii ≠ ""
             ∧ Forall (fun device => Profile device ≠ "") (migResourceCache !!! dcgm.GPU d)) ->
      ∃ st', ToMetric Fields metrics store values c d instanceInfo useOld hostname
               replaceBlanksInModelName migResourceCache = Ok st'))
  ∧ (values ≠ [] ->
     ToSwitchMetric metrics store values [] mi useOld hostname = Fault IndexOutOfRange
     ∧ ToCPUMetric metrics store values [] mi useOld hostname = Fault IndexOutOfRange)
  ∧ ToMetric Fields metrics store values [] d instanceInfo useOld hostname
      replaceBlanksInModelName migResourceCache
    = if decide (Forall (fun val => ToString val = SkipDCGMValue) values)
      then Ok (metrics, (store ++ [∅])%list) else Fault IndexOutOfRange.
Proof.
  split; [|split].
  - intros Hc. split; [|split].
    + apply builder_pass_returns, Forall_forall. intros val _. apply entity_step_returns, Hc.
    + apply builder_pass_returns, Forall_forall. intros val _. apply entity_step_returns, Hc.
    + intros Hmig. apply builder_pass_returns, Forall_forall. intros val _.
      apply ToMetric_step_returns; assumption.
  - intros Hv. destruct values as [|val rest]; [contradiction|].
    split; apply builder_pass_panics; reflexivity.
  - unfold ToMetric, builder_pass. apply ToMetric_no_counters.
Qed.

(** *** What a pass appends *)

Lemma value_counter_found (c : list Counter) (val : dcgm.FieldValue_v1 F) (counter : Counter) :
  FindCounterField c (dcgm.FieldId val) = Ok (counter, None) ->
  PromType counter ≠ "label" -> ToString val ≠ SkipDCGMValue ->
  value_counter c val = Some counter.
Proof.
  intros Hfind Hlabel Hskip. apply FindCounterField_found in Hfind.
  unfold value_counter. rewrite Hfind.
  rewrite (decide_False (P := PromType counter = "label")) by exact Hlabel.
  rewrite decide_False by exact Hskip. reflexivity.
Qed.

(** What one iteration of a builder does, in terms of [value_counter]. *)
Definition files_under (c : list Counter) (labels : loc) (val : dcgm.FieldValue_v1 F)
    (k : pass_step) : Prop :=
  match k with
  | Append m =>
      value_counter c val = Some (Metric.Counter m)
      ∧ Metric.Value m = ToString val ∧ Metric.Labels m = labels
  | _ => value_counter c val = None
  end.

Lemma entity_step_files_under (GPUDevice : string) (c : list Counter) (mi : MonitoringInfo)
    (useOld : bool) (hostname : string) (labels : loc) (val : dcgm.FieldValue_v1 F)
    (k : pass_step) :
  entity_step GPUDevice c mi useOld hostname labels val = Ok k -> files_under c labels val k.
Proof.
  unfold entity_step, FindCounterField, files_under, value_counter.
  destruct (find_counter c (dcgm.FieldId val)) as [counter|].
  - cbn [mbind outcome_bind]. case_decide; [intros [= <-]; reflexivity|].
    case_decide; [intros [= <-]; reflexivity|].
    intros [= <-]. cbn. auto.
  - destruct c as [|c0 rest]; [discriminate|]. cbn [mbind outcome_bind].
    intros [= <-]. reflexivity.
Qed.

Lemma ToMetric_step_files_under (c : list Counter) (d : dcgm.Device) (useOld : bool)
    (hostname : string) (replaceBlanksInModelName : bool)
    (migResourceCache : gmap N (list (MigResources F))) (labels : loc)
    (val : dcgm.FieldValue_v1 F) (k : pass_step) :
  ToMetric_step Fields c d None useOld hostname replaceBlanksInModelName migResourceCache
    labels val = Ok k ->
  files_under c labels val k.
Proof.
  unfold ToMetric_step, FindCounterField, files_under, value_counter.
  destruct (decide (ToString val = SkipDCGMValue)) as [Hskip|Hskip].
  - intros [= <-]. destruct (find_counter c (dcgm.FieldId val)); [|reflexivity].
    case_decide; reflexivity.
  - destruct (find_counter c (dcgm.FieldId val)) as [counter|].
    + cbn [mbind outcome_bind]. case_decide; [intros [= <-]; reflexivity|].
      intros [= <-]. cbn. auto.
    + destruct c as [|c0 rest]; [discriminate|]. cbn [mbind outcome_bind].
      intros [= <-]. reflexivity.
Qed.

Lemma appended_values (c : list Counter) (labels : loc) (k : Counter)
    (values : list (dcgm.FieldValue_v1 F)) (ks : list pass_step) :
  Forall2 (files_under c labels) values ks ->
  Metric.Value <$> filter (fun m => Metric.Counter m = k) (appended ks)
  = ToString <$> filter (fun val => value_counter c val = Some k) values
  ∧ Forall (fun m => Metric.Labels m = labels) (appended ks).
Proof.
  induction 1 as [|val step values ks Hstep _ [IHv IHl]]; [split; [reflexivity | constructor]|].
  destruct step as [|name v|m]; cbn [files_under] in Hstep.
  - change (appended (Continue :: ks)) with (appended ks).
    rewrite (filter_cons_False (fun val => value_counter c val = Some k)) by congruence.
    split; assumption.
  - change (appended (SetLabel name v :: ks)) with (appended ks).
    rewrite (filter_cons_False (fun val => value_counter c val = Some k)) by congruence.
    split; assumption.
  - change (appended (Append m :: ks)) with (m :: appended ks).
    destruct Hstep as (Hc & Hv & Hl). split; [|constructor; assumption].
    destruct (decide (Metric.Counter m = k)) as [Hk|Hk].
    + rewrite (filter_cons_True (fun m => Metric.Counter m = k)) by exact Hk.
      rewrite (filter_cons_True (fun val => value_counter c val = Some k)) by congruence.
      rewrite !fmap_cons, IHv, Hv. reflexivity.
    + rewrite (filter_cons_False (fun m => Metric.Counter m = k)) by exact Hk.
      rewrite (filter_cons_False (fun val => value_counter c val = Some k)) by congruence.
      exact IHv.
Qed.

Lemma pass_appends_in_order (step : loc -> dcgm.FieldValue_v1 F -> outcome pass_step)
    (c : list Counter) (metrics metrics' : MetricsByCounter) (store store' : label_store)
    (values : list (dcgm.FieldValue_v1 F)) (k : Counter) :
  (∀ labels val s, step labels val = Ok s -> files_under c labels val s) ->
  builder_pass step metrics store values = Ok (metrics', store') ->
  ∃ new : list Metric.t,
    metrics' !!! k = (metrics !!! k ++ new)%list
    ∧ Metric.Value <$> new
      = ToString <$> filter (fun val => value_counter c val = Some k) values
    ∧ Forall (fun m => Metric.Counter m = k ∧ Metric.Labels m = length store) new.
Proof.
  intros Hstep Hrun.
  destruct (builder_pass_steps _ _ _ _ _ _ Hrun) as (ks & Hks & _ & Hmetrics).
  assert (Hfiles : Forall2 (files_under c (length store)) values ks).
  { eapply Forall2_impl; [exact Hks|]. intros val s. apply Hstep. }
  destruct (appended_values c (length store) k values ks Hfiles) as [Hv Hl].
  exists (filter (fun m => Metric.Counter m = k) (appended ks)).
  split; [apply Hmetrics|]. split; [exact Hv|].
  apply Forall_forall. intros m Hm. apply list_elem_of_filter in Hm as [Hk Hm].
  split; [exact Hk|]. rewrite Forall_forall in Hl. apply Hl, Hm.
Qed.

(** A pass of ToSwitchMetric, of ToCPUMetric or of ToMetric on a GPU without
    MIG instance that returns has, for every counter, kept the metrics that
    were under it and appended after them one metric per sample that it files
    under the counter (the first counter with the sample's field ID, not
    label-typed, the sample not skipped), in sampling order, each with the
    normalized value of its sample and the label map of this pass. *)
Theorem builders_append_in_sampling_order (metrics metrics' : MetricsByCounter)
    (store store' : label_store) (values : list (dcgm.FieldValue_v1 F)) (c : list Counter)
    (d : dcgm.Device) (mi : MonitoringInfo) (useOld : bool) (hostname : string)
    (replaceBlanksInModelName : bool) (migResourceCache : gmap N (list (MigResources F)))
    (k : Counter) :
  ToMetric Fields metrics store values c d None useOld hostname replaceBlanksInModelName
    migResourceCache = Ok (metrics', store')
  ∨ ToSwitchMetric metrics store values c mi useOld hostname = Ok (metrics', store')
  ∨ ToCPUMetric metrics store values c mi useOld hostname = Ok (metrics', store') ->
  ∃ new : list Metric.t,
    metrics' !!! k = (metrics !!! k ++ new)%list
    ∧ Metric.Value <$> new
      = ToString <$> filter (fun val => value_counter c val = Some k) values
    ∧ Forall (fun m => Metric.Counter m = k ∧ Metric.Labels m = length store) new.
Proof.
  intros [Hrun|[Hrun|Hrun]].
  - refine (pass_appends_in_order _ c metrics metrics' store store' values k _ Hrun).
    intros labels val s. apply ToMetric_step_files_under.
  - refine (pass_appends_in_order _ c metrics metrics' store store' values k _ Hrun).
    intros labels val s. apply entity_step_files_under.
  - refine (pass_appends_in_order _ c metrics metrics' store store' values k _ Hrun).
    intros labels val s. apply entity_step_files_under.
Qed.

(** *** The model name *)

Lemma ReplaceAll_app (s t : string) :
  ReplaceAll_space_hyphen (s ++ t) = ReplaceAll_space_hyphen s ++ ReplaceAll_space_hyphen t.
Proof.
  induction s as [|ch s IH]; [reflexivity|].
  change (String ch s ++ t) with (String ch (s ++ t)).
  cbn [ReplaceAll_space_hyphen]. rewrite IH. reflexivity.
Qed.

Lemma ReplaceAll_no_space (s : string) :
  " "%char ∉ list_ascii_of_string (ReplaceAll_space_hyphen s).
Proof.
  induction s as [|ch s IH]; cbn [ReplaceAll_space_hyphen list_ascii_of_string].
  - apply not_elem_of_nil.
  - apply not_elem_of_cons. split; [|exact IH].
    destruct (Ascii.eqb ch " ") eqn:Hch; [discriminate|].
    intros Heq. rewrite <- Heq, Ascii.eqb_refl in Hch. discriminate.
Qed.

Lemma ReplaceAll_unchanged (s : string) :
  " "%char ∉ list_ascii_of_string s -> ReplaceAll_space_hyphen s = s.
Proof.
  induction s as [|ch s IH]; cbn [ReplaceAll_space_hyphen list_ascii_of_string]; [reflexivity|].
  intros Hnot. apply not_elem_of_cons in Hnot as [Hch Hs]. rewrite (IH Hs).
  destruct (Ascii.eqb ch " ") eqn:Heq; [|reflexivity].
  apply Ascii.eqb_eq in Heq. congruence.
Qed.

Lemma ReplaceAll_Join (parts : list string) :
  Forall (fun p => " "%char ∉ list_ascii_of_string p) parts ->
  ReplaceAll_space_hyphen (Join parts " ") = Join parts "-".
Proof.
  induction 1 as [|p parts Hp _ IH]; [reflexivity|].
  destruct parts as [|q parts]; cbn [Join]; [apply ReplaceAll_unchanged, Hp|].
  rewrite !ReplaceAll_app, (ReplaceAll_unchanged p Hp). cbn [Join] in IH. rewrite IH.
  reflexivity.
Qed.

(** With replaceBlanksInModelName the model name carries no space, whatever
    strings.Fields returns, and when the parts strings.Fields returns have no
    space it is these parts joined by hyphens; without the flag the name is
    the device's model string as it is. *)
Theorem getGPUModel_replaces_blanks (d : dcgm.Device) :
  (" "%char ∉ list_ascii_of_string (getGPUModel Fields d true))
  ∧ (Forall (fun p => " "%char ∉ list_ascii_of_string p) (Fields (dcgm.Identifiers_Model d)) ->
     getGPUModel Fields d true = Join (Fields (dcgm.Identifiers_Model d)) "-")
  ∧ getGPUModel Fields d false = dcgm.Identifiers_Model d.
Proof.
  unfold getGPUModel. split; [apply ReplaceAll_no_space|]. split; [apply ReplaceAll_Join|].
  reflexivity.
Qed.

End BuilderFacts.

(** ** The collector: one pass over the monitored entities *)

Section GetMetricsFacts.

Context {F : Type} {Fl : Float64 F} {K : DcgmConstants F} {G : EntityGroups}.
Variable Fields : string -> list string.
Variable World : Type.
Variable EntityGetLatestValues :
  World -> N -> N -> list N -> list (dcgm.FieldValue_v1 F) * option dcgm.error * World.
Variable LinkGetLatestValues :
  World -> N -> N -> list N -> list (dcgm.FieldValue_v1 F) * option dcgm.error * World.
Variable SystemInfo : Type.
Variable InfoType : SystemInfo -> N.
Variable GetMonitoredEntities : SystemInfo -> list MonitoringInfo.

#[local] Abbreviation sample :=
  (sample_entity World EntityGetLatestValues LinkGetLatestValues SystemInfo).
#[local] Abbreviation body :=
  (collect_body Fields World EntityGetLatestValues LinkGetLatestValues SystemInfo InfoType).

(** After the early [return] no further entity is sampled. *)
Lemma collect_returned (c : DCGMCollector SystemInfo)
    (migResourceCache : gmap N (list (MigResources F))) (l : list MonitoringInfo)
    (r : dcgm.error * World) :
  for_range (body c migResourceCache) l (inr r) = Ok (inr r).
Proof. induction l as [|mi l IH]; [reflexivity|]. cbn [for_range]. exact IH. Qed.

(** The error of an early return is not an invalid connection. *)
Definition ordinary_error (st : collect_state World) : Prop :=
  match st with
  | inl _ => True
  | inr (e, _) => connection_not_valid (Some e) = false
  end.

Lemma collect_body_cases (c : DCGMCollector SystemInfo)
    (migResourceCache : gmap N (list (MigResources F))) (bs : builder_state) (w : World)
    (mi : MonitoringInfo) (st' : collect_state World) :
  body c migResourceCache (inl (bs, w)) mi = Ok st' ->
  (∃ bs', (sample c mi w).1.2 = None
          ∧ build_entity Fields SystemInfo InfoType c migResourceCache mi (sample c mi w).1.1 bs
            = Ok bs'
          ∧ st' = inl (bs', (sample c mi w).2))
  ∨ (∃ e, (sample c mi w).1.2 = Some e ∧ connection_not_valid (Some e) = false
          ∧ st' = inr (e, (sample c mi w).2)).
Proof.
  unfold collect_body.
  destruct (sample c mi w) as [[vals [e|]] w1]; cbn [fst snd].
  - destruct (connection_not_valid (Some e)) eqn:Hvalid; [discriminate|].
    intros [= <-]. right. exists e. auto.
  - destruct (build_entity _ _ _ _ _ _ _ _) as [bs'|f] eqn:Hbuild; [|discriminate].
    cbn [mbind outcome_bind]. intros [= <-]. left. exists bs'. auto.
Qed.

Lemma collect_ordinary_error (c : DCGMCollector SystemInfo)
    (migResourceCache : gmap N (list (MigResources F))) (l : list MonitoringInfo) :
  ∀ st st', ordinary_error st -> for_range (body c migResourceCache) l st = Ok st' ->
            ordinary_error st'.
Proof.
  induction l as [|mi l IH]; intros st st' Hst Hrun.
  - injection Hrun as <-. exact Hst.
  - cbn [for_range] in Hrun.
    destruct (body c migResourceCache st mi) as [st1|f] eqn:Hbody; [|discriminate].
    cbn [mbind outcome_bind] in Hrun. apply (IH st1 st'); [|exact Hrun].
    destruct st as [[bs w]|r].
    + destruct (collect_body_cases c migResourceCache bs w mi st1 Hbody)
        as [(bs' & _ & _ & ->)|(e & _ & Hvalid & ->)]; [exact I | exact Hvalid].
    + injection Hbody as <-. exact Hst.
Qed.

Lemma collect_failed (c : DCGMCollector SystemInfo)
    (migResourceCache : gmap N (list (MigResources F))) (mi : MonitoringInfo)
    (l : list MonitoringInfo) :
  mi ∈ l -> (∀ w, (sample c mi w).1.2 ≠ None) ->
  ∀ st st', for_range (body c migResourceCache) l st = Ok st' -> ∃ r, st' = inr r.
Proof.
  intros Hin Hfails. induction l as [|x l IH]; intros st st' Hrun.
  - apply elem_of_nil in Hin. destruct Hin.
  - cbn [for_range] in Hrun.
    destruct (body c migResourceCache st x) as [st1|f] eqn:Hbody; [|discriminate].
    cbn [mbind outcome_bind] in Hrun.
    destruct st as [[bs w]|r].
    + destruct (collect_body_cases c migResourceCache bs w x st1 Hbody)
        as [(bs' & Hnone & _ & ->)|(e & _ & _ & ->)].
      * apply elem_of_cons in Hin as [->|Hin]; [contradiction (Hfails w Hnone)|].
        exact (IH Hin _ _ Hrun).
      * rewrite collect_returned in Hrun. injection Hrun as <-. eexists. reflexivity.
    + injection Hbody as <-. rewrite collect_returned in Hrun. injection Hrun as <-.
      eexists. reflexivity.
Qed.

(** GetMetrics returns all or nothing: when it returns, it returns either
    metrics and no error, or no metrics and an error that is not an invalid
    connection (which is fatal); and when the sampling of one monitored
    entity fails, it returns no metrics at all, also none of the entities
    sampled before that one. *)
Theorem GetMetrics_all_or_nothing (c : DCGMCollector SystemInfo) (w w' : World)
    (metrics : option MetricsByCounter) (err : option dcgm.error) (store : label_store) :
  GetMetrics Fields World EntityGetLatestValues LinkGetLatestValues SystemInfo InfoType
    GetMonitoredEntities c w = Ok (metrics, err, store, w') ->
  (is_Some metrics ∧ err = None
   ∨ metrics = None ∧ is_Some err ∧ connection_not_valid err = false)
  ∧ (∀ mi, mi ∈ GetMonitoredEntities (SysInfo c) ->
           (∀ w, (sample_entity World EntityGetLatestValues LinkGetLatestValues SystemInfo
                    c mi w).1.2 ≠ None) ->
           metrics = None).
Proof.
  unfold GetMetrics.
  destruct (generateMigCache World EntityGetLatestValues _ w) as [[cache w0]|f];
    [|discriminate].
  cbn [mbind outcome_bind fst snd].
  destruct (for_range _ _ _) as [st|f] eqn:Hloop; [|discriminate].
  cbn [mbind outcome_bind].
  pose proof (collect_ordinary_error c cache _ (inl (∅, [], w0)) st I Hloop) as Hord.
  destruct st as [[[metrics1 store1] w1]|[e w1]]; intros [= <- <- <- <-].
  - split; [left; split; [eexists; reflexivity | reflexivity]|].
    intros mi Hin Hfails.
    destruct (collect_failed c cache mi _ Hin Hfails _ _ Hloop) as [r Hr]. discriminate.
  - split; [|reflexivity]. right. split; [reflexivity|]. split; [eexists; reflexivity|].
    exact Hord.
Qed.

(** *** The label maps of the entities *)









(** *** When the collector returns *)

Lemma generateMigCache_returns (monitoringInfo : list MonitoringInfo) (w : World) :
  (∀ w group id fields,
      connection_not_valid (EntityGetLatestValues w group id fields).1.2 = false) ->
  ∃ r, generateMigCache World EntityGetLatestValues monitoringInfo w = Ok r.
Proof.
  intros Hvalid. unfold generateMigCache.
  destruct (decide (Forall (fun mi => is_Some (InstanceInfo mi)) monitoringInfo)) as [Hall|Hnot].
  - destruct (generateMigCache_loop_partitions World EntityGetLatestValues Hvalid
                monitoringInfo Hall ∅ w) as (cache & w' & -> & _).
    eexists. reflexivity.
  - apply not_Forall_Exists in Hnot; [|intros mi; apply _].
    destruct (generateMigCache_loop_nil_map World EntityGetLatestValues Hvalid monitoringInfo)
      with (migResourceCache := (∅ : gmap N (list (MigResources F)))) (w := w) as [w' ->].
    + eapply Exists_impl; [exact Hnot|]. intros mi Hmi. unfold compose in Hmi.
      destruct (InstanceInfo mi); [exfalso; apply Hmi; eexists; reflexivity | reflexivity].
    + eexists. reflexivity.
Qed.

Lemma build_entity_returns (c : DCGMCollector SystemInfo)
    (migResourceCache : gmap N (list (MigResources F))) (mi : MonitoringInfo)
    (vals : list (dcgm.FieldValue_v1 F)) (bs : builder_state) :
  Counters c ≠ [] ->
  (∀ ii, InstanceInfo mi = Some ii ->
         ProfileName ii ≠ ""
         ∧ Forall (fun device => Profile device ≠ "")
             (migResourceCache !!! dcgm.GPU (DeviceInfo mi))) ->
  ∃ bs', build_entity Fields SystemInfo InfoType c migResourceCache mi vals bs = Ok bs'.
Proof.
  intros Hc Hmig. unfold build_entity. repeat case_decide.
  - apply builder_pass_returns, Forall_forall. intros val _. apply entity_step_returns, Hc.
  - apply builder_pass_returns, Forall_forall. intros val _. apply entity_step_returns, Hc.
  - apply builder_pass_returns, Forall_forall. intros val _.
    apply ToMetric_step_returns; assumption.
Qed.

Lemma collect_body_built (c : DCGMCollector SystemInfo)
    (migResourceCache : gmap N (list (MigResources F))) (bs bs' : builder_state) (w : World)
    (mi : MonitoringInfo) :
  (sample c mi w).1.2 = None ->
  build_entity Fields SystemInfo InfoType c migResourceCache mi (sample c mi w).1.1 bs = Ok bs' ->
  body c migResourceCache (inl (bs, w)) mi = Ok (inl (bs', (sample c mi w).2)).
Proof.
  unfold collect_body. destruct (sample c mi w) as [[vals err] w1]. cbn [fst snd].
  intros -> ->. reflexivity.
Qed.

Lemma collect_returns (c : DCGMCollector SystemInfo)
    (migResourceCache : gmap N (list (MigResources F))) (l : list MonitoringInfo) :
  Counters c ≠ [] ->
  (∀ mi w, mi ∈ l -> (sample c mi w).1.2 = None) ->
  (∀ mi ii, mi ∈ l -> InstanceInfo mi = Some ii ->
            ProfileName ii ≠ ""
            ∧ Forall (fun device => Profile device ≠ "")
                (migResourceCache !!! dcgm.GPU (DeviceInfo mi))) ->
  ∀ bs w, ∃ bs' w', for_range (body c migResourceCache) l (inl (bs, w)) = Ok (inl (bs', w')).
Proof.
  intros Hc. induction l as [|mi l IH]; intros Hsample Hmig bs w.
  - exists bs, w. reflexivity.
  - cbn [for_range].
    pose proof (Hsample mi w (list_elem_of_here _ _)) as Hnone.
    destruct (build_entity_returns c migResourceCache mi (sample c mi w).1.1 bs Hc)
      as [bs1 Hbuild].
    { intros ii Hii. apply (Hmig mi ii); [left | exact Hii]. }
    rewrite (collect_body_built c migResourceCache bs bs1 w mi Hnone Hbuild).
    cbn [mbind outcome_bind]. apply IH.
    + intros mi' w' Hin. apply Hsample. right. exact Hin.
    + intros mi' ii Hin. apply Hmig. right. exact Hin.
Qed.

(** The cached profiles are the profile names of the monitored partitions. *)
Lemma generateMigCache_profiles (monitoringInfo : list MonitoringInfo) (w w' : World)
    (cache : gmap N (list (MigResources F))) (gpu : N) :
  (∀ w group id fields,
      connection_not_valid (EntityGetLatestValues w group id fields).1.2 = false) ->
  generateMigCache World EntityGetLatestValues monitoringInfo w = Ok (cache, w') ->
  (∀ mi ii, mi ∈ monitoringInfo -> InstanceInfo mi = Some ii -> ProfileName ii ≠ "") ->
  Forall (fun device => Profile device ≠ "") (cache !!! gpu).
Proof.
  intros Hvalid Hrun Hnames. unfold generateMigCache in Hrun.
  destruct (decide (Forall (fun mi => is_Some (InstanceInfo mi)) monitoringInfo)) as [Hall|Hnot].
  - destruct (generateMigCache_loop_partitions World EntityGetLatestValues Hvalid
                monitoringInfo Hall ∅ w) as (cache1 & w1 & Hrun1 & Hcache).
    rewrite Hrun1 in Hrun. injection Hrun as -> ->.
    pose proof (sampled_partitions World EntityGetLatestValues gpu monitoringInfo Hall w)
      as Hpairs.
    rewrite Hcache, lookup_total_empty. cbn [app].
    apply Forall_forall. intros e He.
    assert (Hpair : (Profile e, ID e)
                    ∈ (fun e => (Profile e, ID e))
                        <$> entries_of gpu (sampled World EntityGetLatestValues monitoringInfo w)).
    { apply list_elem_of_fmap. exists e. split; [reflexivity | exact He]. }
    rewrite Hpairs in Hpair. apply list_elem_of_omap in Hpair as (mi & Hmi & Heq).
    apply list_elem_of_filter in Hmi as [_ Hmi].
    destruct (InstanceInfo mi) as [ii|] eqn:Hii; [|discriminate].
    injection Heq as Hp _. rewrite <- Hp. exact (Hnames mi ii Hmi Hii).
  - apply not_Forall_Exists in Hnot; [|intros mi; apply _].
    destruct (generateMigCache_loop_nil_map World EntityGetLatestValues Hvalid monitoringInfo)
      with (migResourceCache := (∅ : gmap N (list (MigResources F)))) (w := w) as [w1 Hrun1].
    + eapply Exists_impl; [exact Hnot|]. intros mi Hmi. unfold compose in Hmi.
      destruct (InstanceInfo mi); [exfalso; apply Hmi; eexists; reflexivity | reflexivity].
    + rewrite Hrun1 in Hrun. injection Hrun as <- _. rewrite lookup_total_empty. constructor.
Qed.

(** The pass runs to its end when the cache sampling keeps its connection,
    the sampling of the monitored entities reports no error, the counter
    list is not empty and no MIG instance has an empty profile name. *)
Lemma GetMetrics_runs (c : DCGMCollector SystemInfo) (w : World) :
  Counters c ≠ [] ->
  (∀ w group id fields,
      connection_not_valid (EntityGetLatestValues w group id fields).1.2 = false) ->
  (∀ mi w, mi ∈ GetMonitoredEntities (SysInfo c) -> (sample c mi w).1.2 = None) ->
  (∀ mi ii, mi ∈ GetMonitoredEntities (SysInfo c) -> InstanceInfo mi = Some ii ->
            ProfileName ii ≠ "") ->
  ∃ metrics store w',
    GetMetrics Fields World EntityGetLatestValues LinkGetLatestValues SystemInfo InfoType
      GetMonitoredEntities c w = Ok (Some metrics, None, store, w').
Proof.
  intros Hc Hvalid Hsample Hnames. unfold GetMetrics.
  destruct (generateMigCache_returns (GetMonitoredEntities (SysInfo c)) w Hvalid)
    as [[cache w0] Hcache].
  rewrite Hcache. cbn [mbind outcome_bind fst snd].
  destruct (collect_returns c cache (GetMonitoredEntities (SysInfo c)) Hc)
    with (bs := ((∅, []) : builder_state)) (w := w0) as ([metrics store] & w' & ->).
  - intros mi w1 Hin. apply Hsample, Hin.
  - intros mi ii Hin Hii. split; [exact (Hnames mi ii Hin Hii)|].
    exact (generateMigCache_profiles _ w w0 cache _ Hvalid Hcache Hnames).
  - cbn [mbind outcome_bind]. exists metrics, store, w'. reflexivity.
Qed.

(** GetMetrics returns metrics, and no error, whenever no sampling call
    reports an error, the counter list is not empty and no monitored MIG
    instance has an empty profile name: under these conditions nothing in the
    pass panics or exits. *)
Theorem GetMetrics_returns_metrics (c : DCGMCollector SystemInfo) (w : World) :
  Counters c ≠ [] ->
  (∀ w group id fields, (EntityGetLatestValues w group id fields).1.2 = None) ->
  (∀ w id parent fields, (LinkGetLatestValues w id parent fields).1.2 = None) ->
  (∀ mi ii, mi ∈ GetMonitoredEntities (SysInfo c) -> InstanceInfo mi = Some ii ->
            ProfileName ii ≠ "") ->
  ∃ metrics store w',
    GetMetrics Fields World EntityGetLatestValues LinkGetLatestValues SystemInfo InfoType
      GetMonitoredEntities c w = Ok (Some metrics, None, store, w').
Proof.
  intros Hc Hentity Hlink Hnames. apply GetMetrics_runs.
  - exact Hc.
  - intros w0 group id fields. rewrite Hentity. reflexivity.
  - intros mi w0 _. unfold sample_entity. case_decide; [apply Hlink | apply Hentity].
  - exact Hnames.
Qed.

(** *** A monitored list with an entity that is no MIG instance *)

Lemma generateMigCache_loop_early_return (monitoringInfo : list MonitoringInfo) :
  Exists (fun mi => InstanceInfo mi = None) monitoringInfo ->
  ∀ (migResourceCache cache : gmap N (list (MigResources F))) (w w' : World),
    generateMigCache_loop World EntityGetLatestValues monitoringInfo migResourceCache w
    = Ok (cache, w') ->
    cache = ∅.
Proof.
  induction monitoringInfo as [|mi rest IH]; intros Hex migResourceCache cache w w' Hrun.
  - apply Exists_nil in Hex. destruct Hex.
  - cbn [generateMigCache_loop] in Hrun. destruct (InstanceInfo mi) as [instanceInfo|] eqn:Hii.
    + apply Exists_cons in Hex as [Hex|Hex]; [congruence|].
      destruct (EntityGetLatestValues w _ _ fileds) as [[vals err] w1].
      destruct (connection_not_valid err); [discriminate|].
      exact (IH Hex _ _ _ _ Hrun).
    + injection Hrun as <- _. reflexivity.
Qed.

Lemma migDeviceResource_without_cache (v profile id : string) (gpu : N) (counter : Counter)
    (migResourceCache : gmap N (list (MigResources F))) (value : string) :
  migResourceCache !! gpu = None ->
  migDeviceResource v profile id gpu counter migResourceCache = Ok value -> value = v.
Proof.
  intros Hnone. unfold migDeviceResource. rewrite Hnone.
  destruct (negb _); [intros [= <-]; reflexivity|].
  destruct profile as [|b rest]; [discriminate|]. cbn [first_byte mbind outcome_bind].
  destruct (Atoi (string_of_byte b)); [|intros [= <-]; reflexivity].
  destruct (ParseFloat v); intros [= <-]; reflexivity.
Qed.

Lemma build_entity_raw_values (c : DCGMCollector SystemInfo) (mi : MonitoringInfo)
    (vals : list (dcgm.FieldValue_v1 F)) (bs bs' : builder_state) :
  build_entity Fields SystemInfo InfoType c ∅ mi vals bs = Ok bs' ->
  ∀ k m, m ∈ bs'.1 !!! k ->
         m ∈ bs.1 !!! k ∨ ∃ val, val ∈ vals ∧ Metric.Value m = ToString val.
Proof.
  destruct bs as [metrics store], bs' as [metrics' store']. cbn [fst snd].
  unfold build_entity. cbn [fst snd]. intros Hrun k m Hm.
  assert (Hsteps : ∃ step ks,
             Forall2 (fun val s => step (length store) val = Ok s) vals ks
             ∧ (∀ val m, step (length store) val = Ok (Append m) -> Metric.Value m = ToString val)
             ∧ metrics' !!! k
               = (metrics !!! k ++ filter (fun m => Metric.Counter m = k) (appended ks))%list).
  { repeat case_decide.
    - destruct (builder_pass_steps _ _ _ _ _ _ Hrun) as (ks & Hks & _ & Hmetrics).
      eexists _, ks. split; [exact Hks|]. split; [|apply Hmetrics].
      intros val m' Hstep. apply entity_step_Append in Hstep. apply Hstep.
    - destruct (builder_pass_steps _ _ _ _ _ _ Hrun) as (ks & Hks & _ & Hmetrics).
      eexists _, ks. split; [exact Hks|]. split; [|apply Hmetrics].
      intros val m' Hstep. apply entity_step_Append in Hstep. apply Hstep.
    - destruct (builder_pass_steps _ _ _ _ _ _ Hrun) as (ks & Hks & _ & Hmetrics).
      eexists _, ks. split; [exact Hks|]. split; [|apply Hmetrics].
      intros val m' Hstep. apply ToMetric_step_Append in Hstep.
      destruct Hstep as (_ & _ & _ & _ & Hvalue).
      destruct (InstanceInfo mi) as [ii|]; [|apply Hvalue].
      destruct Hvalue as [Hvalue _].
      eapply migDeviceResource_without_cache; [apply lookup_empty | exact Hvalue]. }
  destruct Hsteps as (step & ks & Hks & Hvalue & Hmetrics).
  rewrite Hmetrics in Hm. apply elem_of_app in Hm as [Hm|Hm]; [left; exact Hm|].
  right. apply list_elem_of_filter in Hm as [_ Hm]. apply appended_elem_of in Hm.
  destruct (Forall2_elem_of_r _ _ _ _ Hks Hm) as (val & Hval & Hstep).
  exists val. split; [exact Hval | exact (Hvalue val m Hstep)].
Qed.

Lemma collect_raw_values (c : DCGMCollector SystemInfo) (all l : list MonitoringInfo) :
  ∀ (bs bs' : builder_state) (w w' : World),
    (∀ mi, mi ∈ l -> mi ∈ all) ->
    (∀ k m, m ∈ bs.1 !!! k ->
            ∃ mi w1 val, mi ∈ all ∧ val ∈ (sample c mi w1).1.1
                         ∧ Metric.Value m = ToString val) ->
    for_range (body c ∅) l (inl (bs, w)) = Ok (inl (bs', w')) ->
    ∀ k m, m ∈ bs'.1 !!! k ->
           ∃ mi w1 val, mi ∈ all ∧ val ∈ (sample c mi w1).1.1
                        ∧ Metric.Value m = ToString val.
Proof.
  induction l as [|mi l IH]; intros bs bs' w w' Hsub Hinv Hrun.
  - injection Hrun as <- <-. exact Hinv.
  - cbn [for_range] in Hrun.
    destruct (body c ∅ (inl (bs, w)) mi) as [st1|f] eqn:Hbody; [|discriminate].
    cbn [mbind outcome_bind] in Hrun.
    destruct (collect_body_cases c ∅ bs w mi st1 Hbody)
      as [(bs1 & _ & Hbuild & ->)|(e & _ & _ & ->)];
      [|rewrite collect_returned in Hrun; discriminate].
    apply (IH bs1 bs' (sample c mi w).2 w'); [| |exact Hrun].
    + intros mi' Hin. apply Hsub. right. exact Hin.
    + intros k m Hm.
      destruct (build_entity_raw_values c mi _ bs bs1 Hbuild k m Hm) as [Hold|(val & Hval & Hv)];
        [exact (Hinv k m Hold)|].
      exists mi, w, val. split; [apply Hsub; left|]. split; assumption.
Qed.

(** When the monitored list holds an entity without instance metadata (a GPU
    that is not partitioned, say), GetMetrics attributes nothing: the cache
    it works with is empty, and the value of every metric it returns, those
    of the MIG instances' power samples included, is the normalized value of
    a sample of one of the monitored entities as it came from the service. *)
Theorem GetMetrics_attributes_nothing_on_mixed_list (c : DCGMCollector SystemInfo)
    (w w' : World) (metrics : MetricsByCounter) (store : label_store) :
  GetMetrics Fields World EntityGetLatestValues LinkGetLatestValues SystemInfo InfoType
    GetMonitoredEntities c w = Ok (Some metrics, None, store, w') ->
  Exists (fun mi => InstanceInfo mi = None) (GetMonitoredEntities (SysInfo c)) ->
  ∀ k m, m ∈ metrics !!! k ->
         ∃ mi w1 val,
           mi ∈ GetMonitoredEntities (SysInfo c)
           ∧ val ∈ (sample_entity World EntityGetLatestValues LinkGetLatestValues SystemInfo
                      c mi w1).1.1
           ∧ Metric.Value m = ToString val.
Proof.
  unfold GetMetrics. intros Hrun Hex.
  destruct (generateMigCache World EntityGetLatestValues _ w) as [[cache w0]|f] eqn:Hcache;
    [|discriminate].
  apply (generateMigCache_loop_early_return _ Hex) in Hcache. subst cache.
  cbn [mbind outcome_bind fst snd] in Hrun.
  destruct (for_range _ _ _) as [st|f] eqn:Hloop; [|discriminate].
  cbn [mbind outcome_bind] in Hrun.
  destruct st as [[[metrics1 store1] w1]|[e w1]]; [|discriminate].
  injection Hrun as <- <- <-.
  refine (collect_raw_values c (GetMonitoredEntities (SysInfo c))
            (GetMonitoredEntities (SysInfo c)) (∅, []) (metrics1, store1) w0 w1
            (fun mi Hin => Hin) _ Hloop).
  intros k m Hm. cbn [fst] in Hm. rewrite lookup_total_empty in Hm.
  apply elem_of_nil in Hm. destruct Hm.
Qed.

End GetMetricsFacts.

(** ** A power sample that is not a number *)

Module NaNFacts.

Definition is_nan (x : float) : Prop := Prim2SF x = S754_nan.

Lemma sub_nan (x y : float) : is_nan x -> is_nan (PrimFloat.sub x y).
Proof. unfold is_nan. intros Hx. rewrite sub_spec, Hx. reflexivity. Qed.

Lemma mul_nan (x y : float) : is_nan x -> is_nan (PrimFloat.mul x y).
Proof. unfold is_nan. intros Hx. rewrite mul_spec, Hx. reflexivity. Qed.

Lemma div_nan (x y : float) : is_nan x -> is_nan (PrimFloat.div x y).
Proof. unfold is_nan. intros Hx. rewrite div_spec, Hx. reflexivity. Qed.

Lemma add_nan (x y : float) : is_nan x -> is_nan (PrimFloat.add x y).
Proof. unfold is_nan. intros Hx. rewrite add_spec, Hx. reflexivity. Qed.

Lemma eqb_nan (x : float) : is_nan x -> PrimFloat.eqb x x = false.
Proof. unfold is_nan. intros Hx. rewrite FloatAxioms.eqb_spec, Hx. reflexivity. Qed.

Lemma ltb_nan (x y : float) : is_nan x -> PrimFloat.ltb x y = false.
Proof. unfold is_nan. intros Hx. rewrite ltb_spec, Hx. reflexivity. Qed.

Lemma format_f_nan (x : float) : is_nan x -> Binary64.format_f x = "NaN".
Proof. unfold is_nan, Binary64.format_f. intros ->. reflexivity. Qed.

Section Binary64.

Variable parse : string -> option float.

#[local] Instance binary64_nan : Float64 float := Binary64.float64 parse.

Lemma processMigCacheForPower_nan (m : list (MigResources float)) (id : string)
    (active_power : float) :
  is_nan active_power -> Forall (fun device => Profile device ≠ "") m ->
  ∃ (x : float) (err : string), processMigCacheForPower m id active_power = Ok (x, Some err).
Proof.
  intros Hnan Hm. unfold processMigCacheForPower.
  destruct (power_loop_returns id m Hm (inl (zero_cache, Build_MigResources zero_cache "" "")))
    as [st' ->].
  cbn [mbind outcome_bind]. destruct st' as [[totalResource mig_instance]|[x e]];
    [|exists x, e; reflexivity].
  cbv zeta. change (feq ?a ?b) with (PrimFloat.eqb a b).
  change (active_power * summed (ResourceCache mig_instance) / summed totalResource)%f64
    with (PrimFloat.div (PrimFloat.mul active_power (summed (ResourceCache mig_instance)))
            (summed totalResource)).
  rewrite (eqb_nan _ (div_nan _ _ (mul_nan _ _ Hnan))). cbn [negb].
  eexists _, _. reflexivity.
Qed.

(** On binary64 a power sample that parses to NaN is reported as the string
    NaN: with a profile that has a slice count and a cache entry for the GPU
    whose profiles are not empty, migDeviceResource neither panics nor
    returns a number. *)
Theorem migDeviceResource_nan_power (v profile id : string) (gpu : N) (counter : Counter)
    (migResourceCache : gmap N (list (MigResources float)))
    (cachedResource : list (MigResources float)) (b : ascii) (rest : string) (S : Z)
    (P : float) :
  FieldID counter = 155%N ->
  profile = String b rest -> Atoi (string_of_byte b) = Some S ->
  ParseFloat v = Some P -> is_nan P ->
  migResourceCache !! gpu = Some cachedResource ->
  Forall (fun device => Profile device ≠ "") cachedResource ->
  migDeviceResource v profile id gpu counter migResourceCache = Ok "NaN".
Proof.
  intros Hid -> Hs Hv Hnan Hcache Hm. unfold migDeviceResource.
  rewrite bool_decide_true by exact Hid. cbn [first_byte mbind outcome_bind negb].
  rewrite Hs, Hv, Hcache.
  assert (Hmin : min (of_int 90) P = of_int 90).
  { unfold min. change (fgt (of_int 90) P) with (PrimFloat.ltb P (of_int 90)).
    rewrite (ltb_nan _ _ Hnan). reflexivity. }
  rewrite Hmin.
  assert (Hactive : is_nan (P - of_int 90)%f64) by (apply sub_nan; exact Hnan).
  destruct (processMigCacheForPower_nan cachedResource id _ Hactive Hm) as (x & err & ->).
  cbn [mbind outcome_bind]. f_equal.
  change (Sprintf_f ?t) with (Binary64.format_f t). apply format_f_nan.
  apply add_nan, div_nan, mul_nan. exact Hactive.
Qed.

End Binary64.

End NaNFacts.

(** ** More of the sample GPU, evaluated *)

Module SampleRuns.



(** The decimal parser of the sample, reading NaN as well. *)
Definition parse_with_nan (s : string) : option float :=
  if decide (s = "NaN") then Some PrimFloat.nan else Binary64.parse_decimal s.


Definition unnamed_profile : MigResources float :=
  Build_MigResources (Sample.tensor_only 1 10) "x.20gb" "9".
Definition no_profile : MigResources float :=
  Build_MigResources (Sample.tensor_only 1 10) "" "5".

(** Two services without state: one reports a temperature and the driver
    version for every entity, the other fails with a timeout. *)
Definition reporting (w : unit) (group id : N) (fields : list N)
  : list (dcgm.FieldValue_v1 float) * option dcgm.error * unit :=
  ([Sample.int_sample 150 41; Sample.string_sample 1 "535.1"], None, w).

Definition timing_out (w : unit) (group id : N) (fields : list N)
  : list (dcgm.FieldValue_v1 float) * option dcgm.error * unit :=
  ([], Some (dcgm.OtherError "timeout"), w).

(** A collector of switches; [SysInfo] is its [InfoType]. *)
Definition switches : DCGMCollector N :=
  {| Counters := Sample.counters; DeviceFields := [150%N; 1%N]; SysInfo := 3%N;
     Hostname := "node"; UseOldNamespace := false; ReplaceBlanksInModelName := false |}.

Definition two_switches (t : N) : list MonitoringInfo := [Sample.switch0; Sample.switch0].

(** A service that reports a power draw of 200 W for every entity, and a
    collector of GPUs on a host with a MIG partition and a GPU without. *)
Definition drawing (w : unit) (group id : N) (fields : list N)
  : list (dcgm.FieldValue_v1 float) * option dcgm.error * unit :=
  ([Sample.int_sample 155 200], None, w).

Definition gpus : DCGMCollector N :=
  {| Counters := Sample.counters; DeviceFields := [155%N]; SysInfo := 1%N;
     Hostname := "node"; UseOldNamespace := false; ReplaceBlanksInModelName := false |}.

Definition mixed_host (t : N) : list MonitoringInfo := [Sample.mig_A; Sample.plain_gpu1].

End SampleRuns.

Section EvaluatedRuns.

#[local] Instance run_f64 : Float64 float := Sample.f64.
#[local] Instance run_consts : DcgmConstants float := Sample.consts.
#[local] Instance run_groups : EntityGroups := entity_groups.

Lemma bad_cached_profile_witness :
  migDeviceResource "200" "3g.20gb" "1" 0%N Sample.power
    {[ 0%N := [Sample.partition_A; SampleRuns.unnamed_profile; SampleRuns.no_profile] ]}
  = Ok "85.714286".
Proof.
  rewrite (migDeviceResource_bad_cached_profile "200" "3g.20gb" "1" 0%N Sample.power
             {[ 0%N := [Sample.partition_A; SampleRuns.unnamed_profile; SampleRuns.no_profile] ]}
             [Sample.partition_A] [SampleRuns.no_profile] SampleRuns.unnamed_profile
             "3"%char "g.20gb" 3 (Binary64.float_of_Z 200)).
  - vm_compute. reflexivity.
  - reflexivity.
  - reflexivity.
  - vm_compute. reflexivity.
  - vm_compute. reflexivity.
  - apply lookup_singleton_eq.
  - repeat constructor. eexists. vm_compute. reflexivity.
  - vm_compute. reflexivity.
Defined.






Lemma last_usable_sample_witness :
  Tensor (ResourceCache
            (mig_entry [Sample.double_sample 1004 (Binary64.float_lit 9 10);
                        Sample.double_sample 1004 (Binary64.float_lit 5 10);
                        Sample.double_sample 1004 (Binary64.float_of_Z 140737488355328)]
               Sample.instance_A))
  = Binary64.float_lit 5 10.
Proof.
  apply (mig_entry_last_usable_sample 1004%N Tensor
           [Sample.double_sample 1004 (Binary64.float_lit 9 10)]
           [Sample.double_sample 1004 (Binary64.float_of_Z 140737488355328)]
           (Sample.double_sample 1004 (Binary64.float_lit 5 10)) Sample.instance_A).
  - left.
  - reflexivity.
  - vm_compute. discriminate.
  - vm_compute. reflexivity.
  - constructor; [|constructor]. intros _. left. vm_compute. reflexivity.
Defined.

Lemma distinct_instance_ids_witness :
  ∃ cache w',
    generateMigCache unit Sample.service [Sample.mig_A; Sample.mig_B] tt = Ok (cache, w')
    ∧ NoDup (ID <$> cache !!! 0%N).
Proof.
  destruct (generateMigCache_distinct_instance_ids unit Sample.service
              [Sample.mig_A; Sample.mig_B] tt 0%N) as (cache & w' & Hrun & Hnd & _).
  - intros w group id fields. reflexivity.
  - repeat constructor; eexists; reflexivity.
  - vm_compute. apply NoDup_cons. split; [|apply NoDup_singleton].
    rewrite list_elem_of_singleton. discriminate.
  - exists cache, w'. split; [exact Hrun | exact Hnd].
Defined.

Lemma sampling_order_witness :
  ∃ metrics' store' new,
    ToSwitchMetric ∅ []
      [Sample.int_sample 150 41; Sample.string_sample 1 "535.1"; Sample.int_sample 150 43;
       Sample.int_sample 150 2147483632]
      Sample.counters Sample.switch0 false "node" = Ok (metrics', store')
    ∧ metrics' !!! Sample.temperature
      = ((∅ : MetricsByCounter) !!! Sample.temperature ++ new)%list
    ∧ Metric.Value <$> new = ["41"; "43"].
Proof.
  destruct (builder_pass_returns
              (entity_step ("nvswitch" ++ Sprintf_d (Z.of_N (ParentId Sample.switch0)))
                 Sample.counters Sample.switch0 false "node")
              ∅ []
              [Sample.int_sample 150 41; Sample.string_sample 1 "535.1";
               Sample.int_sample 150 43; Sample.int_sample 150 2147483632])
    as [[metrics' store'] Hrun].
  { repeat constructor; eexists; vm_compute; reflexivity. }
  destruct (builders_append_in_sampling_order (fun model => [model]) ∅ metrics' [] store'
              [Sample.int_sample 150 41; Sample.string_sample 1 "535.1";
               Sample.int_sample 150 43; Sample.int_sample 150 2147483632]
              Sample.counters Sample.gpu0 Sample.switch0 false "node" false ∅
              Sample.temperature (or_intror (or_introl Hrun)))
    as (new & Hnew & Hvalues & _).
  exists metrics', store', new. split; [exact Hrun|]. split; [exact Hnew|].
  rewrite Hvalues. vm_compute. reflexivity.
Defined.

Lemma all_or_nothing_witness :
  ∃ metrics err store w',
    GetMetrics (fun model => [model]) unit SampleRuns.timing_out SampleRuns.timing_out
      N (fun t => t) SampleRuns.two_switches SampleRuns.switches tt
    = Ok (metrics, err, store, w')
    ∧ (is_Some metrics ∧ err = None
       ∨ metrics = None ∧ is_Some err ∧ connection_not_valid err = false).
Proof.
  assert (Hrun : GetMetrics (fun model => [model]) unit SampleRuns.timing_out
                   SampleRuns.timing_out N (fun t => t) SampleRuns.two_switches
                   SampleRuns.switches tt
                 = Ok (None, Some (dcgm.OtherError "timeout"), [], tt))
    by (vm_compute; reflexivity).
  eexists _, _, _, _. split; [exact Hrun|].
  exact (proj1 (GetMetrics_all_or_nothing (fun model => [model]) unit SampleRuns.timing_out
                  SampleRuns.timing_out N (fun t => t) SampleRuns.two_switches
                  SampleRuns.switches tt tt None (Some (dcgm.OtherError "timeout")) [] Hrun)).
Defined.

Lemma returns_metrics_witness :
  ∃ metrics store w',
    GetMetrics (fun model => [model]) unit SampleRuns.reporting SampleRuns.reporting
      N (fun t => t) SampleRuns.two_switches SampleRuns.switches tt
    = Ok (Some metrics, None, store, w').
Proof.
  apply (GetMetrics_returns_metrics (fun model => [model]) unit SampleRuns.reporting
           SampleRuns.reporting N (fun t => t) SampleRuns.two_switches SampleRuns.switches tt).
  - discriminate.
  - reflexivity.
  - reflexivity.
  - intros mi ii Hin Hii. exfalso. unfold SampleRuns.two_switches in Hin.
    rewrite !elem_of_cons, elem_of_nil in Hin. destruct Hin as [->|[->|[]]]; discriminate.
Defined.


Lemma mixed_list_witness :
  ∃ metrics store w',
    GetMetrics (fun model => [model]) unit SampleRuns.drawing SampleRuns.drawing
      N (fun t => t) SampleRuns.mixed_host SampleRuns.gpus tt
    = Ok (Some metrics, None, store, w')
    ∧ ∀ m, m ∈ metrics !!! Sample.power -> Metric.Value m = "200".
Proof.
  destruct (GetMetrics_runs (fun model => [model]) unit
              SampleRuns.drawing SampleRuns.drawing N (fun t => t)
              SampleRuns.mixed_host SampleRuns.gpus tt)
    as (metrics & store & w' & Hrun).
  - discriminate.
  - reflexivity.
  - intros mi w _. unfold sample_entity. case_decide; reflexivity.
  - intros mi ii Hin Hii. unfold SampleRuns.mixed_host in Hin.
    rewrite !elem_of_cons, elem_of_nil in Hin. destruct Hin as [->|[->|[]]].
    + injection Hii as <-. discriminate.
    + discriminate.
  - exists metrics, store, w'. split; [exact Hrun|]. intros m Hm.
    assert (Hex : Exists (fun mi => InstanceInfo mi = None)
                    (SampleRuns.mixed_host (SysInfo SampleRuns.gpus))).
    { apply Exists_cons_tl, Exists_cons_hd. reflexivity. }
    destruct (GetMetrics_attributes_nothing_on_mixed_list (fun model => [model]) unit
                SampleRuns.drawing SampleRuns.drawing N (fun t => t)
                SampleRuns.mixed_host SampleRuns.gpus tt w' metrics store Hrun
                Hex Sample.power m Hm)
      as (mi & w1 & val & _ & Hval & ->).
    unfold sample_entity, SampleRuns.drawing in Hval.
    destruct (decide _) in Hval; cbn [fst snd] in Hval;
      apply list_elem_of_singleton in Hval; subst val; vm_compute; reflexivity.
Defined.

Lemma nan_power_witness :
  @migDeviceResource float (Binary64.float64 SampleRuns.parse_with_nan)
    "NaN" "3g.20gb" "1" 0%N Sample.power {[ 0%N := [Sample.partition_A; Sample.partition_B] ]}
  = Ok "NaN".
Proof.
  apply (NaNFacts.migDeviceResource_nan_power SampleRuns.parse_with_nan "NaN" "3g.20gb" "1"
           0%N Sample.power {[ 0%N := [Sample.partition_A; Sample.partition_B] ]}
           [Sample.partition_A; Sample.partition_B] "3"%char "g.20gb" 3 PrimFloat.nan).
  - reflexivity.
  - reflexivity.
  - vm_compute. reflexivity.
  - reflexivity.
  - reflexivity.
  - apply lookup_singleton_eq.
  - repeat constructor; discriminate.
Defined.

End EvaluatedRuns.
